(** * KaMela Finance: ledger and obligation reconciliation

    A shallow embedding of the two programs of the repository:

    - [src/kamela_finance.py], the desktop program on a local SQLite file
      (modules [Kamela] and [Kamela64]);
    - [src/app.py], the sheet front-end on a remote tabular document
      (module [App]).

    Conventions of the embedding.

    - Amounts are [REAL] columns and Python floats in the source.  The
      desktop program is embedded twice.  Module [Kamela] holds an amount
      as an exact number ([Z], a count of the smallest unit of the
      currency): it is used for what the handlers do to the tables (rows,
      ids, order, frames, the texts of the dates), in statements that use
      the expressions of the code in the order of the code.  Module
      [Kamela64] holds an amount as the binary64 number it is, with the
      primitive floats of the kernel: it is used for whatever depends on
      the arithmetic (the tests on an amount, the sum [paid + amount], the
      running sum of the balance, NaN and the zeros).
    - [TEXT] columns are [string]; a column the schema lets be [NULL] and
      that a statement looks at is [option string].  Text is compared the
      way SQLite's BINARY collation does, byte by byte ([String.leb]).
    - The closed value sets of the read-only comboboxes are inductive types.
    - [INTEGER PRIMARY KEY AUTOINCREMENT] is a per-table counter: a new row
      takes the counter plus one, and a rowid is never used twice.
    - A handler is a computation in the monad [M], which threads the
      database and carries a raised Python exception.
    - A date is the text [YYYY-MM-DD] that [strftime('%Y-%m-%d')] and the
      date picker produce; [julianday] is embedded on such texts, and the
      statements on days are about the dates of the calendar. *)

From Stdlib Require Import ZArith List String Ascii Bool Lia.
From Stdlib Require Import Sorting.Sorted Sorting.Permutation.
From Stdlib Require Import Floats.
Import ListNotations.

#[local] Set Warnings "-inexact-float".

Local Open Scope Z_scope.

(* ===================================================================== *)
(** ** What the programs use of SQLite *)
(* ===================================================================== *)

Module Sqlite.

(** *** Comparison of a nullable TEXT column *)

(** [x <= y] on TEXT values. *)
Definition text_le (a b : string) : bool := String.leb a b.

(** [x < y] on TEXT values. *)
Definition text_lt (a b : string) : bool := String.ltb a b.

(** [col >= ?] in a WHERE clause: a NULL column makes the test NULL, and the
    row is not selected. *)
Definition where_ge (col : option string) (param : string) : bool :=
  match col with
  | None => false
  | Some s => text_le param s
  end.

(** [col < ?] in a WHERE clause. *)
Definition where_lt (col : option string) (param : string) : bool :=
  match col with
  | None => false
  | Some s => text_lt s param
  end.

(** [col BETWEEN ? AND ?] in a WHERE clause: [col >= lo AND col <= hi]. *)
Definition where_between (col : option string) (lo hi : string) : bool :=
  match col with
  | None => false
  | Some s => text_le lo s && text_le s hi
  end.

(** The order [ORDER BY col ASC] sorts by: NULL is smaller than every
    value, and two texts compare byte by byte. *)
Definition order_le (a b : option string) : bool :=
  match a, b with
  | None, _ => true
  | Some _, None => false
  | Some x, Some y => text_le x y
  end.

(** *** ORDER BY *)

Section OrderBy.
Context {A : Type} (key : A -> option string).

(** [x] may come before [y] in the order of [key]. *)
Definition key_le (x y : A) : Prop := order_le (key x) (key y) = true.

Fixpoint insert_row (x : A) (l : list A) : list A :=
  match l with
  | [] => [x]
  | y :: l' =>
      if order_le (key x) (key y) then x :: y :: l'
      else y :: insert_row x l'
  end.

(** The rows of a scan (in rowid order) sorted by [key]; rows with the
    same key stay in scan order. *)
Fixpoint order_by (l : list A) : list A :=
  match l with
  | [] => []
  | x :: l' => insert_row x (order_by l')
  end.
End OrderBy.

(** *** Aggregates *)

(** [SUM(x)]: NULL over no row. *)
Definition SUM (xs : list Z) : option Z :=
  match xs with
  | [] => None
  | _ => Some (fold_right Z.add 0 xs)
  end.

(** [COALESCE(x, d)]. *)
Definition COALESCE (x : option Z) (d : Z) : Z :=
  match x with
  | Some v => v
  | None => d
  end.

(** [COUNT( * )]. *)
Definition COUNT {A} (rows : list A) : Z := Z.of_nat (List.length rows).

(** *** julianday() on a date-only text *)

Definition digit (c : ascii) : option Z :=
  let n := Z.of_N (N_of_ascii c) in
  if (48 <=? n) && (n <=? 57) then Some (n - 48) else None.

(** [getDigits]: a run of decimal digits read as a number. *)
Fixpoint getDigits (cs : list ascii) (acc : Z) : option Z :=
  match cs with
  | [] => Some acc
  | c :: cs' =>
      match digit c with
      | Some d => getDigits cs' (10 * acc + d)
      | None => None
      end
  end.

(** [parseYyyyMmDd] on the text [YYYY-MM-DD]: four digits, two digits in
    1..12, two digits in 1..31, and nothing after them.  (SQLite also reads
    a time of day after the date, and other time values; the programs store
    date-only text, and any other text is read as NULL here.) *)
Definition parseYyyyMmDd (s : string) : option (Z * Z * Z) :=
  match list_ascii_of_string s with
  | [y1; y2; y3; y4; s1; m1; m2; s2; d1; d2] =>
      if (Ascii.eqb s1 "-") && (Ascii.eqb s2 "-") then
        match getDigits [y1; y2; y3; y4] 0,
              getDigits [m1; m2] 0,
              getDigits [d1; d2] 0 with
        | Some Y, Some M, Some D =>
            if (1 <=? M) && (M <=? 12) && (1 <=? D) && (D <=? 31)
            then Some (Y, M, D) else None
        | _, _, _ => None
        end
      else None
  | _ => None
  end.

(** [computeJD], with C's truncating division.  The Julian day of a date at
    midnight is an integer minus one half; the value here is that integer
    (the Julian day plus 0.5), so that the difference of two of them is the
    difference of the two Julian days. *)
Definition computeJD (Y M D : Z) : Z :=
  let '(Y, M) := if M <=? 2 then (Y - 1, M + 12) else (Y, M) in
  let A := Z.quot Y 100 in
  let B := 2 - A + Z.quot A 4 in
  let X1 := Z.quot (36525 * (Y + 4716)) 100 in
  let X2 := Z.quot (306001 * (M + 1)) 10000 in
  X1 + X2 + D + B - 1524.

(** [julianday(text)]: NULL when the text is not a date. *)
Definition julianday (s : string) : option Z :=
  match parseYyyyMmDd s with
  | Some (Y, M, D) => Some (computeJD Y M D)
  | None => None
  end.

(** [julianday(a) - julianday(b)]: NULL when either side is NULL. *)
Definition julianday_diff (a : option string) (b : string) : option Z :=
  match a with
  | None => None
  | Some sa =>
      match julianday sa, julianday b with
      | Some ja, Some jb => Some (ja - jb)
      | _, _ => None
      end
  end.

(** *** REAL values *)

(** A Python float bound to a parameter and written to a REAL column, as
    it is read back.  SQLite binds NaN as NULL; it stores a zero as the
    integer 0, so that a negative zero comes back as 0.0; any other value
    comes back as it was bound. *)
Definition REAL (x : PrimFloat.float) : option PrimFloat.float :=
  if PrimFloat.is_nan x then None
  else if (x =? 0)%float then Some 0%float
  else Some x.

(** A binary64 number returned as the result of an SQL function: NaN is
    returned as NULL. *)
Definition result_double (x : PrimFloat.float) : option PrimFloat.float :=
  if PrimFloat.is_nan x then None else Some x.

(** [SUM(x)] over REAL values that are not NULL: NULL over no row;
    otherwise the values are added one after the other, in the order of the
    scan, to a binary64 accumulator that starts at 0.0, which is the
    result.  (From version 3.44 on SQLite also carries a compensation term
    for the rounding errors of these additions; the accumulation here is
    the plain one of the versions before it.) *)
Definition SUM_REAL (xs : list PrimFloat.float) : option PrimFloat.float :=
  match xs with
  | [] => None
  | _ => result_double (fold_left PrimFloat.add xs 0%float)
  end.

End Sqlite.

(* ===================================================================== *)
(** ** The desktop program: [src/kamela_finance.py] *)
(* ===================================================================== *)

Module Kamela.

(** *** The tables of [init_database] *)

(** [transactions.type]: 'revenu' ou 'depense'. *)
Inductive trans_type := revenu | depense.

(** [debts.type]: 'dette' (je dois) ou 'pret' (on me doit). *)
Inductive debt_type := dette | pret.

(** [debts.status]: 'actif', 'remboursé', 'en_retard'. *)
Inductive debt_status := actif | rembourse | en_retard.

Definition trans_type_eqb (a b : trans_type) : bool :=
  match a, b with
  | revenu, revenu | depense, depense => true
  | _, _ => false
  end.

Definition debt_type_eqb (a b : debt_type) : bool :=
  match a, b with
  | dette, dette | pret, pret => true
  | _, _ => false
  end.

Definition debt_status_eqb (a b : debt_status) : bool :=
  match a, b with
  | actif, actif | rembourse, rembourse | en_retard, en_retard => true
  | _, _ => false
  end.

(** The text a [debt_type] is stored and printed as. *)
Definition debt_type_text (t : debt_type) : string :=
  match t with
  | dette => "dette"
  | pret => "pret"
  end.

(** A row of [transactions] ([created_at] is informational and left out). *)
Record transaction := mk_transaction {
  t_id : Z;
  t_type : trans_type;
  t_category : string;
  t_amount : Z;
  t_description : string;
  t_date : string
}.

(** A row of [debts]. *)
Record debt := mk_debt {
  d_id : Z;
  d_type : debt_type;
  d_person_name : string;
  d_phone : string;
  d_amount : Z;
  d_amount_paid : Z;
  d_interest_rate : Z;
  d_start_date : string;
  d_due_date : option string;
  d_status : debt_status;
  d_description : string
}.

(** A row of [repayments]. *)
Record repayment := mk_repayment {
  r_id : Z;
  r_debt_id : Z;
  r_amount : Z;
  r_date : string;
  r_notes : string
}.

(** A row of [contacts]. *)
Record contact := mk_contact {
  c_id : Z;
  c_name : string;
  c_phone : option string;
  c_email : option string;
  c_type : string;
  c_notes : string
}.

(** The database file: the four tables in rowid order and the AUTOINCREMENT
    counter of each. *)
Record DB := mk_DB {
  transactions : list transaction;
  debts : list debt;
  repayments : list repayment;
  contacts : list contact;
  seq_transactions : Z;
  seq_debts : Z;
  seq_repayments : Z;
  seq_contacts : Z
}.

(** The file right after [init_database] created it. *)
Definition empty_db : DB := mk_DB [] [] [] [] 0 0 0 0.

(** *** The monad of handlers *)

Inductive exn :=
| ValueError (msg : string)
| TypeError (msg : string).

(** What a handler tells the user when it returns. *)
Inductive messagebox :=
| showinfo (title message : string)
| showerror (title message : string).

Definition M (A : Type) : Type := DB -> (exn + A) * DB.

Definition ret {A} (a : A) : M A := fun db => (inr a, db).

Definition bind {A B} (m : M A) (k : A -> M B) : M B :=
  fun db =>
    match m db with
    | (inl e, db') => (inl e, db')
    | (inr a, db') => k a db'
    end.

Definition raise {A} (e : exn) : M A := fun db => (inl e, db).

(** [try: body / except ValueError as e: handler e].  The database keeps
    whatever the body wrote before it raised. *)
Definition try_except_ValueError {A} (body : M A) (handler : string -> M A)
  : M A :=
  fun db =>
    match body db with
    | (inl (ValueError msg), db') => handler msg db'
    | r => r
    end.

(** [cursor.execute] of a statement that writes. *)
Definition execute (stmt : DB -> DB) : M unit := fun db => (inr tt, stmt db).

(** [cursor.execute] of a SELECT, then [fetchone] or [fetchall]. *)
Definition fetch {A} (query : DB -> A) : M A := fun db => (inr (query db), db).

(** [conn.commit()].  There is one connection, every handler that writes
    commits before it returns, and every read goes through the same
    connection: what the connection sees is what the file holds. *)
Definition commit : M unit := ret tt.

Declare Scope kamela_scope.
Delimit Scope kamela_scope with kamela.
Notation "x <- m ;; k" := (bind m (fun x => k))
  (at level 61, m at next level, right associativity) : kamela_scope.
Notation "m ;; k" := (bind m (fun _ => k))
  (at level 61, right associativity) : kamela_scope.
Local Open Scope kamela_scope.

(** [float(var.get())] on the text of an entry: [None] stands for a text
    that is not a number.  (The message of Python's exception goes on with
    the text of the entry, and 'nan' and 'inf' read as numbers:
    [Kamela64.float] has both.) *)
Definition float (entry : option Z) : M Z :=
  match entry with
  | Some x => ret x
  | None => raise (ValueError "could not convert string to float")
  end.

(** *** The statements *)

(** [INSERT INTO transactions (type, category, amount, description, date)]. *)
Definition insert_transaction (ty : trans_type) (category : string)
    (amount : Z) (description date : string) (db : DB) : DB :=
  let id := seq_transactions db + 1 in
  mk_DB (transactions db ++ [mk_transaction id ty category amount description date])
        (debts db) (repayments db) (contacts db)
        id (seq_debts db) (seq_repayments db) (seq_contacts db).

(** [DELETE FROM transactions WHERE id = ?]. *)
Definition delete_transaction (trans_id : Z) (db : DB) : DB :=
  mk_DB (filter (fun t => negb (t_id t =? trans_id)) (transactions db))
        (debts db) (repayments db) (contacts db)
        (seq_transactions db) (seq_debts db) (seq_repayments db)
        (seq_contacts db).

(** [INSERT INTO debts (type, person_name, phone, amount, interest_rate,
    start_date, due_date, description)]: [amount_paid] and [status] take
    their defaults, 0 and 'actif'. *)
Definition insert_debt (ty : debt_type) (person_name phone : string)
    (amount rate : Z) (start_date : string) (due_date : option string)
    (description : string) (db : DB) : DB :=
  let id := seq_debts db + 1 in
  mk_DB (transactions db)
        (debts db ++ [mk_debt id ty person_name phone amount 0 rate
                              start_date due_date actif description])
        (repayments db) (contacts db)
        (seq_transactions db) id (seq_repayments db) (seq_contacts db).

(** [SELECT id FROM contacts WHERE phone = ?], then [fetchone]. *)
Definition select_contact_by_phone (phone : string) (db : DB) : option Z :=
  match filter (fun c => match c_phone c with
                         | Some p => String.eqb p phone
                         | None => false
                         end) (contacts db) with
  | c :: _ => Some (c_id c)
  | [] => None
  end.

(** [INSERT INTO contacts]: the statement of [add_debt_dialog] gives no
    email (NULL), the one of [add_contact_dialog] does. *)
Definition insert_contact (name : string) (phone : string)
    (email : option string) (ty notes : string) (db : DB) : DB :=
  let id := seq_contacts db + 1 in
  mk_DB (transactions db) (debts db) (repayments db)
        (contacts db ++ [mk_contact id name (Some phone) email ty notes])
        (seq_transactions db) (seq_debts db) (seq_repayments db) id.

(** [SELECT person_name, amount, amount_paid FROM debts WHERE id = ?], then
    [fetchone]. *)
Definition select_debt (debt_id : Z) (db : DB) : option (string * Z * Z) :=
  match filter (fun d => d_id d =? debt_id) (debts db) with
  | d :: _ => Some (d_person_name d, d_amount d, d_amount_paid d)
  | [] => None
  end.

(** [INSERT INTO repayments (debt_id, amount, date, notes)]. *)
Definition insert_repayment (debt_id amount : Z) (date notes : string)
    (db : DB) : DB :=
  let id := seq_repayments db + 1 in
  mk_DB (transactions db) (debts db)
        (repayments db ++ [mk_repayment id debt_id amount date notes])
        (contacts db)
        (seq_transactions db) (seq_debts db) id (seq_contacts db).

Definition set_paid_status (new_paid : Z) (new_status : debt_status)
    (d : debt) : debt :=
  mk_debt (d_id d) (d_type d) (d_person_name d) (d_phone d) (d_amount d)
          new_paid (d_interest_rate d) (d_start_date d) (d_due_date d)
          new_status (d_description d).

(** [UPDATE debts SET amount_paid = ?, status = ? WHERE id = ?]. *)
Definition update_debt (new_paid : Z) (new_status : debt_status)
    (debt_id : Z) (db : DB) : DB :=
  mk_DB (transactions db)
        (map (fun d => if d_id d =? debt_id
                       then set_paid_status new_paid new_status d else d)
             (debts db))
        (repayments db) (contacts db)
        (seq_transactions db) (seq_debts db) (seq_repayments db)
        (seq_contacts db).

(** *** The handlers that write *)

(** [add_transaction_dialog.save]. *)
Definition add_transaction_dialog_save (type_var : trans_type)
    (cat_var : string) (amount_var : option Z) (date_cal desc_var : string)
  : M messagebox :=
  try_except_ValueError
    (amount <- float amount_var ;;
     if amount <=? 0 then raise (ValueError "Le montant doit être positif")
     else
       execute (insert_transaction type_var cat_var amount desc_var date_cal) ;;
       commit ;;
       ret (showinfo "Succès" "Transaction ajoutée avec succès!"))
    (fun e => ret (showerror "Erreur" ("Montant invalide: " ++ e)%string)).

(** [on_transaction_click], once the user confirmed the deletion. *)
Definition on_transaction_click (trans_id : Z) : M unit :=
  execute (delete_transaction trans_id) ;;
  commit.

(** The [try] block of [add_debt_dialog.save]. *)
Definition add_debt_dialog_try (type_var : debt_type)
    (name_var phone_var : string) (amount_var rate_var : option Z)
    (start_cal due_cal desc_text : string) : M messagebox :=
  amount <- float amount_var ;;
  rate <- float rate_var ;;
  execute (insert_debt type_var name_var phone_var amount rate
                       start_cal (Some due_cal) desc_text) ;;
  (* Ajouter automatiquement aux contacts si nouveau *)
  found <- fetch (select_contact_by_phone phone_var) ;;
  (if match found with None => true | Some _ => false end
      && negb (String.eqb phone_var "")
   then
     let contact_type :=
       (if debt_type_eqb type_var pret then "debiteur" else "creancier")%string in
     execute (insert_contact name_var phone_var None contact_type
                ("Ajouté via " ++ debt_type_text type_var)%string)
   else ret tt) ;;
  commit ;;
  ret (showinfo "Succès" "Enregistrement ajouté avec succès!").

(** [add_debt_dialog.save]. *)
Definition add_debt_dialog_save (type_var : debt_type)
    (name_var phone_var : string) (amount_var rate_var : option Z)
    (start_cal due_cal desc_text : string) : M messagebox :=
  try_except_ValueError
    (add_debt_dialog_try type_var name_var phone_var amount_var rate_var
                         start_cal due_cal desc_text)
    (fun _ => ret (showerror "Erreur" "Montant ou taux invalide!")).

(** [add_contact_dialog.save]. *)
Definition add_contact_dialog_save
    (name_var phone_var email_var type_var notes_var : string) : M messagebox :=
  execute (insert_contact name_var phone_var (Some email_var) type_var
                          notes_var) ;;
  commit ;;
  ret (showinfo "Succès" "Contact ajouté!").

(** What [show_repayment_dialog] reads when the dialog opens, and its
    [save] closure keeps: [person, total, paid] and [remaining]. *)
Definition show_repayment_dialog (debt_id : Z) : M (string * Z * Z * Z) :=
  debt <- fetch (select_debt debt_id) ;;
  match debt with
  | Some (person, total, paid) => ret (person, total, paid, total - paid)
  | None => raise (TypeError "cannot unpack non-iterable NoneType object")
  end.

(** The [try] block of [show_repayment_dialog.save].  (The two tests and
    the sum are exact here; [Kamela64.show_repayment_dialog_try] has them
    in binary64.) *)
Definition show_repayment_dialog_try (debt_id total paid remaining : Z)
    (amount_var : option Z) (date_cal : string) : M messagebox :=
  amount <- float amount_var ;;
  if (amount <=? 0) || (amount >? remaining)
  then raise (ValueError "Montant invalide")
  else
    (* Enregistrer le remboursement *)
    execute (insert_repayment debt_id amount date_cal "Remboursement partiel") ;;
    (* Mettre à jour le montant payé *)
    let new_paid := paid + amount in
    let new_status := if new_paid >=? total then rembourse else actif in
    execute (update_debt new_paid new_status debt_id) ;;
    commit ;;
    ret (showinfo "Succès" "Remboursement enregistré!").

(** [show_repayment_dialog.save]. *)
Definition show_repayment_dialog_save (debt_id total paid remaining : Z)
    (amount_var : option Z) (date_cal : string) : M messagebox :=
  try_except_ValueError
    (show_repayment_dialog_try debt_id total paid remaining amount_var date_cal)
    (fun e => ret (showerror "Erreur" e)).

(** A repayment from the click on the row to the click on the button: the
    dialog is modal, so nothing else runs between the read of the dialog
    and its [save]. *)
Definition apply_repayment (debt_id : Z) (amount_var : option Z)
    (date_cal : string) : M messagebox :=
  opened <- show_repayment_dialog debt_id ;;
  let '(_, total, paid, remaining) := opened in
  show_repayment_dialog_save debt_id total paid remaining amount_var date_cal.

(** *** The views *)

(** What [calculate_stats] returns of the two ledgers.  (The two monthly
    totals of the dictionary read the clock and [strftime]; no statement
    below is about them and they are left out.) *)
Record stats := mk_stats {
  balance : Z;
  active_debts : Z
}.

(** [SELECT COALESCE(SUM(CASE WHEN type='revenu' THEN amount ELSE -amount
    END), 0) FROM transactions].  (An exact sum; [Kamela64.select_balance]
    is the running sum in binary64.) *)
Definition select_balance (db : DB) : Z :=
  Sqlite.COALESCE
    (Sqlite.SUM (map (fun t => if trans_type_eqb (t_type t) revenu
                               then t_amount t else - t_amount t)
                     (transactions db)))
    0.

(** [SELECT COUNT( * ) FROM debts WHERE status IN ('actif', 'en_retard')]. *)
Definition select_active_debts (db : DB) : Z :=
  Sqlite.COUNT (filter (fun d => debt_status_eqb (d_status d) actif
                                || debt_status_eqb (d_status d) en_retard)
                       (debts db)).

(** Python's [x or 0] on a number. *)
Definition or_0 (x : Z) : Z := if x =? 0 then 0 else x.

(** [calculate_stats]. *)
Definition calculate_stats : M stats :=
  balance <- fetch select_balance ;;
  active_debts <- fetch select_active_debts ;;
  ret (mk_stats (or_0 balance) (or_0 active_debts)).

(** An entry of the list [alerts] of [load_alerts]: the source builds the
    title and the text of the alert from the number held here. *)
Inductive alert :=
| SoldeNegatif (balance : Z)
| DettesEnRetard (late_debts : Z).

(** [SELECT COUNT( * ) FROM debts WHERE due_date < ? AND status = 'actif']. *)
Definition select_late_debts (today : string) (db : DB) : Z :=
  Sqlite.COUNT (filter (fun d => Sqlite.where_lt (d_due_date d) today
                                && debt_status_eqb (d_status d) actif)
                       (debts db)).

(** [load_alerts], up to the list [alerts] it then draws; [today] is
    [datetime.now().strftime('%Y-%m-%d')]. *)
Definition load_alerts (today : string) : M (list alert) :=
  stats <- calculate_stats ;;
  let alerts :=
    if balance stats <? 0 then [SoldeNegatif (balance stats)] else [] in
  late_debts <- fetch (select_late_debts today) ;;
  let alerts :=
    if late_debts >? 0 then alerts ++ [DettesEnRetard late_debts]
    else alerts in
  ret alerts.

(** The tag of a line of the deadlines table. *)
Inductive tag := urgent | warning | normal.

(** A line of the deadlines table: the values of the row before they are
    formatted, and the tag. *)
Record deadline := mk_deadline {
  dl_due : option string;
  dl_type : debt_type;
  dl_person : string;
  dl_amount : Z;
  dl_days : Z;
  dl_tag : tag
}.

(** [FROM debts WHERE due_date >= ? AND status = 'actif' ORDER BY due_date
    ASC]: the rows of [debts] the query of [load_all_deadlines] goes
    through, in its order. *)
Definition select_deadlines (today : string) (db : DB) : list debt :=
  Sqlite.order_by d_due_date
    (filter (fun d => Sqlite.where_ge (d_due_date d) today
                      && debt_status_eqb (d_status d) actif)
            (debts db)).

(** [int(days) if days else 0]: the difference of two date-only Julian days
    is a whole number, which [int] leaves as it is. *)
Definition days_int (days : option Z) : Z :=
  match days with
  | Some n => if n =? 0 then 0 else n
  | None => 0
  end.

(** The body of the loop of [load_all_deadlines] on the row the query gives
    for [d]: [due_date, type, person_name, (amount - amount_paid),
    julianday(due_date) - julianday(?)]. *)
Definition deadline_of (today : string) (d : debt) : deadline :=
  let days := Sqlite.julianday_diff (d_due_date d) today in
  let days_int := days_int days in
  let tag :=
    if days_int <=? 3 then urgent
    else if days_int <=? 7 then warning
    else normal in
  mk_deadline (d_due_date d) (d_type d) (d_person_name d)
              (d_amount d - d_amount_paid d) days_int tag.

(** [load_all_deadlines]: the lines put in the table, in order. *)
Definition load_all_deadlines (today : string) : M (list deadline) :=
  rows <- fetch (select_deadlines today) ;;
  ret (map (deadline_of today) rows).

(** A row of the query of [load_debts_data]. *)
Record debt_line := mk_debt_line {
  ln_id : Z;
  ln_person : string;
  ln_phone : string;
  ln_total : Z;
  ln_paid : Z;
  ln_remaining : Z;
  ln_rate : Z;
  ln_start : string;
  ln_due : option string;
  ln_status : debt_status;
  ln_desc : string
}.

Definition debt_line_of (d : debt) : debt_line :=
  mk_debt_line (d_id d) (d_person_name d) (d_phone d) (d_amount d)
               (d_amount_paid d) (d_amount d - d_amount_paid d)
               (d_interest_rate d) (d_start_date d) (d_due_date d)
               (d_status d) (d_description d).

(** [load_debts_data]: [SELECT ... FROM debts WHERE type = ? AND status !=
    'remboursé' ORDER BY due_date ASC], the lines put in the table. *)
Definition load_debts_data (debt_type : debt_type) : M (list debt_line) :=
  fetch (fun db =>
    map debt_line_of
      (Sqlite.order_by d_due_date
         (filter (fun d => debt_type_eqb (d_type d) debt_type
                           && negb (debt_status_eqb (d_status d) rembourse))
                 (debts db)))).

(** What the table shows as the due date: [due or 'Non définie']. *)
Definition undated (due : option string) : bool :=
  match due with
  | None => true
  | Some s => String.eqb s ""
  end.

(** *** Runs of the program *)

(** What the user can do that writes to the file. *)
Inductive action :=
| AddTransaction (type_var : trans_type) (cat_var : string)
    (amount_var : option Z) (date_cal desc_var : string)
| DeleteTransaction (trans_id : Z)
| AddDebt (type_var : debt_type) (name_var phone_var : string)
    (amount_var rate_var : option Z) (start_cal due_cal desc_text : string)
| AddContact (name_var phone_var email_var type_var notes_var : string)
| Repay (debt_id : Z) (amount_var : option Z) (date_cal : string).

(** The database after the handler of an action returned, whether it
    showed a success or an error. *)
Definition perform (db : DB) (a : action) : DB :=
  match a with
  | AddTransaction ty cat amount date desc =>
      snd (add_transaction_dialog_save ty cat amount date desc db)
  | DeleteTransaction trans_id =>
      snd (on_transaction_click trans_id db)
  | AddDebt ty name phone amount rate start due desc =>
      snd (add_debt_dialog_save ty name phone amount rate start due desc db)
  | AddContact name phone email ty notes =>
      snd (add_contact_dialog_save name phone email ty notes db)
  | Repay debt_id amount date =>
      snd (apply_repayment debt_id amount date db)
  end.

(** The database after a session: the actions in order, from the file
    [init_database] created. *)
Definition run (actions : list action) : DB :=
  fold_left perform actions empty_db.


(** The sum of the amounts of the transactions of one type. *)
Definition total_of (ty : trans_type) (db : DB) : Z :=
  fold_right Z.add 0
    (map t_amount
         (filter (fun t => trans_type_eqb (t_type t) ty) (transactions db))).

(** *** The other views *)

(** [FROM debts WHERE due_date BETWEEN ? AND ? AND status = 'actif' ORDER BY
    due_date ASC]: the rows of [debts] the query of
    [load_upcoming_deadlines] goes through, in its order. *)
Definition select_upcoming (today_str week_later : string) (db : DB)
  : list debt :=
  Sqlite.order_by d_due_date
    (filter (fun d => Sqlite.where_between (d_due_date d) today_str week_later
                      && debt_status_eqb (d_status d) actif)
            (debts db)).




(** [load_contacts]: the rows of [SELECT id, name, phone, email, type, notes
    FROM contacts ORDER BY name], before they are formatted for the
    table. *)
Definition load_contacts : M (list contact) :=
  fetch (fun db => Sqlite.order_by (fun c => Some (c_name c)) (contacts db)).

End Kamela.

(* ===================================================================== *)
(** ** The desktop program, with its amounts in binary64 *)
(* ===================================================================== *)

(** The handlers of [src/kamela_finance.py] again, with the amounts as the
    program has them: Python floats, bound to the parameters of the
    statements and stored in REAL columns.  The texts, the ids, the closed
    value sets and the contacts are those of [Kamela].  The arithmetic is
    the one of the primitive floats of the kernel, which is IEEE 754
    binary64 with rounding to nearest: [+], [-] and the comparisons of
    Python floats, and those of SQLite on REAL values. *)
Module Kamela64.

(** *** The tables of [init_database] *)

(** A row of [transactions]: [amount REAL NOT NULL]. *)
Record transaction := mk_transaction {
  t_id : Z;
  t_type : Kamela.trans_type;
  t_category : string;
  t_amount : PrimFloat.float;
  t_description : string;
  t_date : string
}.

(** A row of [debts]: [amount REAL NOT NULL], [amount_paid REAL DEFAULT 0]
    and [interest_rate REAL DEFAULT 0]; the last two may hold NULL. *)
Record debt := mk_debt {
  d_id : Z;
  d_type : Kamela.debt_type;
  d_person_name : string;
  d_phone : string;
  d_amount : PrimFloat.float;
  d_amount_paid : option PrimFloat.float;
  d_interest_rate : option PrimFloat.float;
  d_start_date : string;
  d_due_date : option string;
  d_status : Kamela.debt_status;
  d_description : string
}.

(** A row of [repayments]: [amount REAL NOT NULL]. *)
Record repayment := mk_repayment {
  r_id : Z;
  r_debt_id : Z;
  r_amount : PrimFloat.float;
  r_date : string;
  r_notes : string
}.

(** The database file: the four tables in rowid order and the AUTOINCREMENT
    counter of each. *)
Record DB := mk_DB {
  transactions : list transaction;
  debts : list debt;
  repayments : list repayment;
  contacts : list Kamela.contact;
  seq_transactions : Z;
  seq_debts : Z;
  seq_repayments : Z;
  seq_contacts : Z
}.

(** The file right after [init_database] created it. *)
Definition empty_db : DB := mk_DB [] [] [] [] 0 0 0 0.

(** *** The monad of handlers *)

(** [IntegrityError] is [sqlite3.IntegrityError], which a statement raises
    when it would put NULL in a NOT NULL column. *)
Inductive exn :=
| ValueError (msg : string)
| TypeError (msg : string)
| IntegrityError (msg : string).

Definition M (A : Type) : Type := DB -> (exn + A) * DB.

Definition ret {A} (a : A) : M A := fun db => (inr a, db).

Definition bind {A B} (m : M A) (k : A -> M B) : M B :=
  fun db =>
    match m db with
    | (inl e, db') => (inl e, db')
    | (inr a, db') => k a db'
    end.

Definition raise {A} (e : exn) : M A := fun db => (inl e, db).

(** [try: body / except ValueError as e: handler e]: the other exceptions
    go through. *)
Definition try_except_ValueError {A} (body : M A) (handler : string -> M A)
  : M A :=
  fun db =>
    match body db with
    | (inl (ValueError msg), db') => handler msg db'
    | r => r
    end.

(** [cursor.execute] of a statement that writes: a statement that fails
    writes nothing. *)
Definition execute (stmt : DB -> exn + DB) : M unit :=
  fun db =>
    match stmt db with
    | inl e => (inl e, db)
    | inr db' => (inr tt, db')
    end.

(** [cursor.execute] of a SELECT, then [fetchone] or [fetchall]. *)
Definition fetch {A} (query : DB -> A) : M A := fun db => (inr (query db), db).

(** [conn.commit()]: one connection, as in [Kamela]. *)
Definition commit : M unit := ret tt.

Declare Scope kamela64_scope.
Delimit Scope kamela64_scope with kamela64.
Notation "x <- m ;; k" := (bind m (fun x => k))
  (at level 61, m at next level, right associativity) : kamela64_scope.
Notation "m ;; k" := (bind m (fun _ => k))
  (at level 61, right associativity) : kamela64_scope.
Local Open Scope kamela64_scope.

(** The text of an entry, as Python's [float()] takes it.  [Number x]: the
    text reads as a number and [float()] returns [x], the binary64 value
    nearest to it; the texts 'inf' and 'nan' read as numbers too.
    [NotANumber repr]: [float()] raises [ValueError], and [repr] is the
    text between quotes, as Python's [repr], which ends the message. *)
Inductive entry :=
| Number (x : PrimFloat.float)
| NotANumber (repr : string).

(** [float(var.get())]. *)
Definition float (e : entry) : M PrimFloat.float :=
  match e with
  | Number x => ret x
  | NotANumber repr =>
      raise (ValueError ("could not convert string to float: " ++ repr)%string)
  end.

(** *** The statements *)

(** [INSERT INTO transactions (type, category, amount, description, date)]. *)
Definition insert_transaction (ty : Kamela.trans_type) (category : string)
    (amount : PrimFloat.float) (description date : string) (db : DB)
  : exn + DB :=
  match Sqlite.REAL amount with
  | None =>
      inl (IntegrityError "NOT NULL constraint failed: transactions.amount")
  | Some amount =>
      let id := seq_transactions db + 1 in
      inr (mk_DB (transactions db
                  ++ [mk_transaction id ty category amount description date])
                 (debts db) (repayments db) (contacts db)
                 id (seq_debts db) (seq_repayments db) (seq_contacts db))
  end.

(** [DELETE FROM transactions WHERE id = ?]. *)
Definition delete_transaction (trans_id : Z) (db : DB) : exn + DB :=
  inr (mk_DB (filter (fun t => negb (t_id t =? trans_id)) (transactions db))
             (debts db) (repayments db) (contacts db)
             (seq_transactions db) (seq_debts db) (seq_repayments db)
             (seq_contacts db)).

(** [INSERT INTO debts (type, person_name, phone, amount, interest_rate,
    start_date, due_date, description)]: [amount_paid] and [status] take
    their defaults, 0 and 'actif'. *)
Definition insert_debt (ty : Kamela.debt_type) (person_name phone : string)
    (amount rate : PrimFloat.float) (start_date : string)
    (due_date : option string) (description : string) (db : DB) : exn + DB :=
  match Sqlite.REAL amount with
  | None => inl (IntegrityError "NOT NULL constraint failed: debts.amount")
  | Some amount =>
      let id := seq_debts db + 1 in
      inr (mk_DB (transactions db)
                 (debts db
                  ++ [mk_debt id ty person_name phone amount (Some 0%float)
                              (Sqlite.REAL rate) start_date due_date
                              Kamela.actif description])
                 (repayments db) (contacts db)
                 (seq_transactions db) id (seq_repayments db)
                 (seq_contacts db))
  end.

(** [SELECT id FROM contacts WHERE phone = ?], then [fetchone]. *)
Definition select_contact_by_phone (phone : string) (db : DB) : option Z :=
  match filter (fun c => match Kamela.c_phone c with
                         | Some p => String.eqb p phone
                         | None => false
                         end) (contacts db) with
  | c :: _ => Some (Kamela.c_id c)
  | [] => None
  end.

(** [INSERT INTO contacts (name, phone, type, notes)]. *)
Definition insert_contact (name : string) (phone : string)
    (email : option string) (ty notes : string) (db : DB) : exn + DB :=
  let id := seq_contacts db + 1 in
  inr (mk_DB (transactions db) (debts db) (repayments db)
             (contacts db
              ++ [Kamela.mk_contact id name (Some phone) email ty notes])
             (seq_transactions db) (seq_debts db) (seq_repayments db) id).

(** [SELECT person_name, amount, amount_paid FROM debts WHERE id = ?], then
    [fetchone]. *)
Definition select_debt (debt_id : Z) (db : DB)
  : option (string * PrimFloat.float * option PrimFloat.float) :=
  match filter (fun d => d_id d =? debt_id) (debts db) with
  | d :: _ => Some (d_person_name d, d_amount d, d_amount_paid d)
  | [] => None
  end.

(** [INSERT INTO repayments (debt_id, amount, date, notes)]. *)
Definition insert_repayment (debt_id : Z) (amount : PrimFloat.float)
    (date notes : string) (db : DB) : exn + DB :=
  match Sqlite.REAL amount with
  | None =>
      inl (IntegrityError "NOT NULL constraint failed: repayments.amount")
  | Some amount =>
      let id := seq_repayments db + 1 in
      inr (mk_DB (transactions db) (debts db)
                 (repayments db
                  ++ [mk_repayment id debt_id amount date notes])
                 (contacts db)
                 (seq_transactions db) (seq_debts db) id (seq_contacts db))
  end.

Definition set_paid_status (new_paid : option PrimFloat.float)
    (new_status : Kamela.debt_status) (d : debt) : debt :=
  mk_debt (d_id d) (d_type d) (d_person_name d) (d_phone d) (d_amount d)
          new_paid (d_interest_rate d) (d_start_date d) (d_due_date d)
          new_status (d_description d).

(** [UPDATE debts SET amount_paid = ?, status = ? WHERE id = ?]. *)
Definition update_debt (new_paid : PrimFloat.float)
    (new_status : Kamela.debt_status) (debt_id : Z) (db : DB) : exn + DB :=
  inr (mk_DB (transactions db)
             (map (fun d => if d_id d =? debt_id
                            then set_paid_status (Sqlite.REAL new_paid)
                                                 new_status d
                            else d)
                  (debts db))
             (repayments db) (contacts db)
             (seq_transactions db) (seq_debts db) (seq_repayments db)
             (seq_contacts db)).

(** *** The handlers that write *)

(** [add_transaction_dialog.save]. *)
Definition add_transaction_dialog_save (type_var : Kamela.trans_type)
    (cat_var : string) (amount_var : entry) (date_cal desc_var : string)
  : M Kamela.messagebox :=
  try_except_ValueError
    (amount <- float amount_var ;;
     if (amount <=? 0)%float
     then raise (ValueError "Le montant doit être positif")
     else
       execute (insert_transaction type_var cat_var amount desc_var date_cal) ;;
       commit ;;
       ret (Kamela.showinfo "Succès" "Transaction ajoutée avec succès!"))
    (fun e => ret (Kamela.showerror "Erreur" ("Montant invalide: " ++ e)%string)).

(** [on_transaction_click], once the user confirmed the deletion. *)
Definition on_transaction_click (trans_id : Z) : M unit :=
  execute (delete_transaction trans_id) ;;
  commit.

(** The [try] block of [add_debt_dialog.save]. *)
Definition add_debt_dialog_try (type_var : Kamela.debt_type)
    (name_var phone_var : string) (amount_var rate_var : entry)
    (start_cal due_cal desc_text : string) : M Kamela.messagebox :=
  amount <- float amount_var ;;
  rate <- float rate_var ;;
  execute (insert_debt type_var name_var phone_var amount rate
                       start_cal (Some due_cal) desc_text) ;;
  (* Ajouter automatiquement aux contacts si nouveau *)
  found <- fetch (select_contact_by_phone phone_var) ;;
  (if match found with None => true | Some _ => false end
      && negb (String.eqb phone_var "")
   then
     let contact_type :=
       (if Kamela.debt_type_eqb type_var Kamela.pret
        then "debiteur" else "creancier")%string in
     execute (insert_contact name_var phone_var None contact_type
                ("Ajouté via " ++ Kamela.debt_type_text type_var)%string)
   else ret tt) ;;
  commit ;;
  ret (Kamela.showinfo "Succès" "Enregistrement ajouté avec succès!").

(** [add_debt_dialog.save]. *)
Definition add_debt_dialog_save (type_var : Kamela.debt_type)
    (name_var phone_var : string) (amount_var rate_var : entry)
    (start_cal due_cal desc_text : string) : M Kamela.messagebox :=
  try_except_ValueError
    (add_debt_dialog_try type_var name_var phone_var amount_var rate_var
                         start_cal due_cal desc_text)
    (fun _ => ret (Kamela.showerror "Erreur" "Montant ou taux invalide!")).

(** [add_contact_dialog.save]. *)
Definition add_contact_dialog_save
    (name_var phone_var email_var type_var notes_var : string)
  : M Kamela.messagebox :=
  execute (insert_contact name_var phone_var (Some email_var) type_var
                          notes_var) ;;
  commit ;;
  ret (Kamela.showinfo "Succès" "Contact ajouté!").

(** What [show_repayment_dialog] reads when the dialog opens, and its
    [save] closure keeps: [person, total, paid] and [remaining = total -
    paid].  The subtraction is the one of Python floats; on a NULL
    [amount_paid] it raises. *)
Definition show_repayment_dialog (debt_id : Z)
  : M (string * PrimFloat.float * PrimFloat.float * PrimFloat.float) :=
  debt <- fetch (select_debt debt_id) ;;
  match debt with
  | Some (person, total, Some paid) =>
      ret (person, total, paid, (total - paid)%float)
  | Some (_, _, None) =>
      raise (TypeError
               "unsupported operand type(s) for -: 'float' and 'NoneType'")
  | None => raise (TypeError "cannot unpack non-iterable NoneType object")
  end.

(** The [try] block of [show_repayment_dialog.save]. *)
Definition show_repayment_dialog_try (debt_id : Z)
    (total paid remaining : PrimFloat.float)
    (amount_var : entry) (date_cal : string) : M Kamela.messagebox :=
  amount <- float amount_var ;;
  if (amount <=? 0)%float || (remaining <? amount)%float
  then raise (ValueError "Montant invalide")
  else
    (* Enregistrer le remboursement *)
    execute (insert_repayment debt_id amount date_cal "Remboursement partiel") ;;
    (* Mettre à jour le montant payé *)
    let new_paid := (paid + amount)%float in
    let new_status :=
      if (total <=? new_paid)%float then Kamela.rembourse else Kamela.actif in
    execute (update_debt new_paid new_status debt_id) ;;
    commit ;;
    ret (Kamela.showinfo "Succès" "Remboursement enregistré!").

(** [show_repayment_dialog.save]. *)
Definition show_repayment_dialog_save (debt_id : Z)
    (total paid remaining : PrimFloat.float)
    (amount_var : entry) (date_cal : string) : M Kamela.messagebox :=
  try_except_ValueError
    (show_repayment_dialog_try debt_id total paid remaining amount_var date_cal)
    (fun e => ret (Kamela.showerror "Erreur" e)).

(** A repayment from the click on the row to the click on the button. *)
Definition apply_repayment (debt_id : Z) (amount_var : entry)
    (date_cal : string) : M Kamela.messagebox :=
  opened <- show_repayment_dialog debt_id ;;
  let '(_, total, paid, remaining) := opened in
  show_repayment_dialog_save debt_id total paid remaining amount_var date_cal.

(** *** The views *)

(** What [calculate_stats] returns of the two ledgers (the two monthly
    totals are left out, as in [Kamela]). *)
Record stats := mk_stats {
  balance : PrimFloat.float;
  active_debts : Z
}.

(** What a row adds to the balance: [CASE WHEN type='revenu' THEN amount
    ELSE -amount END]. *)
Definition cash_effect (t : transaction) : PrimFloat.float :=
  if Kamela.trans_type_eqb (t_type t) Kamela.revenu
  then t_amount t else (- t_amount t)%float.

(** [SELECT COALESCE(SUM(CASE WHEN type='revenu' THEN amount ELSE -amount
    END), 0) FROM transactions]. *)
Definition select_balance (db : DB) : PrimFloat.float :=
  match Sqlite.SUM_REAL (map cash_effect (transactions db)) with
  | Some total => total
  | None => 0%float
  end.

(** [SELECT COUNT( * ) FROM debts WHERE status IN ('actif', 'en_retard')]. *)
Definition select_active_debts (db : DB) : Z :=
  Sqlite.COUNT
    (filter (fun d => Kamela.debt_status_eqb (d_status d) Kamela.actif
                      || Kamela.debt_status_eqb (d_status d) Kamela.en_retard)
            (debts db)).

(** Python's [x or 0] on a float: a zero of either sign gives 0. *)
Definition or_0 (x : PrimFloat.float) : PrimFloat.float :=
  if (x =? 0)%float then 0%float else x.

(** [calculate_stats]. *)
Definition calculate_stats : M stats :=
  balance <- fetch select_balance ;;
  active_debts <- fetch select_active_debts ;;
  ret (mk_stats (or_0 balance) (Kamela.or_0 active_debts)).

(** An entry of the list [alerts] of [load_alerts]. *)
Inductive alert :=
| SoldeNegatif (balance : PrimFloat.float)
| DettesEnRetard (late_debts : Z).

(** [SELECT COUNT( * ) FROM debts WHERE due_date < ? AND status = 'actif']. *)
Definition select_late_debts (today : string) (db : DB) : Z :=
  Sqlite.COUNT
    (filter (fun d => Sqlite.where_lt (d_due_date d) today
                      && Kamela.debt_status_eqb (d_status d) Kamela.actif)
            (debts db)).

(** [load_alerts], up to the list [alerts] it then draws. *)
Definition load_alerts (today : string) : M (list alert) :=
  stats <- calculate_stats ;;
  let alerts :=
    if (balance stats <? 0)%float then [SoldeNegatif (balance stats)]
    else [] in
  late_debts <- fetch (select_late_debts today) ;;
  let alerts :=
    if late_debts >? 0 then alerts ++ [DettesEnRetard late_debts]
    else alerts in
  ret alerts.

(** The rows of [debts] the query of [load_debts_data] goes through, in its
    order: [WHERE type = ? AND status != 'remboursé' ORDER BY due_date
    ASC]. *)
Definition select_debts_data (debt_type : Kamela.debt_type) (db : DB)
  : list debt :=
  Sqlite.order_by d_due_date
    (filter (fun d => Kamela.debt_type_eqb (d_type d) debt_type
                      && negb (Kamela.debt_status_eqb (d_status d)
                                                      Kamela.rembourse))
            (debts db)).

(** The rows of [debts] the query of [load_all_deadlines] goes through:
    [WHERE due_date >= ? AND status = 'actif' ORDER BY due_date ASC]. *)
Definition select_deadlines (today : string) (db : DB) : list debt :=
  Sqlite.order_by d_due_date
    (filter (fun d => Sqlite.where_ge (d_due_date d) today
                      && Kamela.debt_status_eqb (d_status d) Kamela.actif)
            (debts db)).

(** The rows of [debts] the query of [load_upcoming_deadlines] goes
    through: [WHERE due_date BETWEEN ? AND ? AND status = 'actif' ORDER BY
    due_date ASC]. *)
Definition select_upcoming (today_str week_later : string) (db : DB)
  : list debt :=
  Sqlite.order_by d_due_date
    (filter (fun d => Sqlite.where_between (d_due_date d) today_str week_later
                      && Kamela.debt_status_eqb (d_status d) Kamela.actif)
            (debts db)).

(** *** Runs of the program *)

(** What the user can do that writes to the file. *)
Inductive action :=
| AddTransaction (type_var : Kamela.trans_type) (cat_var : string)
    (amount_var : entry) (date_cal desc_var : string)
| DeleteTransaction (trans_id : Z)
| AddDebt (type_var : Kamela.debt_type) (name_var phone_var : string)
    (amount_var rate_var : entry) (start_cal due_cal desc_text : string)
| AddContact (name_var phone_var email_var type_var notes_var : string)
| Repay (debt_id : Z) (amount_var : entry) (date_cal : string).

(** The database after the handler of an action returned or raised. *)
Definition perform (db : DB) (a : action) : DB :=
  match a with
  | AddTransaction ty cat amount date desc =>
      snd (add_transaction_dialog_save ty cat amount date desc db)
  | DeleteTransaction trans_id =>
      snd (on_transaction_click trans_id db)
  | AddDebt ty name phone amount rate start due desc =>
      snd (add_debt_dialog_save ty name phone amount rate start due desc db)
  | AddContact name phone email ty notes =>
      snd (add_contact_dialog_save name phone email ty notes db)
  | Repay debt_id amount date =>
      snd (apply_repayment debt_id amount date db)
  end.

(** The database after a session: the actions in order, from the file
    [init_database] created. *)
Definition run (actions : list action) : DB :=
  fold_left perform actions empty_db.

(** The sum of the amounts of the transactions of one type, added in row
    order in binary64 as SQLite's [SUM] adds, 0 over no row: the total of
    the incomes, and the total of the expenses. *)
Definition total_of (ty : Kamela.trans_type) (db : DB) : PrimFloat.float :=
  match Sqlite.SUM_REAL
          (map t_amount
               (filter (fun t => Kamela.trans_type_eqb (t_type t) ty)
                       (transactions db))) with
  | Some total => total
  | None => 0%float
  end.

End Kamela64.

(* ===================================================================== *)
(** ** The sheet front-end: [src/app.py] *)
(* ===================================================================== *)

Module App.

(** A line of the worksheet "Flux": the amount carries its sign
    ("Négatif pour dépense, Positif pour gain"). *)
Record flux := mk_flux {
  f_date : string;
  f_description : string;
  f_montant : Z;
  f_categorie : string
}.

(** A line of the worksheet "Dettes". *)
Record dette := mk_dette {
  e_contact : string;
  e_telephone : string;
  e_type : string;
  e_montant : Z;
  e_echeance : string;
  e_statut : string
}.

(** The document: its two worksheets. *)
Record sheets := mk_sheets {
  Flux : list flux;
  Dettes : list dette
}.

(** Python's [needle in text] on strings. *)
Fixpoint contains (needle text : string) : bool :=
  String.prefix needle text
  || match text with
     | EmptyString => false
     | String _ text' => contains needle text'
     end.

(** [df_dettes.at[i, "Statut"] = statut]. *)
Fixpoint set_statut (i : nat) (statut : string) (l : list dette) : list dette :=
  match l, i with
  | [], _ => []
  | e :: l', O =>
      mk_dette (e_contact e) (e_telephone e) (e_type e) (e_montant e)
               (e_echeance e) statut :: l'
  | e :: l', S i' => e :: set_statut i' statut l'
  end.



(** The cash effect of paying a line: [-row['Montant'] if "Dette" in
    row['Type'] else row['Montant']]. *)
Definition impact (row : dette) : Z :=
  if contains "Dette" (e_type row) then - e_montant row else e_montant row.

(** The button "Payer" of line [i], on the two frames the script read from
    the document [g]: the document after each of the two [conn.update], in
    order.  Only a line "En cours" has the button. *)
Definition payer_updates (i : nat) (today : string) (g : sheets)
  : list sheets :=
  let df_flux := Flux g in
  let df_dettes := Dettes g in
  match nth_error df_dettes i with
  | Some row =>
      if String.eqb (e_statut row) "En cours" then
        (* 1. Marquer comme payé dans Dettes *)
        let df_dettes := set_statut i "✅ Payé" df_dettes in
        let g1 := mk_sheets (Flux g) df_dettes in
        (* 2. Créer l'impact financier automatique dans Flux *)
        let nouvelle_ligne_flux :=
          mk_flux today ("Remboursement " ++ e_contact row)%string
                  (impact row) "Dettes" in
        let updated_flux := df_flux ++ [nouvelle_ligne_flux] in
        let g2 := mk_sheets updated_flux (Dettes g1) in
        [g1; g2]
      else []
  | None => []
  end.

(** The document when the handler "Payer" is done. *)
Definition payer (i : nat) (today : string) (g : sheets) : sheets :=
  last (payer_updates i today g) g.



(** "Historique récent": [df_flux.tail(10)], the last ten lines. *)
Definition historique_recent (df_flux : list flux) : list flux :=
  skipn (List.length df_flux - 10) df_flux.

(** The gains and the expenses of "Flux": the lines with an amount that is
    not negative, and the lines with a negative amount, without its sign. *)
Definition total_gains (df_flux : list flux) : Z :=
  fold_right Z.add 0
    (map f_montant (filter (fun f => 0 <=? f_montant f) df_flux)).

Definition total_depenses (df_flux : list flux) : Z :=
  fold_right Z.add 0
    (map (fun f => - f_montant f)
         (filter (fun f => f_montant f <? 0) df_flux)).

End App.

(* ===================================================================== *)
(** ** The dates of the calendar *)
(* ===================================================================== *)

(** The texts [strftime('%Y-%m-%d')] and the date picker produce are dates
    of the Gregorian calendar, years 1 to 9999. *)
Module Calendar.

Definition leap (Y : Z) : bool :=
  (Y mod 4 =? 0) && (negb (Y mod 100 =? 0) || (Y mod 400 =? 0)).

Definition days_in_month (Y M : Z) : Z :=
  if M =? 2 then (if leap Y then 29 else 28)
  else if (M =? 4) || (M =? 6) || (M =? 9) || (M =? 11) then 30
  else 31.

(** A year, a month and a day that make a date. *)
Definition valid_ymd (Y M D : Z) : Prop :=
  1 <= Y <= 9999 /\ 1 <= M <= 12 /\ 1 <= D <= days_in_month Y M.

(** The text is [YYYY-MM-DD] for a date of the calendar. *)
Definition is_date (s : string) : bool :=
  match Sqlite.parseYyyyMmDd s with
  | Some (Y, M, D) => (1 <=? Y) && (D <=? days_in_month Y M)
  | None => false
  end.

(** The number a date reads as without its dashes. *)
Definition ymd_number (s : string) : option Z :=
  match Sqlite.parseYyyyMmDd s with
  | Some (Y, M, D) => Some (Y * 10000 + M * 100 + D)
  | None => None
  end.

(** The part of [computeJD] that depends on the year only. *)
Definition year_part (y : Z) : Z :=
  Z.quot (36525 * (y + 4716)) 100
  + (2 - Z.quot y 100 + Z.quot (Z.quot y 100) 4).

(** The part of [computeJD] that depends on the month only. *)
Definition month_part (m : Z) : Z := Z.quot (306001 * (m + 1)) 10000.

(** *** Counting the days *)






End Calendar.

(* ===================================================================== *)
(** ** The invariant of the obligation tables, and sample sessions *)
(* ===================================================================== *)

Import Kamela.

(** What a transaction adds to the balance. *)
Definition cash_effect (t : transaction) : Z :=
  if trans_type_eqb (t_type t) revenu then t_amount t else - t_amount t.

(** The rows of [transactions] have distinct ids below the counter and
    positive amounts. *)
Definition ledger_ok (db : DB) : Prop :=
  NoDup (map t_id (transactions db))
  /\ Forall (fun t => t_id t <= seq_transactions db) (transactions db)
  /\ Forall (fun t => 0 < t_amount t) (transactions db).

(** Every row of [debts] is 'actif' or 'remboursé', has a due date that is
    not NULL, and an amount paid that is not negative. *)
Definition debts_ok (db : DB) : Prop :=
  Forall (fun d => (d_status d = actif \/ d_status d = rembourse)
                   /\ d_due_date d <> None
                   /\ 0 <= d_amount_paid d)
         (debts db).




(** A debt of 50 owed to Awa, nothing repaid yet. *)
Definition db_awa_50 : DB :=
  run [AddDebt dette "Awa" "0600" (Some 50) (Some 0)
               "2024-01-01" "2024-02-01" ""].


(** An obligation opened with a principal of 0. *)
Definition session_zero : list action :=
  [AddDebt dette "Awa" "0600" (Some 0) (Some 0)
           "2024-01-01" "2024-02-01" ""].

(** A debt of 100 owed to Paul. *)
Definition db_paul_100 : DB :=
  run [AddDebt dette "Paul" "0700" (Some 100) (Some 0)
               "2024-01-01" "2024-02-01" ""].

(** The same file after the repayment of the 100. *)
Definition db_paul_repaid : DB :=
  mk_DB []
        [mk_debt 1 dette "Paul" "0700" 100 100 0 "2024-01-01"
                 (Some "2024-02-01"%string) rembourse ""]
        [mk_repayment 1 1 100 "2024-01-15" "Remboursement partiel"]
        [mk_contact 1 "Paul" (Some "0700"%string) None "creancier"
                    "Ajouté via dette"]
        0 1 1 1.

(** The document with one line of 100 owed to Paul. *)
Definition sheets_paul_100 : App.sheets :=
  App.mk_sheets []
    [App.mk_dette "Paul" "0700" "Dette (Je dois)" 100 "2024-02-01" "En cours"].

(** Three debts seen on 2024-03-01: due in 2 days, due in 10 days, and due
    the day before. *)
Definition db_three_deadlines : DB :=
  run [AddDebt dette "Paul" "" (Some 100) (Some 0)
               "2024-01-01" "2024-03-11" "";
       AddDebt pret "Awa" "" (Some 50) (Some 0)
               "2024-01-01" "2024-03-03" "";
       AddDebt dette "Lea" "" (Some 70) (Some 0)
               "2024-01-01" "2024-02-29" ""].

(** Two debts, the first with a due date and the second without one (the
    text of the due date is empty). *)
Definition db_undated : DB :=
  run [AddDebt dette "Paul" "" (Some 100) (Some 0)
               "2024-01-01" "2024-03-11" "";
       AddDebt dette "Awa" "" (Some 50) (Some 0)
               "2024-01-01" "" ""].

(** Three debts: one with a due date, then two without. *)
Definition db_two_undated : DB :=
  run [AddDebt dette "Paul" "" (Some 100) (Some 0)
               "2024-01-01" "2024-03-11" "";
       AddDebt dette "Awa" "" (Some 50) (Some 0)
               "2024-01-01" "" "";
       AddDebt dette "Lea" "" (Some 70) (Some 0)
               "2024-01-01" "" ""].

(* ===================================================================== *)
(** ** Overdue debts *)
(* ===================================================================== *)



(* ===================================================================== *)
(** ** The obligations in binary64, and sample sessions *)
(* ===================================================================== *)

(** The file after an accepted repayment. *)
Definition repaid64 (debt_id : Z) (total paid amount : PrimFloat.float)
    (date_cal : string) (db : Kamela64.DB) : Kamela64.DB :=
  Kamela64.mk_DB
    (Kamela64.transactions db)
    (map (fun d => if Kamela64.d_id d =? debt_id
                   then Kamela64.set_paid_status
                          (Sqlite.REAL (paid + amount))
                          (if (total <=? paid + amount)%float
                           then rembourse else actif) d
                   else d)
         (Kamela64.debts db))
    (Kamela64.repayments db
     ++ [Kamela64.mk_repayment (Kamela64.seq_repayments db + 1) debt_id amount
                               date_cal "Remboursement partiel"])
    (Kamela64.contacts db)
    (Kamela64.seq_transactions db) (Kamela64.seq_debts db)
    (Kamela64.seq_repayments db + 1) (Kamela64.seq_contacts db).

(** The running sum of the cash effects of rows, from [acc]. *)
Definition running_sum (acc : PrimFloat.float)
    (rows : list Kamela64.transaction) : PrimFloat.float :=
  fold_left (fun acc t => (acc + Kamela64.cash_effect t)%float) rows acc.

(** What the status column says of a debt. *)
Definition status_agrees64 (d : Kamela64.debt) : Prop :=
  (Kamela64.d_status d = rembourse
   <-> exists paid, Kamela64.d_amount_paid d = Some paid
                    /\ (Kamela64.d_amount d <=? paid)%float = true)
  /\ (Kamela64.d_status d = rembourse \/ Kamela64.d_status d = actif).

(** The rows of [debts] have distinct ids below the counter, and the
    status of a debt whose principal is above 0 follows from what is
    paid. *)
Definition debts64_ok (db : Kamela64.DB) : Prop :=
  NoDup (map Kamela64.d_id (Kamela64.debts db))
  /\ Forall (fun d => Kamela64.d_id d <= Kamela64.seq_debts db)
            (Kamela64.debts db)
  /\ Forall (fun d => (0 <? Kamela64.d_amount d)%float = true ->
                      status_agrees64 d)
            (Kamela64.debts db).

(** A debt of 0.3 of which 0.2 is repaid. *)
Definition session_third : list Kamela64.action :=
  [Kamela64.AddDebt dette "Awa" "0600" (Kamela64.Number 0.3)
                    (Kamela64.Number 0) "2024-01-01" "2024-02-01" "";
   Kamela64.Repay 1 (Kamela64.Number 0.2) "2024-01-10"].

(** A debt of 0.11, repaid by 0.04 and then by 0.07. *)
Definition session_overshoot : list Kamela64.action :=
  [Kamela64.AddDebt dette "Awa" "0600" (Kamela64.Number 0.11)
                    (Kamela64.Number 0) "2024-01-01" "2024-02-01" "";
   Kamela64.Repay 1 (Kamela64.Number 0.04) "2024-01-10";
   Kamela64.Repay 1 (Kamela64.Number 0.07) "2024-01-20"].

(** An obligation opened with a principal of 0. *)
Definition db_zero : Kamela64.DB :=
  Kamela64.run
    [Kamela64.AddDebt dette "Awa" "0600" (Kamela64.Number 0)
                      (Kamela64.Number 0) "2024-01-01" "2024-02-01" ""].

(** A debt of 0.03 of which 0.01 is repaid. *)
Definition session_three_cents : list Kamela64.action :=
  [Kamela64.AddDebt dette "Awa" "0600" (Kamela64.Number 0.03)
                    (Kamela64.Number 0) "2024-01-01" "2024-02-01" "";
   Kamela64.Repay 1 (Kamela64.Number 0.01) "2024-01-10"].

(** A debt of 0.04 of which 0.03 is repaid. *)
Definition session_four_cents : list Kamela64.action :=
  [Kamela64.AddDebt dette "Awa" "0600" (Kamela64.Number 0.04)
                    (Kamela64.Number 0) "2024-01-01" "2024-02-01" "";
   Kamela64.Repay 1 (Kamela64.Number 0.03) "2024-01-10"].

(** Incomes of 0.48 and expenses of 0.39 and 0.09. *)
Definition session_cents : list Kamela64.action :=
  [Kamela64.AddTransaction revenu "Salaire" (Kamela64.Number 0.48)
                           "2024-01-05" "";
   Kamela64.AddTransaction depense "Logement" (Kamela64.Number 0.39)
                           "2024-01-06" "";
   Kamela64.AddTransaction depense "Loisirs" (Kamela64.Number 0.09)
                           "2024-01-07" ""].

(* ===================================================================== *)
(** ** Facts on the SQLite operations *)
(* ===================================================================== *)

Example julianday_2000 : Sqlite.julianday "2000-01-01" = Some 2451545.
Proof. reflexivity. Qed.

Example julianday_leap :
  Sqlite.julianday_diff (Some "2024-03-01"%string) "2024-02-28" = Some 2.
Proof. reflexivity. Qed.

Example julianday_bad : Sqlite.julianday "demain" = None.
Proof. reflexivity. Qed.

Lemma COALESCE_SUM (xs : list Z) :
  Sqlite.COALESCE (Sqlite.SUM xs) 0 = fold_right Z.add 0 xs.
Proof. destruct xs; reflexivity. Qed.


Section OrderByFacts.
Context {A : Type} (key : A -> option string).

Lemma order_le_total (a b : option string) :
  Sqlite.order_le a b = true \/ Sqlite.order_le b a = true.
Proof.
  destruct a as [x|], b as [y|]; simpl; auto.
  apply String.leb_total.
Qed.

Lemma insert_row_perm (x : A) (l : list A) :
  Permutation (x :: l) (Sqlite.insert_row key x l).
Proof.
  induction l as [|y l IH]; simpl.
  - apply Permutation_refl.
  - destruct (Sqlite.order_le (key x) (key y)).
    + apply Permutation_refl.
    + eapply perm_trans; [apply perm_swap |]. now apply perm_skip.
Qed.

Lemma order_by_perm (l : list A) : Permutation l (Sqlite.order_by key l).
Proof.
  induction l as [|x l IH]; simpl.
  - apply perm_nil.
  - eapply perm_trans; [apply perm_skip, IH | apply insert_row_perm].
Qed.

Lemma order_by_In (l : list A) (x : A) :
  In x (Sqlite.order_by key l) <-> In x l.
Proof.
  split; apply Permutation_in;
    [apply Permutation_sym |]; apply order_by_perm.
Qed.

Lemma insert_row_hd (x : A) (l : list A) (y : A) :
  Sqlite.key_le key y x -> HdRel (Sqlite.key_le key) y l ->
  HdRel (Sqlite.key_le key) y (Sqlite.insert_row key x l).
Proof.
  intros Hyx Hl. destruct l as [|z l]; simpl.
  - now constructor.
  - inversion Hl; subst.
    destruct (Sqlite.order_le (key x) (key z)); now constructor.
Qed.

Lemma insert_row_sorted (x : A) (l : list A) :
  Sorted (Sqlite.key_le key) l ->
  Sorted (Sqlite.key_le key) (Sqlite.insert_row key x l).
Proof.
  induction 1 as [|y l Hs IH Hhd]; simpl.
  - repeat constructor.
  - destruct (Sqlite.order_le (key x) (key y)) eqn:E.
    + constructor; [now constructor |]. now constructor.
    + constructor; [exact IH |].
      apply insert_row_hd; [| exact Hhd]. unfold Sqlite.key_le.
      destruct (order_le_total (key x) (key y)) as [H|H];
        [congruence | exact H].
Qed.

Lemma order_by_sorted (l : list A) :
  Sorted (Sqlite.key_le key) (Sqlite.order_by key l).
Proof.
  induction l as [|x l IH]; simpl;
    [constructor | now apply insert_row_sorted].
Qed.
End OrderByFacts.

Lemma text_le_trans (a b c : string) :
  Sqlite.text_le a b = true -> Sqlite.text_le b c = true ->
  Sqlite.text_le a c = true.
Proof.
  unfold Sqlite.text_le, String.leb.
  revert b c. induction a as [|x a IH]; intros [|y b] [|z c]; simpl;
    try easy.
  unfold Ascii.compare.
  destruct (N.compare_spec (N_of_ascii x) (N_of_ascii y)) as [Exy|Lxy|Gxy],
           (N.compare_spec (N_of_ascii y) (N_of_ascii z)) as [Eyz|Lyz|Gyz],
           (N.compare_spec (N_of_ascii x) (N_of_ascii z)) as [Exz|Lxz|Gxz];
    try easy; try lia.
  apply IH.
Qed.

Lemma order_le_trans (a b c : option string) :
  Sqlite.order_le a b = true -> Sqlite.order_le b c = true ->
  Sqlite.order_le a c = true.
Proof.
  destruct a as [x|], b as [y|], c as [z|]; simpl; try easy.
  apply text_le_trans.
Qed.

Lemma order_by_strongly_sorted {A} (key : A -> option string) (l : list A) :
  StronglySorted (Sqlite.key_le key) (Sqlite.order_by key l).
Proof.
  apply Sorted_StronglySorted.
  - intros x y z. apply order_le_trans.
  - apply order_by_sorted.
Qed.

(** In a list sorted by [ORDER BY ... ASC], a row with NULL comes before
    every row with a value. *)
Lemma order_le_None (a : option string) :
  Sqlite.order_le a None = true -> a = None.
Proof. destruct a; simpl; [discriminate | reflexivity]. Qed.

Lemma text_le_empty (s : string) : Sqlite.text_le s "" = true -> s = ""%string.
Proof. destruct s; [reflexivity | discriminate]. Qed.

(* ===================================================================== *)
(** ** Facts on the handlers of the desktop program *)
(* ===================================================================== *)

Lemma select_debt_In (debt_id : Z) (db : DB) person total paid :
  select_debt debt_id db = Some (person, total, paid) ->
  exists d, In d (debts db) /\ d_id d = debt_id /\ d_person_name d = person
            /\ d_amount d = total /\ d_amount_paid d = paid.
Proof.
  unfold select_debt.
  destruct (filter _ (debts db)) as [|d l] eqn:E; [discriminate |].
  intros H. injection H as <- <- <-.
  assert (Hin : In d (filter (fun d => d_id d =? debt_id) (debts db)))
    by (rewrite E; now left).
  apply filter_In in Hin. destruct Hin as [Hin Hid].
  exists d. apply Z.eqb_eq in Hid. auto.
Qed.

Lemma filter_map_id (f : debt -> debt) (debt_id : Z) (l : list debt) :
  (forall d, d_id (f d) = d_id d) ->
  filter (fun d => d_id d =? debt_id) (map f l)
  = map f (filter (fun d => d_id d =? debt_id) l).
Proof.
  intros Hf. induction l as [|d l IH]; simpl; [reflexivity |].
  rewrite Hf. destruct (d_id d =? debt_id); simpl; now rewrite IH.
Qed.

Lemma select_debt_update (debt_id new_paid : Z) (st : debt_status) (db : DB)
      person total paid :
  select_debt debt_id db = Some (person, total, paid) ->
  select_debt debt_id (update_debt new_paid st debt_id db)
  = Some (person, total, new_paid).
Proof.
  unfold select_debt, update_debt; simpl.
  rewrite filter_map_id
    by (intros d; destruct (d_id d =? debt_id); reflexivity).
  destruct (filter _ (debts db)) as [|d l] eqn:E; [discriminate |].
  intros H. injection H as <- <- <-. simpl.
  assert (Hin : In d (filter (fun d => d_id d =? debt_id) (debts db)))
    by (rewrite E; now left).
  apply filter_In in Hin. destruct Hin as [_ ->]. reflexivity.
Qed.

(** The three ways a repayment ends. *)

Lemma apply_repayment_missing (debt_id : Z) amount_var date_cal (db : DB) :
  select_debt debt_id db = None ->
  apply_repayment debt_id amount_var date_cal db
  = (inl (TypeError "cannot unpack non-iterable NoneType object"), db).
Proof.
  intros H. unfold apply_repayment, show_repayment_dialog, bind, fetch.
  now rewrite H.
Qed.

Lemma apply_repayment_rejected (debt_id : Z) amount date_cal (db : DB)
      person total paid :
  select_debt debt_id db = Some (person, total, paid) ->
  amount <= 0 \/ amount > total - paid ->
  apply_repayment debt_id (Some amount) date_cal db
  = (inr (showerror "Erreur" "Montant invalide"), db).
Proof.
  intros H Hbad.
  unfold apply_repayment, show_repayment_dialog, bind, fetch.
  rewrite H. unfold ret.
  unfold show_repayment_dialog_save, try_except_ValueError,
    show_repayment_dialog_try, bind, float, ret.
  replace ((amount <=? 0) || (amount >? total - paid)) with true;
    [reflexivity |].
  symmetry. apply orb_true_iff.
  destruct Hbad; [left; now apply Z.leb_le | right; apply Z.gtb_lt; lia].
Qed.

Lemma apply_repayment_not_a_number (debt_id : Z) date_cal (db : DB)
      person total paid :
  select_debt debt_id db = Some (person, total, paid) ->
  apply_repayment debt_id None date_cal db
  = (inr (showerror "Erreur" "could not convert string to float"), db).
Proof.
  intros H. unfold apply_repayment, show_repayment_dialog, bind, fetch.
  now rewrite H.
Qed.

Lemma apply_repayment_accepted (debt_id : Z) amount date_cal (db : DB)
      person total paid :
  select_debt debt_id db = Some (person, total, paid) ->
  0 < amount -> amount <= total - paid ->
  apply_repayment debt_id (Some amount) date_cal db
  = (inr (showinfo "Succès" "Remboursement enregistré!"),
     update_debt (paid + amount)
                 (if paid + amount >=? total then rembourse else actif)
                 debt_id
                 (insert_repayment debt_id amount date_cal
                                   "Remboursement partiel" db)).
Proof.
  intros H Hpos Hle.
  unfold apply_repayment, show_repayment_dialog, bind, fetch.
  rewrite H. unfold ret.
  unfold show_repayment_dialog_save, try_except_ValueError,
    show_repayment_dialog_try, bind, float, ret.
  replace ((amount <=? 0) || (amount >? total - paid)) with false;
    [reflexivity |].
  symmetry. apply orb_false_iff. split.
  - apply Z.leb_gt; lia.
  - rewrite Z.gtb_ltb. apply Z.ltb_ge; lia.
Qed.

(* ===================================================================== *)
(** ** The invariant is kept by every handler *)
(* ===================================================================== *)











(* ===================================================================== *)
(** ** Repayments and the amount paid *)
(* ===================================================================== *)



(* ===================================================================== *)
(** ** What a repayment writes *)
(* ===================================================================== *)

(** C1, as stated, fails.  In the desktop program the repayment of the 100
    owed to Paul succeeds, the repayment record is in the file, and the
    table of transactions is empty: no transaction mirrors the repayment,
    and the balance is what it was.  In the sheet front-end the line that
    mirrors the payment of a debt has the amount -100, which is not
    positive. *)
Lemma C1_mirror_counterexample :
  apply_repayment 1 (Some 100) "2024-01-15" db_paul_100
  = (inr (showinfo "Succès" "Remboursement enregistré!"), db_paul_repaid)
  /\ repayments db_paul_repaid
     = [mk_repayment 1 1 100 "2024-01-15" "Remboursement partiel"]
  /\ ~ (exists t, In t (transactions db_paul_repaid))
  /\ select_balance db_paul_repaid = select_balance db_paul_100
  /\ map App.f_montant (App.Flux (App.payer 0 "2024-01-15" sheets_paul_100))
     = [-100].
Proof.
  repeat split; try reflexivity.
  intros [t []].
Qed.

(** A loan of 50, of which 30 come back: 20 remain and the loan stays
    'actif'. *)
Example partial_repayment_of_a_loan :
  debts (run [AddDebt pret "Awa" "" (Some 50) (Some 0)
                      "2024-01-01" "2024-02-01" "";
              Repay 1 (Some 30) "2024-01-10"])
  = [mk_debt 1 pret "Awa" "" 50 30 0 "2024-01-01"
             (Some "2024-02-01"%string) actif ""].
Proof. reflexivity. Qed.

(** The two updates of "Payer" are separate: after the first one the line
    is marked paid and "Flux" has no line for it yet. *)
Example payer_first_update :
  hd sheets_paul_100 (App.payer_updates 0 "2024-01-15" sheets_paul_100)
  = App.mk_sheets []
      [App.mk_dette "Paul" "0700" "Dette (Je dois)" 100 "2024-02-01"
                    "✅ Payé"].
Proof. reflexivity. Qed.

Lemma impact_dette (row : App.dette) :
  App.e_type row = "Dette (Je dois)"%string ->
  App.impact row = - App.e_montant row.
Proof. unfold App.impact. now intros ->. Qed.

Lemma impact_pret (row : App.dette) :
  App.e_type row = "Prêt (On me doit)"%string ->
  App.impact row = App.e_montant row.
Proof. unfold App.impact. now intros ->. Qed.

(** C1, amended.  In the desktop program a repayment with a valid amount
    succeeds and writes, in one commit, exactly one repayment record with
    that amount and the new [amount_paid] of the obligation; the table of
    transactions is not written.  The mirrored cash entry is made by the
    sheet front-end: its button "Payer" marks the line paid and appends
    exactly one line to "Flux", whose amount is minus the amount of the line
    for a debt and the amount of the line for a loan (the sign is in the
    amount). *)
Theorem C1_repayment_effects :
  (forall (db : DB) debt_id person total paid amount date_cal,
      select_debt debt_id db = Some (person, total, paid) ->
      0 < amount -> amount <= total - paid ->
      exists db',
        apply_repayment debt_id (Some amount) date_cal db
        = (inr (showinfo "Succès" "Remboursement enregistré!"), db')
        /\ repayments db'
           = repayments db
             ++ [mk_repayment (seq_repayments db + 1) debt_id amount date_cal
                              "Remboursement partiel"]
        /\ select_debt debt_id db' = Some (person, total, paid + amount)
        /\ transactions db' = transactions db)
  /\ (forall (g : App.sheets) (i : nat) (row : App.dette) today,
         nth_error (App.Dettes g) i = Some row ->
         App.e_statut row = "En cours"%string ->
         let g' := App.payer i today g in
         App.Flux g'
         = App.Flux g
           ++ [App.mk_flux today ("Remboursement " ++ App.e_contact row)
                           (App.impact row) "Dettes"]
         /\ App.Dettes g' = App.set_statut i "✅ Payé" (App.Dettes g)
         /\ (App.e_type row = "Dette (Je dois)"%string ->
             App.impact row = - App.e_montant row)
         /\ (App.e_type row = "Prêt (On me doit)"%string ->
             App.impact row = App.e_montant row)).
Proof.
  split.
  - intros db debt_id person total paid amount date_cal Hsel Hpos Hle.
    eexists. split; [| split; [| split]].
    + exact (apply_repayment_accepted _ _ _ _ _ _ _ Hsel Hpos Hle).
    + reflexivity.
    + apply (select_debt_update _ _ _ _ person total paid). exact Hsel.
    + reflexivity.
  - intros g i row today Hrow Hst g'. subst g'.
    unfold App.payer, App.payer_updates. rewrite Hrow, Hst. simpl.
    repeat split; auto using impact_dette, impact_pret.
Qed.

Lemma C1_repayment_effects_witness :
  (exists db',
      apply_repayment 1 (Some 100) "2024-01-15" db_paul_100
      = (inr (showinfo "Succès" "Remboursement enregistré!"), db')
      /\ repayments db'
         = repayments db_paul_100
           ++ [mk_repayment (seq_repayments db_paul_100 + 1) 1 100
                            "2024-01-15" "Remboursement partiel"]
      /\ select_debt 1 db' = Some ("Paul"%string, 100, 0 + 100)
      /\ transactions db' = transactions db_paul_100)
  /\ App.Flux (App.payer 0 "2024-01-15" sheets_paul_100)
     = [App.mk_flux "2024-01-15" "Remboursement Paul" (-100) "Dettes"].
Proof.
  split.
  - apply (proj1 C1_repayment_effects db_paul_100 1 "Paul"%string 100 0 100
             "2024-01-15"%string).
    + reflexivity.
    + lia.
    + simpl. lia.
  - apply (proj2 C1_repayment_effects sheets_paul_100 0%nat
             (App.mk_dette "Paul" "0700" "Dette (Je dois)" 100
                           "2024-02-01" "En cours")
             "2024-01-15"%string).
    + reflexivity.
    + reflexivity.
Defined.

(* ===================================================================== *)
(** ** The balance *)
(* ===================================================================== *)

Lemma or_0_id (x : Z) : or_0 x = x.
Proof. unfold or_0. destruct (Z.eqb_spec x 0); congruence. Qed.

Lemma select_balance_totals (db : DB) :
  select_balance db = total_of revenu db - total_of depense db.
Proof.
  unfold select_balance, total_of. rewrite COALESCE_SUM.
  induction (transactions db) as [|t l IH]; simpl; [reflexivity |].
  rewrite IH. destruct (t_type t); simpl; lia.
Qed.

Example balance_after_session :
  fst (calculate_stats
         (run [AddTransaction revenu "Salaire" (Some 1000) "2024-01-05" "";
               AddTransaction depense "Logement" (Some 400) "2024-01-06" "";
               AddTransaction depense "Loisirs" (Some (-5)) "2024-01-07" "";
               DeleteTransaction 7]))
  = inr (mk_stats 600 0).
Proof. reflexivity. Qed.

(* ===================================================================== *)
(** ** Opening an obligation *)
(* ===================================================================== *)

(** The file after [add_debt_dialog.save] got two numbers. *)
Lemma add_debt_dialog_saved (db : DB) ty name phone amount rate start due desc :
  add_debt_dialog_save ty name phone (Some amount) (Some rate) start due desc db
  = (inr (showinfo "Succès" "Enregistrement ajouté avec succès!"),
     let db1 := insert_debt ty name phone amount rate start (Some due) desc db in
     if match select_contact_by_phone phone db1 with
        | None => true
        | Some _ => false
        end && negb (String.eqb phone "")
     then insert_contact name phone None
            (if debt_type_eqb ty pret then "debiteur" else "creancier")
            ("Ajouté via " ++ debt_type_text ty) db1
     else db1).
Proof.
  unfold add_debt_dialog_save, try_except_ValueError, add_debt_dialog_try,
    bind, float, ret, execute, fetch, commit. simpl.
  match goal with
  | |- context [if ?c then _ else _] => destruct c
  end; reflexivity.
Qed.

(** C6, as stated, fails: a negative interest rate is not refused, and
    neither is a principal of 0.  Both obligations are stored. *)
Lemma C6_open_counterexample :
  add_debt_dialog_save dette "Paul" "" (Some 100) (Some (-1))
                       "2024-01-01" "2024-02-01" "" empty_db
  = (inr (showinfo "Succès" "Enregistrement ajouté avec succès!"),
     mk_DB [] [mk_debt 1 dette "Paul" "" 100 0 (-1) "2024-01-01"
                       (Some "2024-02-01"%string) actif ""]
           [] [] 0 1 0 0)
  /\ add_debt_dialog_save pret "Paul" "" (Some 0) (Some 0)
                          "2024-01-01" "2024-02-01" "" empty_db
     = (inr (showinfo "Succès" "Enregistrement ajouté avec succès!"),
        mk_DB [] [mk_debt 1 pret "Paul" "" 0 0 0 "2024-01-01"
                          (Some "2024-02-01"%string) actif ""]
              [] [] 0 1 0 0).
Proof. split; reflexivity. Qed.

(** C6, amended.  Opening an obligation raises [ValueError], shows an error
    and writes nothing when the principal or the interest rate entered is
    not a number.  With a positive principal and any rate, negative ones
    included, it succeeds and the new row of [debts] has [amount_paid] 0
    and status 'actif'. *)
Theorem C6_open_obligation :
  (forall (db : DB) ty name phone amount_var rate_var start due desc,
      amount_var = None \/ rate_var = None ->
      add_debt_dialog_try ty name phone amount_var rate_var start due desc db
      = (inl (ValueError "could not convert string to float"), db)
      /\ add_debt_dialog_save ty name phone amount_var rate_var
                              start due desc db
         = (inr (showerror "Erreur" "Montant ou taux invalide!"), db))
  /\ (forall (db : DB) ty name phone amount rate start due desc,
         0 < amount ->
         exists db',
           add_debt_dialog_save ty name phone (Some amount) (Some rate)
                                start due desc db
           = (inr (showinfo "Succès" "Enregistrement ajouté avec succès!"),
              db')
           /\ debts db'
              = debts db
                ++ [mk_debt (seq_debts db + 1) ty name phone amount 0 rate
                            start (Some due) actif desc]).
Proof.
  split.
  - intros db ty name phone amount_var rate_var start due desc Hbad.
    unfold add_debt_dialog_save, try_except_ValueError, add_debt_dialog_try,
      bind, float, ret, raise.
    destruct amount_var as [amount|]; [| split; reflexivity].
    destruct rate_var as [rate|]; [| split; reflexivity].
    destruct Hbad; discriminate.
  - intros db ty name phone amount rate start due desc _.
    eexists. split; [apply add_debt_dialog_saved |].
    cbv zeta.
    match goal with
    | |- context [if ?c then _ else _] => destruct c
    end; reflexivity.
Qed.

Lemma C6_open_obligation_witness :
  add_debt_dialog_save dette "Paul" "" None (Some 0)
                       "2024-01-01" "2024-02-01" "" empty_db
  = (inr (showerror "Erreur" "Montant ou taux invalide!"), empty_db)
  /\ exists db',
       add_debt_dialog_save dette "Paul" "" (Some 100) (Some (-1))
                            "2024-01-01" "2024-02-01" "" empty_db
       = (inr (showinfo "Succès" "Enregistrement ajouté avec succès!"), db')
       /\ debts db'
          = debts empty_db
            ++ [mk_debt (seq_debts empty_db + 1) dette "Paul" "" 100 0 (-1)
                        "2024-01-01" (Some "2024-02-01"%string) actif ""].
Proof.
  split.
  - apply (proj1 C6_open_obligation empty_db dette "Paul"%string ""%string
             None (Some 0) "2024-01-01"%string "2024-02-01"%string ""%string).
    left. reflexivity.
  - apply (proj2 C6_open_obligation empty_db dette "Paul"%string ""%string
             100 (-1) "2024-01-01"%string "2024-02-01"%string ""%string).
    lia.
Defined.

(** C10.  When an obligation is opened with a phone number that is not
    empty and is the phone of no contact, the same handler adds one row to
    [contacts], with the name and the phone of the obligation, of type
    'debiteur' for a loan and 'creancier' for a debt. *)
Theorem C10_new_phone_adds_contact :
  forall (db : DB) ty name phone amount rate start due desc,
    phone <> ""%string ->
    (forall c, In c (contacts db) -> c_phone c <> Some phone) ->
    exists db',
      add_debt_dialog_save ty name phone (Some amount) (Some rate)
                           start due desc db
      = (inr (showinfo "Succès" "Enregistrement ajouté avec succès!"), db')
      /\ contacts db'
         = contacts db
           ++ [mk_contact (seq_contacts db + 1) name (Some phone) None
                          match ty with
                          | pret => "debiteur"
                          | dette => "creancier"
                          end
                          ("Ajouté via " ++ debt_type_text ty)]
      /\ debts db'
         = debts db
           ++ [mk_debt (seq_debts db + 1) ty name phone amount 0 rate
                       start (Some due) actif desc].
Proof.
  intros db ty name phone amount rate start due desc Hphone Hnew.
  eexists. split; [apply add_debt_dialog_saved |].
  cbv zeta.
  assert (Hsel : select_contact_by_phone phone
                   (insert_debt ty name phone amount rate start (Some due)
                                desc db) = None).
  { unfold select_contact_by_phone; simpl.
    induction (contacts db) as [|c l IH]; simpl; [reflexivity |].
    assert (Hc : c_phone c <> Some phone) by (apply Hnew; now left).
    destruct (c_phone c) as [p|].
    - destruct (String.eqb_spec p phone) as [->|_]; [congruence |].
      apply IH. intros c' Hin. apply Hnew. now right.
    - apply IH. intros c' Hin. apply Hnew. now right. }
  rewrite Hsel.
  destruct (String.eqb_spec phone "") as [|_]; [contradiction |].
  simpl. destruct ty; split; reflexivity.
Qed.

Lemma C10_new_phone_adds_contact_witness :
  exists db',
    add_debt_dialog_save pret "Awa" "0600" (Some 50) (Some 0)
                         "2024-01-01" "2024-02-01" "" db_paul_100
    = (inr (showinfo "Succès" "Enregistrement ajouté avec succès!"), db')
    /\ contacts db'
       = contacts db_paul_100
         ++ [mk_contact (seq_contacts db_paul_100 + 1) "Awa"
                        (Some "0600"%string) None "debiteur" "Ajouté via pret"]
    /\ debts db'
       = debts db_paul_100
         ++ [mk_debt (seq_debts db_paul_100 + 1) pret "Awa" "0600" 50 0 0
                     "2024-01-01" (Some "2024-02-01"%string) actif ""].
Proof.
  apply (C10_new_phone_adds_contact db_paul_100 pret "Awa"%string "0600"%string
           50 0 "2024-01-01"%string "2024-02-01"%string ""%string).
  - discriminate.
  - simpl. intros c [<-|[]]. discriminate.
Defined.

(* ===================================================================== *)
(** ** Deadlines, alerts and listings *)
(* ===================================================================== *)


Lemma days_int_Some (n : Z) : days_int (Some n) = n.
Proof. unfold days_int. destruct (Z.eqb_spec n 0); congruence. Qed.

Lemma select_deadlines_In (today : string) (db : DB) (d : debt) :
  In d (select_deadlines today db)
  <-> In d (debts db) /\ d_status d = actif
      /\ exists due, d_due_date d = Some due
                     /\ Sqlite.text_le today due = true.
Proof.
  unfold select_deadlines. rewrite order_by_In, filter_In, andb_true_iff.
  split.
  - intros (Hin & Hge & Hst). split; [exact Hin |]. split.
    + now destruct (d_status d).
    + destruct (d_due_date d) as [due|]; [| discriminate]. now exists due.
  - intros (Hin & Hst & due & Hdue & Hle). split; [exact Hin |].
    rewrite Hdue, Hst. simpl. auto.
Qed.

Example deadlines_on_march_1 :
  fst (load_all_deadlines "2024-03-01" db_three_deadlines)
  = inr [mk_deadline (Some "2024-03-03"%string) pret "Awa" 50 2 urgent;
         mk_deadline (Some "2024-03-11"%string) dette "Paul" 100 10 normal].
Proof. reflexivity. Qed.

(** C9, as stated, fails: the debt without a due date is listed first,
    before the dated one. *)
Lemma C9_undated_counterexample :
  fst (load_debts_data dette db_undated)
  = inr [mk_debt_line 2 "Awa" "" 50 0 50 0 "2024-01-01" (Some ""%string)
                      actif "";
         mk_debt_line 1 "Paul" "" 100 0 100 0 "2024-01-01"
                      (Some "2024-03-11"%string) actif ""]
  /\ undated (Some ""%string) = true
  /\ undated (Some "2024-03-11"%string) = false.
Proof. repeat split. Qed.

Example undated_null_first :
  map ln_id
      (Sqlite.order_by ln_due
         [mk_debt_line 1 "Paul" "" 100 0 100 0 "2024-01-01"
                       (Some "2024-03-11"%string) actif "";
          mk_debt_line 2 "Awa" "" 50 0 50 0 "2024-01-01" None actif ""])
  = [2; 1].
Proof. reflexivity. Qed.

Lemma order_le_undated (a b : option string) :
  Sqlite.order_le a b = true -> undated b = true -> undated a = true.
Proof.
  destruct a as [x|], b as [y|]; simpl; try easy.
  intros Hle Hy. apply String.eqb_eq in Hy. subst y.
  apply text_le_empty in Hle. now subst x.
Qed.

Lemma order_by_map {A B} (f : A -> B) (key : B -> option string) (l : list A) :
  map f (Sqlite.order_by (fun x => key (f x)) l)
  = Sqlite.order_by key (map f l).
Proof.
  induction l as [|x l IH]; simpl; [reflexivity |].
  rewrite <- IH. clear IH.
  induction (Sqlite.order_by (fun x => key (f x)) l) as [|y l' IH'];
    simpl; [reflexivity |].
  destruct (Sqlite.order_le (key (f x)) (key (f y))); simpl;
    [reflexivity | now rewrite IH'].
Qed.

(** C9, amended.  The listing of the debts of one type is in ascending
    order of due date, and the debts without a due date come first: every
    line listed before a line without a due date has no due date either. *)
Theorem C9_listing_order :
  forall (debt_type : debt_type) (db : DB),
    exists lines,
      load_debts_data debt_type db = (inr lines, db)
      /\ StronglySorted (Sqlite.key_le ln_due) lines
      /\ (forall l1 a l2 b l3,
             lines = l1 ++ a :: l2 ++ b :: l3 ->
             undated (ln_due b) = true -> undated (ln_due a) = true).
Proof.
  intros ty db. eexists. split; [reflexivity |].
  change (fun d => d_due_date d) with (fun d => ln_due (debt_line_of d)).
  rewrite (order_by_map debt_line_of ln_due).
  set (lines := Sqlite.order_by ln_due _).
  assert (Hs : StronglySorted (Sqlite.key_le ln_due) lines)
    by apply order_by_strongly_sorted.
  split; [exact Hs |].
  intros l1 a l2 b l3 Heq Hb. rewrite Heq in Hs.
  assert (Hs' : StronglySorted (Sqlite.key_le ln_due) (a :: l2 ++ b :: l3)).
  { clear Heq. induction l1 as [|x l1 IH]; [exact Hs |].
    apply IH. now inversion Hs. }
  apply StronglySorted_inv in Hs'. destruct Hs' as [_ Hall].
  rewrite Forall_forall in Hall.
  apply (order_le_undated (ln_due a) (ln_due b)); [| exact Hb].
  apply Hall. apply in_or_app. right. now left.
Qed.

Lemma C9_listing_order_witness :
  fst (load_debts_data dette db_two_undated)
  = inr [mk_debt_line 2 "Awa" "" 50 0 50 0 "2024-01-01" (Some ""%string)
                      actif "";
         mk_debt_line 3 "Lea" "" 70 0 70 0 "2024-01-01" (Some ""%string)
                      actif "";
         mk_debt_line 1 "Paul" "" 100 0 100 0 "2024-01-01"
                      (Some "2024-03-11"%string) actif ""]
  /\ undated (ln_due (mk_debt_line 2 "Awa" "" 50 0 50 0 "2024-01-01"
                                   (Some ""%string) actif "")) = true.
Proof.
  destruct (C9_listing_order dette db_two_undated)
    as (lines & Hrun & _ & Hfirst).
  injection Hrun as Hlines. split; [reflexivity |].
  apply (Hfirst []
           (mk_debt_line 2 "Awa" "" 50 0 50 0 "2024-01-01" (Some ""%string)
                         actif "")
           []
           (mk_debt_line 3 "Lea" "" 70 0 70 0 "2024-01-01" (Some ""%string)
                         actif "")
           [mk_debt_line 1 "Paul" "" 100 0 100 0 "2024-01-01"
                         (Some "2024-03-11"%string) actif ""]).
  - rewrite <- Hlines. reflexivity.
  - reflexivity.
Defined.

(* ===================================================================== *)
(** ** Text order and date order *)
(* ===================================================================== *)

Lemma digit_inv (c : ascii) (v : Z) :
  Sqlite.digit c = Some v ->
  Z.of_N (N_of_ascii c) = 48 + v /\ 0 <= v <= 9.
Proof.
  unfold Sqlite.digit. cbv zeta.
  destruct (Z.leb_spec 48 (Z.of_N (N_of_ascii c))),
           (Z.leb_spec (Z.of_N (N_of_ascii c)) 57); cbn [andb];
    try discriminate.
  intros H'. injection H' as <-. lia.
Qed.

Lemma Some_triple_inj (a b c x y z : Z) :
  Some (a, b, c) = Some (x, y, z) -> a = x /\ b = y /\ c = z.
Proof. intros H. now injection H. Qed.

(** A text that [parseYyyyMmDd] reads is ten characters: eight digits and
    two dashes. *)
Lemma parseYyyyMmDd_inv (s : string) (Y M D : Z) :
  Sqlite.parseYyyyMmDd s = Some (Y, M, D) ->
  exists c1 c2 c3 c4 c6 c7 c9 c10 v1 v2 v3 v4 v6 v7 v9 v10,
    s = String c1 (String c2 (String c3 (String c4 (String "-"
          (String c6 (String c7 (String "-" (String c9 (String c10 "")))))))))
    /\ Sqlite.digit c1 = Some v1 /\ Sqlite.digit c2 = Some v2
    /\ Sqlite.digit c3 = Some v3 /\ Sqlite.digit c4 = Some v4
    /\ Sqlite.digit c6 = Some v6 /\ Sqlite.digit c7 = Some v7
    /\ Sqlite.digit c9 = Some v9 /\ Sqlite.digit c10 = Some v10
    /\ Y = 1000 * v1 + 100 * v2 + 10 * v3 + v4
    /\ M = 10 * v6 + v7 /\ D = 10 * v9 + v10
    /\ 1 <= M <= 12 /\ 1 <= D <= 31.
Proof.
  unfold Sqlite.parseYyyyMmDd. intros H.
  pose proof (string_of_list_ascii_of_string s) as Hs.
  destruct (list_ascii_of_string s)
    as [|c1 [|c2 [|c3 [|c4 [|c5 [|c6 [|c7 [|c8 [|c9 [|c10 [|c11 l]]]]]]]]]]];
    try discriminate.
  destruct (Ascii.eqb_spec c5 "-"); [| discriminate].
  destruct (Ascii.eqb_spec c8 "-"); [| discriminate]. subst c5 c8.
  cbn [andb Sqlite.getDigits] in H.
  destruct (Sqlite.digit c1) as [v1|] eqn:E1; [| discriminate].
  destruct (Sqlite.digit c2) as [v2|] eqn:E2; [| discriminate].
  destruct (Sqlite.digit c3) as [v3|] eqn:E3; [| discriminate].
  destruct (Sqlite.digit c4) as [v4|] eqn:E4; [| discriminate].
  destruct (Sqlite.digit c6) as [v6|] eqn:E6; [| discriminate].
  destruct (Sqlite.digit c7) as [v7|] eqn:E7; [| discriminate].
  destruct (Sqlite.digit c9) as [v9|] eqn:E9; [| discriminate].
  destruct (Sqlite.digit c10) as [v10|] eqn:E10; [| discriminate].
  match type of H with
  | (if ?c then _ else _) = _ => destruct c eqn:Hc; [| discriminate]
  end.
  apply Some_triple_inj in H. destruct H as (HY & HM & HD).
  rewrite !andb_true_iff, !Z.leb_le in Hc.
  exists c1, c2, c3, c4, c6, c7, c9, c10, v1, v2, v3, v4, v6, v7, v9, v10.
  cbn [string_of_list_ascii] in Hs. subst s.
  split; [reflexivity |]. repeat (split; [assumption |]). lia.
Qed.

(** Two date texts compare, byte by byte, as the numbers they read as. *)
Lemma ymd_number_compare (a b : string) (ka kb : Z) :
  Calendar.ymd_number a = Some ka -> Calendar.ymd_number b = Some kb ->
  String.compare a b = (ka ?= kb).
Proof.
  unfold Calendar.ymd_number.
  destruct (Sqlite.parseYyyyMmDd a) as [[[Ya Ma] Da]|] eqn:Pa; [| discriminate].
  destruct (Sqlite.parseYyyyMmDd b) as [[[Yb Mb] Db]|] eqn:Pb; [| discriminate].
  intros Ha Hb. injection Ha as <-. injection Hb as <-.
  apply parseYyyyMmDd_inv in Pa, Pb.
  destruct Pa as (a1 & a2 & a3 & a4 & a6 & a7 & a9 & a10 & u1 & u2 & u3 & u4
                  & u6 & u7 & u9 & u10 & -> & A1 & A2 & A3 & A4 & A6 & A7 & A9
                  & A10 & -> & -> & -> & _ & _).
  destruct Pb as (b1 & b2 & b3 & b4 & b6 & b7 & b9 & b10 & w1 & w2 & w3 & w4
                  & w6 & w7 & w9 & w10 & -> & B1 & B2 & B3 & B4 & B6 & B7 & B9
                  & B10 & -> & -> & -> & _ & _).
  apply digit_inv in A1, A2, A3, A4, A6, A7, A9, A10,
                     B1, B2, B3, B4, B6, B7, B9, B10.
  cbn [String.compare]. unfold Ascii.compare.
  rewrite !(N.compare_refl (N_of_ascii "-")).
  repeat match goal with
         | |- context [N.compare (N_of_ascii ?x) (N_of_ascii ?y)] =>
             destruct (N.compare_spec (N_of_ascii x) (N_of_ascii y));
             cbv iota
         end;
    symmetry;
    first [ apply Z.compare_eq_iff; lia
          | apply Z.compare_lt_iff; lia
          | apply Z.compare_gt_iff; lia ].
Qed.

Lemma computeJD_parts (Y M D : Z) :
  Sqlite.computeJD Y M D
  = if M <=? 2
    then Calendar.year_part (Y - 1) + Calendar.month_part (M + 12) + D - 1524
    else Calendar.year_part Y + Calendar.month_part M + D - 1524.
Proof.
  unfold Sqlite.computeJD, Calendar.year_part, Calendar.month_part.
  destruct (M <=? 2); lia.
Qed.

(** From a year to the next, [computeJD] moves by 365 days, and by 366 when
    the next year is a leap year. *)
Lemma year_part_succ (y : Z) :
  0 <= y ->
  Calendar.year_part (y + 1)
  = Calendar.year_part y + 365 + (if Calendar.leap (y + 1) then 1 else 0).
Proof.
  intros Hy. unfold Calendar.year_part, Calendar.leap.
  rewrite !Z.quot_div_nonneg by (try apply Z.div_pos; lia).
  destruct ((y + 1) mod 4 =? 0) eqn:E4;
    destruct ((y + 1) mod 100 =? 0) eqn:E100;
    destruct ((y + 1) mod 400 =? 0) eqn:E400; cbn [andb orb negb];
    rewrite ?Z.eqb_eq, ?Z.eqb_neq in *;
    Z.to_euclidean_division_equations; lia.
Qed.

Lemma year_part_mono (y1 y2 : Z) :
  0 <= y1 -> y1 <= y2 ->
  Calendar.year_part y1 + 365 * (y2 - y1) <= Calendar.year_part y2.
Proof.
  intros H1 H2. replace y2 with (y1 + Z.of_nat (Z.to_nat (y2 - y1))) by lia.
  induction (Z.to_nat (y2 - y1)) as [|n IH].
  - replace (y1 + Z.of_nat 0) with y1 by lia. lia.
  - replace (y1 + Z.of_nat (S n)) with (y1 + Z.of_nat n + 1) by lia.
    rewrite year_part_succ by lia.
    destruct (Calendar.leap (y1 + Z.of_nat n + 1)); lia.
Qed.

Ltac enum_month M :=
  let H := fresh in
  assert (H : M = 1 \/ M = 2 \/ M = 3 \/ M = 4 \/ M = 5 \/ M = 6 \/ M = 7
              \/ M = 8 \/ M = 9 \/ M = 10 \/ M = 11 \/ M = 12) by lia;
  destruct H as [->|[->|[->|[->|[->|[->|[->|[->|[->|[->|[->| ->]]]]]]]]]]].

Ltac compute_closed :=
  repeat match goal with
         | |- context [Calendar.month_part ?m] =>
             let v := eval vm_compute in (Calendar.month_part m) in
             change (Calendar.month_part m) with v
         | |- context [Z.leb ?a ?b] =>
             let v := eval vm_compute in (Z.leb a b) in
             change (Z.leb a b) with v
         | H : context [Z.eqb ?a ?b] |- _ =>
             let v := eval vm_compute in (Z.eqb a b) in
             change (Z.eqb a b) with v in H
         end;
  cbv iota in *; cbn [orb] in *.

(** On the dates of the calendar, [computeJD] grows with the date. *)
Lemma computeJD_lt (Y1 M1 D1 Y2 M2 D2 : Z) :
  Calendar.valid_ymd Y1 M1 D1 -> Calendar.valid_ymd Y2 M2 D2 ->
  Y1 * 10000 + M1 * 100 + D1 < Y2 * 10000 + M2 * 100 + D2 ->
  Sqlite.computeJD Y1 M1 D1 < Sqlite.computeJD Y2 M2 D2.
Proof.
  intros (HY1 & HM1 & HD1) (HY2 & HM2 & HD2) Hlt.
  rewrite !computeJD_parts.
  pose proof (year_part_succ (Y1 - 1)) as S1.
  replace (Y1 - 1 + 1) with Y1 in S1 by lia.
  pose proof (year_part_succ (Y2 - 1)) as S2.
  replace (Y2 - 1 + 1) with Y2 in S2 by lia.
  assert (Hmono : Y1 < Y2 ->
                  Calendar.year_part Y1 + 365 * (Y2 - 1 - Y1)
                  <= Calendar.year_part (Y2 - 1))
    by (intros; apply year_part_mono; lia).
  unfold Calendar.days_in_month in HD1, HD2.
  destruct (Z.eq_dec Y1 Y2) as [->|Hne].
  - clear Hmono S1.
    generalize dependent (Calendar.year_part (Y2 - 1)).
    generalize dependent (Calendar.year_part Y2).
    intros g g' S2. specialize (S2 ltac:(lia)).
    enum_month M1; enum_month M2; compute_closed;
      destruct (Calendar.leap Y2); lia.
  - assert (HY : Y1 < Y2).
    { destruct (Calendar.leap Y1), (Calendar.leap Y2);
        destruct (M1 =? 2), (M2 =? 2);
        try destruct ((M1 =? 4) || (M1 =? 6) || (M1 =? 9) || (M1 =? 11));
        try destruct ((M2 =? 4) || (M2 =? 6) || (M2 =? 9) || (M2 =? 11));
        lia. }
    specialize (Hmono HY).
    specialize (S1 ltac:(lia)). specialize (S2 ltac:(lia)).
    generalize dependent (Calendar.year_part (Y2 - 1)).
    generalize dependent (Calendar.year_part Y2).
    generalize dependent (Calendar.year_part (Y1 - 1)).
    generalize dependent (Calendar.year_part Y1).
    intros g1 g1' S1 g2 g2' S2 Hmono.
    enum_month M1; enum_month M2; compute_closed;
      destruct (Calendar.leap Y1), (Calendar.leap Y2); lia.
Qed.

(** What [is_date] says of a text. *)
Lemma is_date_inv (s : string) :
  Calendar.is_date s = true ->
  exists Y M D,
    Sqlite.parseYyyyMmDd s = Some (Y, M, D) /\ Calendar.valid_ymd Y M D.
Proof.
  unfold Calendar.is_date.
  destruct (Sqlite.parseYyyyMmDd s) as [[[Y M] D]|] eqn:P; [| discriminate].
  intros H. apply andb_true_iff in H. destruct H as [HY HD].
  apply Z.leb_le in HY, HD.
  exists Y, M, D. split; [reflexivity |].
  apply parseYyyyMmDd_inv in P.
  destruct P as (c1 & c2 & c3 & c4 & c6 & c7 & c9 & c10 & v1 & v2 & v3 & v4
                 & v6 & v7 & v9 & v10 & _ & E1 & E2 & E3 & E4 & _ & _ & _ & _
                 & -> & HM & HD' & HMr & HDr).
  apply digit_inv in E1, E2, E3, E4.
  unfold Calendar.valid_ymd. lia.
Qed.

Lemma calendar_compare (a b : string) :
  Calendar.is_date a = true -> Calendar.is_date b = true ->
  exists ja jb,
    Sqlite.julianday a = Some ja /\ Sqlite.julianday b = Some jb
    /\ String.compare a b = (ja ?= jb).
Proof.
  intros Ha Hb.
  destruct (is_date_inv a Ha) as (Ya & Ma & Da & Pa & Va).
  destruct (is_date_inv b Hb) as (Yb & Mb & Db & Pb & Vb).
  unfold Sqlite.julianday. rewrite Pa, Pb.
  exists (Sqlite.computeJD Ya Ma Da), (Sqlite.computeJD Yb Mb Db).
  split; [reflexivity |]. split; [reflexivity |].
  rewrite (ymd_number_compare a b (Ya * 10000 + Ma * 100 + Da)
                              (Yb * 10000 + Mb * 100 + Db))
    by (unfold Calendar.ymd_number; now rewrite ?Pa, ?Pb).
  assert (HmA : Calendar.days_in_month Ya Ma <= 31)
    by (unfold Calendar.days_in_month;
        destruct (Ma =? 2), (Calendar.leap Ya),
          ((Ma =? 4) || (Ma =? 6) || (Ma =? 9) || (Ma =? 11)); lia).
  assert (HmB : Calendar.days_in_month Yb Mb <= 31)
    by (unfold Calendar.days_in_month;
        destruct (Mb =? 2), (Calendar.leap Yb),
          ((Mb =? 4) || (Mb =? 6) || (Mb =? 9) || (Mb =? 11)); lia).
  destruct (Z.compare_spec (Ya * 10000 + Ma * 100 + Da)
                           (Yb * 10000 + Mb * 100 + Db)) as [E|L|G].
  - assert (Ya = Yb /\ Ma = Mb /\ Da = Db)
      by (unfold Calendar.valid_ymd in *; lia).
    destruct H as (-> & -> & ->). symmetry. apply Z.compare_refl.
  - symmetry. apply Z.compare_lt_iff. now apply computeJD_lt.
  - symmetry. apply Z.compare_gt_iff. now apply computeJD_lt.
Qed.

(** X1.  On the dates of the calendar, written [YYYY-MM-DD], the
    comparison of the texts that the queries use is the comparison of the
    days: both texts have a Julian day, and one text is below (at most)
    the other exactly when its Julian day is. *)
Theorem text_order_is_date_order :
  forall a b : string,
    Calendar.is_date a = true -> Calendar.is_date b = true ->
    exists ja jb,
      Sqlite.julianday a = Some ja /\ Sqlite.julianday b = Some jb
      /\ (Sqlite.text_le a b = true <-> ja <= jb)
      /\ (Sqlite.text_lt a b = true <-> ja < jb)
      /\ (a = b <-> ja = jb).
Proof.
  intros a b Ha Hb.
  destruct (calendar_compare a b Ha Hb) as (ja & jb & Ja & Jb & Hcmp).
  exists ja, jb. split; [exact Ja |]. split; [exact Jb |].
  unfold Sqlite.text_le, Sqlite.text_lt, String.leb, String.ltb.
  rewrite Hcmp.
  split; [| split].
  - destruct (Z.compare_spec ja jb); split; intros;
      try lia; try reflexivity; discriminate.
  - destruct (Z.compare_spec ja jb); split; intros;
      try lia; try reflexivity; discriminate.
  - split.
    + intros ->. congruence.
    + intros ->. apply String.compare_eq_iff.
      rewrite Hcmp. apply Z.compare_refl.
Qed.

Lemma text_order_is_date_order_witness :
  exists ja jb,
    Sqlite.julianday "2024-02-29" = Some ja
    /\ Sqlite.julianday "2024-03-01" = Some jb
    /\ (Sqlite.text_le "2024-02-29" "2024-03-01" = true <-> ja <= jb)
    /\ (Sqlite.text_lt "2024-02-29" "2024-03-01" = true <-> ja < jb)
    /\ ("2024-02-29"%string = "2024-03-01"%string <-> ja = jb).
Proof.
  apply (text_order_is_date_order "2024-02-29" "2024-03-01"); reflexivity.
Defined.

(* ===================================================================== *)
(** ** What each action does to the file *)
(* ===================================================================== *)

Lemma add_transaction_cases (db : DB) ty cat amount_var date desc :
  perform db (AddTransaction ty cat amount_var date desc) = db
  \/ exists amount,
      amount_var = Some amount /\ 0 < amount
      /\ perform db (AddTransaction ty cat amount_var date desc)
         = insert_transaction ty cat amount desc date db.
Proof.
  simpl. unfold add_transaction_dialog_save, try_except_ValueError, bind,
    float, ret, raise, execute, commit.
  destruct amount_var as [amount|]; simpl; [| now left].
  destruct (Z.leb_spec amount 0); simpl; [now left |].
  right. exists amount. auto.
Qed.

Lemma add_debt_cases (db : DB) ty name phone amount_var rate_var start due desc :
  perform db (AddDebt ty name phone amount_var rate_var start due desc) = db
  \/ exists amount rate,
      amount_var = Some amount /\ rate_var = Some rate
      /\ let db1 := insert_debt ty name phone amount rate start (Some due)
                                desc db in
         perform db (AddDebt ty name phone amount_var rate_var start due desc)
         = db1
         \/ (select_contact_by_phone phone db1 = None /\ phone <> ""%string
             /\ perform db
                  (AddDebt ty name phone amount_var rate_var start due desc)
                = insert_contact name phone None
                    (if debt_type_eqb ty pret then "debiteur" else "creancier")
                    ("Ajouté via " ++ debt_type_text ty) db1).
Proof.
  destruct amount_var as [amount|]; [| now left].
  destruct rate_var as [rate|]; [| now left].
  right. exists amount, rate. split; [reflexivity |]. split; [reflexivity |].
  cbv zeta. simpl perform. rewrite add_debt_dialog_saved. cbv zeta. simpl snd.
  destruct (select_contact_by_phone phone _) eqn:Hsel; simpl; [now left |].
  destruct (String.eqb_spec phone ""); simpl; [now left |].
  right. auto.
Qed.

Lemma repay_cases (db : DB) debt_id amount_var date :
  perform db (Repay debt_id amount_var date) = db
  \/ exists person total paid amount,
      select_debt debt_id db = Some (person, total, paid)
      /\ amount_var = Some amount /\ 0 < amount <= total - paid
      /\ perform db (Repay debt_id amount_var date)
         = update_debt (paid + amount)
             (if paid + amount >=? total then rembourse else actif) debt_id
             (insert_repayment debt_id amount date "Remboursement partiel" db).
Proof.
  simpl.
  destruct (select_debt debt_id db) as [[[person total] paid]|] eqn:Hsel.
  - destruct amount_var as [amount|].
    + destruct (Z_le_gt_dec amount 0) as [Hle|Hpos].
      { left. now rewrite (apply_repayment_rejected _ _ _ _ _ _ _ Hsel
                             (or_introl Hle)). }
      destruct (Z_le_gt_dec amount (total - paid)) as [Hok|Hover].
      { right. exists person, total, paid, amount.
        rewrite (apply_repayment_accepted _ _ _ _ _ _ _ Hsel) by lia.
        repeat split; auto; lia. }
      left. now rewrite (apply_repayment_rejected _ _ _ _ _ _ _ Hsel
                           (or_intror Hover)).
    + left. now rewrite (apply_repayment_not_a_number _ _ _ _ _ _ Hsel).
  - left. now rewrite apply_repayment_missing.
Qed.

(** Deleting rows keeps the ids of the rows that stay distinct. *)
Lemma delete_keeps_distinct_ids (keep : transaction -> bool)
      (rows : list transaction) :
  NoDup (map t_id rows) -> NoDup (map t_id (filter keep rows)).
Proof.
  intros Hnd. induction rows as [|t rows IH]; simpl; [constructor |].
  simpl in Hnd. apply NoDup_cons_iff in Hnd. destruct Hnd as [Hnot Hnd].
  destruct (keep t); simpl; [| now apply IH].
  apply NoDup_cons_iff. split; [| now apply IH].
  intros Hin. apply Hnot. apply in_map_iff in Hin.
  destruct Hin as (t' & Hid & Hin). apply filter_In in Hin.
  apply in_map_iff. exists t'. tauto.
Qed.

Lemma Forall_filter {A} (P : A -> Prop) (p : A -> bool) (l : list A) :
  Forall P l -> Forall P (filter p l).
Proof.
  rewrite !Forall_forall. intros H x Hin. apply filter_In in Hin. apply H, Hin.
Qed.

Lemma perform_ledger_ok (db : DB) (a : action) :
  ledger_ok db -> ledger_ok (perform db a).
Proof.
  intros (H1 & H2 & H3). destruct a.
  - destruct (add_transaction_cases db type_var cat_var amount_var date_cal
                                    desc_var)
      as [->|(amount & _ & Hpos & ->)]; [now repeat split |].
    unfold ledger_ok; simpl. repeat split.
    + rewrite map_app. apply NoDup_app; [exact H1 | repeat constructor; easy |].
      intros id Hin [<-|[]]. apply in_map_iff in Hin.
      destruct Hin as (t & Hid & Hin).
      rewrite Forall_forall in H2. specialize (H2 t Hin).
      simpl in H2, Hid. lia.
    + apply Forall_app. split.
      * eapply Forall_impl; [| exact H2]. simpl. intros; lia.
      * repeat constructor. simpl. lia.
    + apply Forall_app. split; [exact H3 |]. repeat constructor. exact Hpos.
  - unfold ledger_ok; simpl. repeat split.
    + now apply delete_keeps_distinct_ids.
    + now apply Forall_filter.
    + now apply Forall_filter.
  - destruct (add_debt_cases db type_var name_var phone_var amount_var
                             rate_var start_cal due_cal desc_text)
      as [->|(amount & rate & _ & _ & [->|(_ & _ & ->)])];
      now repeat split.
  - now repeat split.
  - destruct (repay_cases db debt_id amount_var date_cal)
      as [->|(person & total & paid & amount & _ & _ & _ & ->)];
      now repeat split.
Qed.

Lemma perform_debts_ok (db : DB) (a : action) :
  debts_ok db -> debts_ok (perform db a).
Proof.
  unfold debts_ok. intros H. destruct a.
  - destruct (add_transaction_cases db type_var cat_var amount_var date_cal
                                    desc_var)
      as [->|(amount & _ & _ & ->)]; exact H.
  - exact H.
  - destruct (add_debt_cases db type_var name_var phone_var amount_var
                             rate_var start_cal due_cal desc_text)
      as [->|(amount & rate & _ & _ & [->|(_ & _ & ->)])];
      [exact H | |]; simpl; apply Forall_app; (split; [exact H |]);
      repeat constructor; simpl; auto; try discriminate; lia.
  - exact H.
  - destruct (repay_cases db debt_id amount_var date_cal)
      as [->|(person & total & paid & amount & Hsel & _ & Hamt & ->)];
      [exact H |].
    simpl. rewrite Forall_map. rewrite Forall_forall in *.
    intros d Hin. pose proof (H d Hin) as (Hst & Hdue & Hpaid).
    destruct (d_id d =? debt_id); simpl; [| auto].
    destruct (select_debt_In _ _ _ _ _ Hsel) as (d0 & Hin0 & _ & _ & _ & Hp0).
    destruct (H d0 Hin0) as (_ & _ & Hpaid0).
    repeat split; auto; [| lia].
    destruct (paid + amount >=? total); auto.
Qed.

Lemma run_ledger_ok (actions : list action) : ledger_ok (run actions).
Proof.
  unfold run.
  assert (H : ledger_ok empty_db)
    by (unfold ledger_ok; simpl; repeat split; constructor).
  revert H. generalize empty_db.
  induction actions as [|a actions IH]; simpl; intros db H;
    [exact H | apply IH, perform_ledger_ok, H].
Qed.

Lemma run_debts_ok (actions : list action) : debts_ok (run actions).
Proof.
  unfold run.
  assert (H : debts_ok empty_db) by constructor.
  revert H. generalize empty_db.
  induction actions as [|a actions IH]; simpl; intros db H;
    [exact H | apply IH, perform_debts_ok, H].
Qed.

(* ===================================================================== *)
(** ** More on deadlines and alerts *)
(* ===================================================================== *)

Lemma text_lt_negb_le (a b : string) :
  Sqlite.text_lt a b = negb (Sqlite.text_le b a).
Proof.
  unfold Sqlite.text_lt, Sqlite.text_le, String.ltb, String.leb.
  rewrite (String.compare_antisym a b).
  destruct (String.compare b a); reflexivity.
Qed.

Lemma deadline_days (today due : string) (d : debt) (jd jt : Z) :
  d_due_date d = Some due ->
  Sqlite.julianday due = Some jd -> Sqlite.julianday today = Some jt ->
  dl_days (deadline_of today d) = jd - jt.
Proof.
  intros Hdue Hjd Hjt. simpl. unfold Sqlite.julianday_diff.
  rewrite Hdue, Hjd, Hjt. apply days_int_Some.
Qed.

Lemma deadline_tag_normal (today : string) (d : debt) :
  dl_tag (deadline_of today d) = normal <-> 7 < dl_days (deadline_of today d).
Proof.
  simpl. set (n := days_int _).
  destruct (Z.leb_spec n 3), (Z.leb_spec n 7); split; intros;
    try discriminate; try reflexivity; lia.
Qed.

(** X2.  When today and the due date are dates of the calendar, a line of
    the deadlines table never shows a negative number of days, and it
    shows 0 days exactly when the debt is due today. *)
Theorem deadline_days_not_negative :
  forall (today : string) (db : DB) (d : debt) (due : string),
    Calendar.is_date today = true ->
    In d (select_deadlines today db) ->
    d_due_date d = Some due -> Calendar.is_date due = true ->
    0 <= dl_days (deadline_of today d)
    /\ (dl_days (deadline_of today d) = 0 <-> due = today).
Proof.
  intros today db d due Ht Hin Hdue Hd.
  apply select_deadlines_In in Hin.
  destruct Hin as (_ & _ & due' & Hdue' & Hle).
  rewrite Hdue in Hdue'. injection Hdue' as <-.
  destruct (calendar_compare today due Ht Hd) as (jt & jd & Jt & Jd & Hcmp).
  rewrite (deadline_days today due d jd jt Hdue Jd Jt).
  unfold Sqlite.text_le, String.leb in Hle. rewrite Hcmp in Hle.
  destruct (Z.compare_spec jt jd) as [E|L|G]; [| | discriminate].
  - split; [lia |]. split; [intros _ | lia].
    symmetry. apply String.compare_eq_iff. exact Hcmp.
  - split; [lia |]. split; [lia |]. intros ->.
    rewrite Jt in Jd. injection Jd as ->. lia.
Qed.

Lemma deadline_days_not_negative_witness :
  0 <= dl_days (deadline_of "2024-03-01"
                  (mk_debt 2 pret "Awa" "" 50 0 0 "2024-01-01"
                           (Some "2024-03-03"%string) actif ""))
  /\ (dl_days (deadline_of "2024-03-01"
                 (mk_debt 2 pret "Awa" "" 50 0 0 "2024-01-01"
                          (Some "2024-03-03"%string) actif "")) = 0
      <-> "2024-03-03"%string = "2024-03-01"%string).
Proof.
  apply (deadline_days_not_negative "2024-03-01" db_three_deadlines
           (mk_debt 2 pret "Awa" "" 50 0 0 "2024-01-01"
                    (Some "2024-03-03"%string) actif "")
           "2024-03-03").
  - reflexivity.
  - simpl. left. reflexivity.
  - reflexivity.
  - reflexivity.
Defined.

Lemma select_upcoming_In (today_str week_later : string) (db : DB) (d : debt) :
  In d (select_upcoming today_str week_later db)
  <-> In d (debts db) /\ d_status d = actif
      /\ exists due, d_due_date d = Some due
                     /\ Sqlite.text_le today_str due = true
                     /\ Sqlite.text_le due week_later = true.
Proof.
  unfold select_upcoming. rewrite order_by_In, filter_In, andb_true_iff.
  split.
  - intros (Hin & Hbt & Hst). split; [exact Hin |]. split.
    + now destruct (d_status d).
    + destruct (d_due_date d) as [due|]; [| discriminate].
      simpl in Hbt. apply andb_true_iff in Hbt. now exists due.
  - intros (Hin & Hst & due & Hdue & Hlo & Hhi). split; [exact Hin |].
    rewrite Hdue, Hst. simpl. now rewrite Hlo, Hhi.
Qed.



(** X4.  When [week_later] is the date 7 days after [today], the debts of
    the list of the dashboard are the debts of the deadlines table whose
    tag is [urgent] or [warning]: the two views agree on what is due
    within a week. *)
Theorem upcoming_are_urgent_or_warning :
  forall (today week_later : string) (jt : Z) (db : DB) (d : debt)
         (due : string),
    Calendar.is_date today = true -> Calendar.is_date week_later = true ->
    Sqlite.julianday today = Some jt ->
    Sqlite.julianday week_later = Some (jt + 7) ->
    d_due_date d = Some due -> Calendar.is_date due = true ->
    (In d (select_upcoming today week_later db)
     <-> In d (select_deadlines today db)
         /\ dl_tag (deadline_of today d) <> normal).
Proof.
  intros today week_later jt db d due Ht Hw Jt Jw Hdue Hd.
  destruct (calendar_compare due week_later Hd Hw)
    as (jd & jw & Jd & Jw' & Hcmp).
  rewrite Jw in Jw'. injection Jw' as <-.
  rewrite select_upcoming_In, select_deadlines_In, deadline_tag_normal.
  rewrite (deadline_days today due d jd jt Hdue Jd Jt).
  assert (Hle : Sqlite.text_le due week_later = true <-> jd - jt <= 7).
  { unfold Sqlite.text_le, String.leb. rewrite Hcmp.
    destruct (Z.compare_spec jd (jt + 7)); split; intros;
      try reflexivity; try discriminate; lia. }
  split.
  - intros (Hin & Hst & due' & Hdue' & Hlo & Hhi).
    rewrite Hdue in Hdue'. injection Hdue' as <-.
    split; [| apply Hle in Hhi; lia].
    split; [exact Hin |]. split; [exact Hst |]. now exists due.
  - intros ((Hin & Hst & due' & Hdue' & Hlo) & Htag).
    rewrite Hdue in Hdue'. injection Hdue' as <-.
    split; [exact Hin |]. split; [exact Hst |]. exists due.
    split; [exact Hdue |]. split; [exact Hlo |]. apply Hle. lia.
Qed.

Lemma upcoming_are_urgent_or_warning_witness :
  In (mk_debt 2 pret "Awa" "" 50 0 0 "2024-01-01"
              (Some "2024-03-03"%string) actif "")
     (select_upcoming "2024-02-26" "2024-03-04" db_three_deadlines)
  <-> In (mk_debt 2 pret "Awa" "" 50 0 0 "2024-01-01"
                  (Some "2024-03-03"%string) actif "")
         (select_deadlines "2024-02-26" db_three_deadlines)
      /\ dl_tag (deadline_of "2024-02-26"
                   (mk_debt 2 pret "Awa" "" 50 0 0 "2024-01-01"
                            (Some "2024-03-03"%string) actif "")) <> normal.
Proof.
  apply (upcoming_are_urgent_or_warning "2024-02-26" "2024-03-04" 2460367
           db_three_deadlines _ "2024-03-03"); reflexivity.
Defined.

Lemma where_lt_negb_ge (due : option string) (today : string) :
  due <> None ->
  Sqlite.where_lt due today = negb (Sqlite.where_ge due today).
Proof.
  destruct due as [s|]; [| congruence]. intros _. simpl.
  apply text_lt_negb_le.
Qed.

Lemma count_actif_split (today : string) (l : list debt) :
  Forall (fun d => d_due_date d <> None) l ->
  Sqlite.COUNT (filter (fun d => debt_status_eqb (d_status d) actif) l)
  = Sqlite.COUNT (filter (fun d => Sqlite.where_ge (d_due_date d) today
                                   && debt_status_eqb (d_status d) actif) l)
    + Sqlite.COUNT (filter (fun d => Sqlite.where_lt (d_due_date d) today
                                     && debt_status_eqb (d_status d) actif) l).
Proof.
  unfold Sqlite.COUNT. intros H. rewrite <- Nat2Z.inj_add. f_equal.
  induction H as [|d l Hd _ IH]; [reflexivity |].
  cbn [filter]. rewrite (where_lt_negb_ge _ today Hd).
  destruct (debt_status_eqb (d_status d) actif),
           (Sqlite.where_ge (d_due_date d) today);
    cbn [andb negb List.length]; lia.
Qed.

(** X5.  After any session, on any day, a debt that is 'actif' is either
    in the deadlines table or counted by the alert on late debts, never
    both and never neither: the number of 'actif' debts is the number of
    lines of the deadlines table plus the number of late debts. *)
Theorem deadline_or_late :
  forall (actions : list action) (today : string),
    let db := run actions in
    (forall d, In d (debts db) -> d_status d = actif ->
               (In d (select_deadlines today db)
                <-> Sqlite.where_lt (d_due_date d) today = false))
    /\ Sqlite.COUNT (filter (fun d => debt_status_eqb (d_status d) actif)
                            (debts db))
       = Sqlite.COUNT (select_deadlines today db)
         + select_late_debts today db.
Proof.
  intros actions today db.
  pose proof (run_debts_ok actions) as Hok. fold db in Hok.
  unfold debts_ok in Hok. split.
  - intros d Hin Hst. rewrite Forall_forall in Hok.
    destruct (Hok d Hin) as (_ & Hdue & _).
    rewrite (where_lt_negb_ge _ today Hdue), negb_false_iff.
    unfold select_deadlines. rewrite order_by_In, filter_In, andb_true_iff.
    rewrite Hst. simpl. tauto.
  - unfold select_late_debts, select_deadlines.
    replace (Sqlite.COUNT (Sqlite.order_by d_due_date _))
      with (Sqlite.COUNT
              (filter (fun d => Sqlite.where_ge (d_due_date d) today
                                && debt_status_eqb (d_status d) actif)
                      (debts db))).
    + apply count_actif_split. eapply Forall_impl; [| exact Hok].
      simpl. tauto.
    + unfold Sqlite.COUNT. f_equal. apply Permutation_length, order_by_perm.
Qed.

Lemma deadline_or_late_witness :
  (In (mk_debt 3 dette "Lea" "" 70 0 0 "2024-01-01"
               (Some "2024-02-29"%string) actif "")
      (select_deadlines "2024-03-01" db_three_deadlines)
   <-> Sqlite.where_lt (Some "2024-02-29"%string) "2024-03-01" = false)
  /\ 3 = Sqlite.COUNT (select_deadlines "2024-03-01" db_three_deadlines)
         + select_late_debts "2024-03-01" db_three_deadlines.
Proof.
  destruct (deadline_or_late
              [AddDebt dette "Paul" "" (Some 100) (Some 0)
                       "2024-01-01" "2024-03-11" "";
               AddDebt pret "Awa" "" (Some 50) (Some 0)
                       "2024-01-01" "2024-03-03" "";
               AddDebt dette "Lea" "" (Some 70) (Some 0)
                       "2024-01-01" "2024-02-29" ""]
              "2024-03-01") as [Hone Hcount].
  split.
  - apply (Hone (mk_debt 3 dette "Lea" "" 70 0 0 "2024-01-01"
                         (Some "2024-02-29"%string) actif "")).
    + simpl. right. right. left. reflexivity.
    + reflexivity.
  - exact Hcount.
Defined.

(* ===================================================================== *)
(** ** The ledger of transactions *)
(* ===================================================================== *)

Lemma select_balance_sum (db : DB) :
  select_balance db = fold_right Z.add 0 (map cash_effect (transactions db)).
Proof. unfold select_balance. now rewrite COALESCE_SUM. Qed.




Lemma total_of_nonneg (ty : trans_type) (db : DB) :
  Forall (fun t => 0 < t_amount t) (transactions db) -> 0 <= total_of ty db.
Proof.
  unfold total_of. induction 1 as [|t l Ht _ IH]; simpl; [lia |].
  destruct (trans_type_eqb (t_type t) ty); simpl; lia.
Qed.

(** X9.  After any session, the rows of the table of transactions have
    pairwise distinct ids and positive amounts, so that the sign of a cash
    effect is never in the amount; the balance lies between minus the sum
    of the expenses and the sum of the incomes. *)
Theorem ledger_invariant :
  forall (actions : list action),
    let db := run actions in
    NoDup (map t_id (transactions db))
    /\ (forall t, In t (transactions db) -> 0 < t_amount t)
    /\ - total_of depense db <= select_balance db <= total_of revenu db.
Proof.
  intros actions db.
  destruct (run_ledger_ok actions) as (H1 & _ & H3). fold db in H1, H3.
  split; [exact H1 |]. split; [now apply Forall_forall |].
  rewrite select_balance_totals.
  pose proof (total_of_nonneg revenu db H3).
  pose proof (total_of_nonneg depense db H3). lia.
Qed.

Lemma ledger_invariant_witness :
  0 < t_amount (mk_transaction 1 revenu "Salaire" 1000 "" "2024-01-05").
Proof.
  apply (proj1 (proj2 (ledger_invariant
                         [AddTransaction revenu "Salaire" (Some 1000)
                                         "2024-01-05" "";
                          AddTransaction depense "Loisirs" (Some (-5))
                                         "2024-01-07" ""]))).
  simpl. left. reflexivity.
Defined.

Lemma filter_all {A} (p : A -> bool) (l : list A) :
  (forall x, In x l -> p x = true) -> filter p l = l.
Proof.
  induction l as [|x l IH]; simpl; [reflexivity |].
  intros H. rewrite (H x (or_introl eq_refl)). f_equal.
  apply IH. intros y Hy. apply H. now right.
Qed.

(** X10.  Deleting an id that no transaction has is silent: no error is
    raised and the file is left as it was. *)
Theorem delete_unknown_transaction :
  forall (db : DB) (trans_id : Z),
    (forall t, In t (transactions db) -> t_id t <> trans_id) ->
    on_transaction_click trans_id db = (inr tt, db).
Proof.
  intros db trans_id H.
  unfold on_transaction_click, bind, execute, commit, ret, delete_transaction.
  rewrite filter_all.
  - now destruct db.
  - intros t Hin. apply negb_true_iff, Z.eqb_neq. now apply H.
Qed.

Lemma delete_unknown_transaction_witness :
  on_transaction_click 7
    (run [AddTransaction revenu "Salaire" (Some 1000) "2024-01-05" ""])
  = (inr tt, run [AddTransaction revenu "Salaire" (Some 1000) "2024-01-05" ""]).
Proof.
  apply delete_unknown_transaction.
  simpl. intros t [<-|[]]. simpl. lia.
Defined.

Lemma delete_transaction_split (l1 l2 : list transaction) (t : transaction) :
  NoDup (map t_id (l1 ++ t :: l2)) ->
  filter (fun x => negb (t_id x =? t_id t)) (l1 ++ t :: l2) = l1 ++ l2.
Proof.
  intros Hnd. rewrite map_app in Hnd. simpl in Hnd.
  apply NoDup_remove_2 in Hnd.
  rewrite filter_app. simpl. rewrite Z.eqb_refl. simpl.
  rewrite !filter_all; [reflexivity | |];
    intros x Hx; apply negb_true_iff, Z.eqb_neq; intros Heq; apply Hnd;
    rewrite <- Heq; apply in_or_app; [right | left]; now apply in_map.
Qed.

(** X11.  After any session, deleting a transaction of the table removes
    that row and no other and keeps the order of the rest; the other
    tables are not written, and the counter of the table stays where it
    was, so that the id of the row is not given again. *)
Theorem delete_transaction_effect :
  forall (actions : list action) (t : transaction),
    let db := run actions in
    In t (transactions db) ->
    let db' := perform db (DeleteTransaction (t_id t)) in
    (exists l1 l2,
        transactions db = l1 ++ t :: l2
        /\ transactions db' = l1 ++ l2)
    /\ (forall t', In t' (transactions db') -> t_id t' <> t_id t)
    /\ debts db' = debts db /\ repayments db' = repayments db
    /\ contacts db' = contacts db
    /\ seq_transactions db' = seq_transactions db.
Proof.
  intros actions t db Hin db'.
  destruct (in_split _ _ Hin) as (l1 & l2 & Hsplit).
  destruct (run_ledger_ok actions) as (Hnd & _ & _). fold db in Hnd.
  split; [| split; [| now repeat split]].
  - exists l1, l2. split; [exact Hsplit |].
    subst db'. simpl. rewrite Hsplit. apply delete_transaction_split.
    now rewrite <- Hsplit.
  - subst db'. simpl. intros t' Hin' Heq. apply filter_In in Hin'.
    destruct Hin' as [_ Hne]. rewrite Heq, Z.eqb_refl in Hne. discriminate.
Qed.

Lemma delete_transaction_effect_witness :
  exists l1 l2,
    transactions
      (run [AddTransaction revenu "Salaire" (Some 1000) "2024-01-05" "";
            AddTransaction depense "Logement" (Some 400) "2024-01-06" ""])
    = l1 ++ mk_transaction 2 depense "Logement" 400 "" "2024-01-06" :: l2
    /\ transactions
         (perform
            (run [AddTransaction revenu "Salaire" (Some 1000) "2024-01-05" "";
                  AddTransaction depense "Logement" (Some 400) "2024-01-06" ""])
            (DeleteTransaction 2))
       = l1 ++ l2.
Proof.
  apply (delete_transaction_effect
           [AddTransaction revenu "Salaire" (Some 1000) "2024-01-05" "";
            AddTransaction depense "Logement" (Some 400) "2024-01-06" ""]
           (mk_transaction 2 depense "Logement" 400 "" "2024-01-06")).
  simpl. right. left. reflexivity.
Defined.

(** X12.  After any session, recording a transaction and then deleting it
    gives back the table of transactions and the balance of before; only
    the counter of ids has moved, so the id is not given again. *)
Theorem add_then_delete_transaction :
  forall (actions : list action) ty cat amount date desc,
    0 < amount ->
    let db := run actions in
    let db' :=
      perform (perform db (AddTransaction ty cat (Some amount) date desc))
              (DeleteTransaction (seq_transactions db + 1)) in
    transactions db' = transactions db
    /\ select_balance db' = select_balance db
    /\ seq_transactions db' = seq_transactions db + 1.
Proof.
  intros actions ty cat amount date desc Hpos db db'.
  assert (Hadd : perform db (AddTransaction ty cat (Some amount) date desc)
                 = insert_transaction ty cat amount desc date db).
  { simpl. unfold add_transaction_dialog_save, try_except_ValueError, bind,
      float, ret, raise, execute, commit.
    destruct (Z.leb_spec amount 0); [lia | reflexivity]. }
  assert (Htrans : transactions db' = transactions db).
  { subst db'. rewrite Hadd. simpl. rewrite filter_app. simpl.
    rewrite Z.eqb_refl. simpl. rewrite app_nil_r. apply filter_all.
    intros t Hin. apply negb_true_iff, Z.eqb_neq.
    destruct (run_ledger_ok actions) as (_ & H2 & _). fold db in H2.
    rewrite Forall_forall in H2. specialize (H2 t Hin). simpl in H2. lia. }
  split; [exact Htrans |]. split.
  - now rewrite !select_balance_sum, Htrans.
  - subst db'. now rewrite Hadd.
Qed.

Lemma add_then_delete_transaction_witness :
  transactions
    (perform
       (perform
          (run [AddTransaction revenu "Salaire" (Some 1000) "2024-01-05" ""])
          (AddTransaction depense "Logement" (Some 400) "2024-01-06" ""))
       (DeleteTransaction
          (seq_transactions
             (run [AddTransaction revenu "Salaire" (Some 1000)
                                  "2024-01-05" ""]) + 1)))
  = [mk_transaction 1 revenu "Salaire" 1000 "" "2024-01-05"].
Proof.
  apply (add_then_delete_transaction
           [AddTransaction revenu "Salaire" (Some 1000) "2024-01-05" ""]
           depense "Logement" 400 "2024-01-06" "").
  lia.
Defined.

(** X13.  No action writes both ledgers: recording or deleting a
    transaction leaves the tables of debts, repayments and contacts as they
    were, and opening an obligation, adding a contact or making a repayment
    leaves the table of transactions, and so the balance, as they were. *)
Theorem no_action_writes_both_ledgers :
  forall (db : DB) (a : action),
    match a with
    | AddTransaction _ _ _ _ _ | DeleteTransaction _ =>
        debts (perform db a) = debts db
        /\ repayments (perform db a) = repayments db
        /\ contacts (perform db a) = contacts db
    | AddDebt _ _ _ _ _ _ _ _ | AddContact _ _ _ _ _ | Repay _ _ _ =>
        transactions (perform db a) = transactions db
        /\ seq_transactions (perform db a) = seq_transactions db
        /\ select_balance (perform db a) = select_balance db
    end.
Proof.
  intros db a. destruct a.
  - destruct (add_transaction_cases db type_var cat_var amount_var date_cal
                                    desc_var)
      as [->|(amount & _ & _ & ->)]; now repeat split.
  - now repeat split.
  - destruct (add_debt_cases db type_var name_var phone_var amount_var
                             rate_var start_cal due_cal desc_text)
      as [->|(amount & rate & _ & _ & [->|(_ & _ & ->)])];
      now repeat split.
  - now repeat split.
  - destruct (repay_cases db debt_id amount_var date_cal)
      as [->|(person & total & paid & amount & _ & _ & _ & ->)];
      now repeat split.
Qed.

(* ===================================================================== *)
(** ** More on obligations *)
(* ===================================================================== *)

(** X14.  After any session, no debt has the status 'en_retard': a late
    debt is never marked in the file, it is only counted when the alerts
    are drawn.  Every debt has a due date that is not NULL, and an amount
    paid that is not negative. *)
Theorem status_never_en_retard :
  forall (actions : list action) (d : debt),
    In d (debts (run actions)) ->
    d_status d <> en_retard
    /\ d_due_date d <> None
    /\ 0 <= d_amount_paid d.
Proof.
  intros actions d Hin.
  pose proof (run_debts_ok actions) as Hok. unfold debts_ok in Hok.
  rewrite Forall_forall in Hok. destruct (Hok d Hin) as ([H|H] & Hdue & Hp);
    repeat split; auto; rewrite H; discriminate.
Qed.

Lemma status_never_en_retard_witness :
  actif <> en_retard
  /\ Some "2024-02-29"%string <> None
  /\ 0 <= 0.
Proof.
  apply (status_never_en_retard
           [AddDebt dette "Paul" "" (Some 100) (Some 0)
                    "2024-01-01" "2024-03-11" "";
            AddDebt pret "Awa" "" (Some 50) (Some 0)
                    "2024-01-01" "2024-03-03" "";
            AddDebt dette "Lea" "" (Some 70) (Some 0)
                    "2024-01-01" "2024-02-29" ""]
           (mk_debt 3 dette "Lea" "" 70 0 0 "2024-01-01"
                    (Some "2024-02-29"%string) actif "")).
  simpl. right. right. left. reflexivity.
Defined.

Lemma length_order_by {A} (key : A -> option string) (l : list A) :
  List.length (Sqlite.order_by key l) = List.length l.
Proof. symmetry. apply Permutation_length, order_by_perm. Qed.

(** X15.  Whatever the file holds, the number of active debts of the
    dashboard is the number of lines of the two listings together, the
    debts and the loans; the three views write nothing. *)
Theorem active_count_matches_listings :
  forall (db : DB),
    exists st lines_dette lines_pret,
      calculate_stats db = (inr st, db)
      /\ load_debts_data dette db = (inr lines_dette, db)
      /\ load_debts_data pret db = (inr lines_pret, db)
      /\ active_debts st
         = Z.of_nat (List.length lines_dette + List.length lines_pret).
Proof.
  intros db. do 3 eexists.
  split; [reflexivity |]. split; [reflexivity |]. split; [reflexivity |].
  simpl. rewrite or_0_id. unfold select_active_debts, Sqlite.COUNT.
  rewrite !length_map, !length_order_by. f_equal.
  induction (debts db) as [|d l IH]; [reflexivity |].
  cbn [filter]. destruct (d_type d), (d_status d);
    cbn [debt_type_eqb debt_status_eqb andb orb negb List.length]; lia.
Qed.

Lemma select_contact_found (phone : string) (db : DB) :
  (exists c, In c (contacts db) /\ c_phone c = Some phone)
  <-> select_contact_by_phone phone db <> None.
Proof.
  unfold select_contact_by_phone.
  induction (contacts db) as [|c l IH]; simpl.
  - split; [intros (c & [] & _) | congruence].
  - destruct (c_phone c) as [p|] eqn:Hp.
    + destruct (String.eqb_spec p phone) as [->|Hne].
      * split; [discriminate |]. intros _. exists c. auto.
      * rewrite <- IH. split.
        -- intros (c' & [<-|Hin] & Hc'); [congruence | eauto].
        -- intros (c' & Hin & Hc'). eauto.
    + rewrite <- IH. split.
      * intros (c' & [<-|Hin] & Hc'); [congruence | eauto].
      * intros (c' & Hin & Hc'). eauto.
Qed.

(** X16.  Opening an obligation with an empty phone, or with the phone of
    a contact that exists, adds the obligation and leaves the contacts as
    they were. *)
Theorem known_phone_adds_no_contact :
  forall (db : DB) ty name phone amount rate start due desc,
    phone = ""%string
    \/ (exists c, In c (contacts db) /\ c_phone c = Some phone) ->
    exists db',
      add_debt_dialog_save ty name phone (Some amount) (Some rate)
                           start due desc db
      = (inr (showinfo "Succès" "Enregistrement ajouté avec succès!"), db')
      /\ contacts db' = contacts db
      /\ debts db'
         = debts db
           ++ [mk_debt (seq_debts db + 1) ty name phone amount 0 rate
                       start (Some due) actif desc].
Proof.
  intros db ty name phone amount rate start due desc H.
  eexists. split; [apply add_debt_dialog_saved |]. cbv zeta.
  destruct H as [->|Hc].
  - rewrite andb_false_r. now split.
  - apply (select_contact_found phone
             (insert_debt ty name phone amount rate start (Some due) desc db))
      in Hc.
    destruct (select_contact_by_phone phone _); [| congruence].
    now split.
Qed.

Lemma known_phone_adds_no_contact_witness :
  exists db',
    add_debt_dialog_save pret "Paul" "0700" (Some 20) (Some 0)
                         "2024-01-01" "2024-02-01" "" db_paul_100
    = (inr (showinfo "Succès" "Enregistrement ajouté avec succès!"), db')
    /\ contacts db' = contacts db_paul_100
    /\ debts db'
       = debts db_paul_100
         ++ [mk_debt (seq_debts db_paul_100 + 1) pret "Paul" "0700" 20 0 0
                     "2024-01-01" (Some "2024-02-01"%string) actif ""].
Proof.
  apply (known_phone_adds_no_contact db_paul_100 pret "Paul" "0700" 20 0
           "2024-01-01" "2024-02-01" "").
  right.
  exists (mk_contact 1 "Paul" (Some "0700"%string) None "creancier"
                     "Ajouté via dette").
  split; [simpl; left; reflexivity | reflexivity].
Defined.

Lemma add_debt_then_phone_known (db : DB) ty name phone amount rate start
      due desc :
  phone <> ""%string ->
  select_contact_by_phone phone
    (perform db (AddDebt ty name phone (Some amount) (Some rate)
                         start due desc)) <> None.
Proof.
  intros Hphone. simpl perform. rewrite add_debt_dialog_saved.
  cbv zeta. simpl snd.
  destruct (select_contact_by_phone phone
              (insert_debt ty name phone amount rate start (Some due)
                           desc db)) eqn:Hsel.
  - simpl. rewrite Hsel. discriminate.
  - destruct (String.eqb_spec phone ""); [contradiction |]. simpl.
    apply select_contact_found.
    exists (mk_contact (seq_contacts db + 1) name (Some phone) None
              (if debt_type_eqb ty pret then "debiteur" else "creancier")
              ("Ajouté via " ++ debt_type_text ty)).
    split; [| reflexivity]. simpl. apply in_or_app. right. now left.
Qed.

(** X17.  Two obligations opened one after the other with the same phone
    add at most one contact: whatever the first one did, the second one
    leaves the contacts as the first one left them. *)
Theorem same_phone_one_contact :
  forall (db : DB) phone ty1 name1 amount1 rate1 start1 due1 desc1
         ty2 name2 amount_var2 rate_var2 start2 due2 desc2,
    let db1 :=
      perform db (AddDebt ty1 name1 phone (Some amount1) (Some rate1)
                          start1 due1 desc1) in
    contacts (perform db1 (AddDebt ty2 name2 phone amount_var2 rate_var2
                                   start2 due2 desc2))
    = contacts db1.
Proof.
  intros db phone ty1 name1 amount1 rate1 start1 due1 desc1
         ty2 name2 amount_var2 rate_var2 start2 due2 desc2 db1.
  destruct (add_debt_cases db1 ty2 name2 phone amount_var2 rate_var2
                           start2 due2 desc2)
    as [->|(amount & rate & _ & _ & [->|(Hnone & Hphone & _)])];
    [reflexivity | reflexivity |].
  exfalso.
  apply (add_debt_then_phone_known db ty1 name1 phone amount1 rate1 start1
                                   due1 desc1 Hphone).
  exact Hnone.
Qed.

Example two_debts_one_contact :
  map c_name
      (contacts (run [AddDebt dette "Paul" "0700" (Some 100) (Some 0)
                              "2024-01-01" "2024-02-01" "";
                      AddDebt pret "Paul D." "0700" (Some 20) (Some 0)
                              "2024-01-05" "2024-02-05" ""]))
  = ["Paul"%string].
Proof. reflexivity. Qed.

Lemma select_debt_None (debt_id : Z) (db : DB) :
  (forall d, In d (debts db) -> d_id d <> debt_id) ->
  select_debt debt_id db = None.
Proof.
  intros H. unfold select_debt.
  destruct (filter _ (debts db)) as [|d l] eqn:E; [reflexivity |].
  assert (Hin : In d (filter (fun d => d_id d =? debt_id) (debts db)))
    by (rewrite E; now left).
  apply filter_In in Hin. destruct Hin as [Hin Hid].
  apply Z.eqb_eq in Hid. now apply H in Hin.
Qed.

(** X18.  A repayment on an id that no debt has fails when the dialog
    opens: the row read is [None], its unpacking raises [TypeError], which
    no handler catches, and nothing is written. *)
Theorem repayment_on_missing_debt :
  forall (db : DB) (debt_id : Z) amount_var date_cal,
    (forall d, In d (debts db) -> d_id d <> debt_id) ->
    show_repayment_dialog debt_id db
    = (inl (TypeError "cannot unpack non-iterable NoneType object"), db)
    /\ apply_repayment debt_id amount_var date_cal db
       = (inl (TypeError "cannot unpack non-iterable NoneType object"), db).
Proof.
  intros db debt_id amount_var date_cal H.
  apply select_debt_None in H. split.
  - unfold show_repayment_dialog, bind, fetch. now rewrite H.
  - now apply apply_repayment_missing.
Qed.

Lemma repayment_on_missing_debt_witness :
  apply_repayment 9 (Some 10) "2024-01-15" db_paul_100
  = (inl (TypeError "cannot unpack non-iterable NoneType object"),
     db_paul_100).
Proof.
  apply (repayment_on_missing_debt db_paul_100 9 (Some 10) "2024-01-15").
  simpl. intros d [<-|[]]. simpl. lia.
Defined.


Example settled_debt_not_listed :
  fst (load_debts_data dette
         (perform db_paul_100 (Repay 1 (Some 100) "2024-01-15")))
  = inr [].
Proof. reflexivity. Qed.



(** X23.  The table of contacts shows every contact once, in ascending
    order of name, the names compared byte by byte; it writes nothing. *)
Theorem contacts_listing :
  forall (db : DB),
    exists rows,
      load_contacts db = (inr rows, db)
      /\ Permutation rows (contacts db)
      /\ StronglySorted
           (fun a b => Sqlite.text_le (c_name a) (c_name b) = true) rows.
Proof.
  intros db. eexists. split; [reflexivity |]. split.
  - apply Permutation_sym, order_by_perm.
  - apply (order_by_strongly_sorted (fun c => Some (c_name c))).
Qed.

Example contacts_by_name :
  map c_name
      (Sqlite.order_by (fun c => Some (c_name c))
         (contacts (run [AddContact "Paul" "0700" "" "autre" "";
                         AddContact "Awa" "0600" "" "autre" "";
                         AddContact "awa" "0601" "" "autre" ""])))
  = ["Awa"; "Paul"; "awa"]%string.
Proof. reflexivity. Qed.

(* ===================================================================== *)
(** ** The sheet front-end *)
(* ===================================================================== *)

Lemma prefix_append (needle text : string) :
  String.prefix needle text = true
  <-> exists post, text = (needle ++ post)%string.
Proof.
  revert text. induction needle as [|c needle IH]; intros text; simpl.
  - split; [intros _; now exists text | intros _; now destruct text].
  - destruct text as [|c' text]; simpl.
    + split; [discriminate | intros (post & H); discriminate H].
    + destruct (Ascii.ascii_dec c c') as [->|Hne].
      * rewrite IH. split; intros (post & H); exists post.
        -- now rewrite H.
        -- now injection H.
      * split; [discriminate |]. intros (post & H). injection H as H1 _.
        congruence.
Qed.

(** X24.  [contains] is Python's [in] on texts: it holds exactly when the
    text is some text, then the needle, then some text.  So a line counts
    as a debt when "Dette" stands anywhere in its type. *)
Theorem contains_is_substring :
  forall (needle text : string),
    App.contains needle text = true
    <-> exists pre post, text = (pre ++ needle ++ post)%string.
Proof.
  intros needle text. induction text as [|c text IH]; cbn [App.contains].
  - rewrite orb_false_r, prefix_append. split.
    + intros (post & H). now exists ""%string, post.
    + intros (pre & post & H). destruct pre as [|c pre]; [| discriminate H].
      now exists post.
  - rewrite orb_true_iff, prefix_append, IH. split.
    + intros [(post & H)|(pre & post & H)].
      * now exists ""%string, post.
      * exists (String c pre), post. simpl. now rewrite H.
    + intros (pre & post & H). destruct pre as [|c' pre].
      * left. now exists post.
      * right. simpl in H. injection H as _ H. now exists pre, post.
Qed.

Lemma contains_is_substring_witness :
  exists pre post, "Avance sur Dette"%string = (pre ++ "Dette" ++ post)%string.
Proof.
  apply (proj1 (contains_is_substring "Dette" "Avance sur Dette")).
  reflexivity.
Defined.

Example impact_of_a_type_with_dette_inside :
  App.impact (App.mk_dette "Paul" "" "Avance sur Dette" 40 "2024-02-01"
                           "En cours") = -40.
Proof. reflexivity. Qed.


Lemma set_statut_length (i : nat) (s : string) (l : list App.dette) :
  List.length (App.set_statut i s l) = List.length l.
Proof.
  revert i. induction l as [|e l IH]; intros [|i]; simpl; auto.
Qed.

Lemma set_statut_other (i j : nat) (s : string) (l : list App.dette) :
  j <> i -> nth_error (App.set_statut i s l) j = nth_error l j.
Proof.
  revert i j. induction l as [|e l IH]; intros [|i] [|j] H; simpl; auto.
  congruence.
Qed.

Lemma set_statut_same (i : nat) (s : string) (l : list App.dette)
      (row : App.dette) :
  nth_error l i = Some row ->
  nth_error (App.set_statut i s l) i
  = Some (App.mk_dette (App.e_contact row) (App.e_telephone row)
                       (App.e_type row) (App.e_montant row)
                       (App.e_echeance row) s).
Proof.
  revert i. induction l as [|e l IH]; intros [|i] H; simpl in *;
    try discriminate.
  - now injection H as ->.
  - now apply IH.
Qed.

(** X25.  The button "Payer" rewrites one cell and appends one line: the
    worksheet "Dettes" keeps its length, every other line is as it was,
    the line paid differs by its status only, and "Flux" keeps its lines
    and gains one at the end. *)
Theorem payer_touches_one_line :
  forall (g : App.sheets) (i : nat) (row : App.dette) (today : string),
    nth_error (App.Dettes g) i = Some row ->
    App.e_statut row = "En cours"%string ->
    let g' := App.payer i today g in
    List.length (App.Dettes g') = List.length (App.Dettes g)
    /\ (forall j, j <> i ->
                  nth_error (App.Dettes g') j = nth_error (App.Dettes g) j)
    /\ nth_error (App.Dettes g') i
       = Some (App.mk_dette (App.e_contact row) (App.e_telephone row)
                            (App.e_type row) (App.e_montant row)
                            (App.e_echeance row) "✅ Payé")
    /\ List.length (App.Flux g') = S (List.length (App.Flux g))
    /\ (forall j, (j < List.length (App.Flux g))%nat ->
                  nth_error (App.Flux g') j = nth_error (App.Flux g) j).
Proof.
  intros g i row today Hrow Hst g'. subst g'.
  unfold App.payer, App.payer_updates. rewrite Hrow, Hst. simpl.
  split; [apply set_statut_length |].
  split; [intros j Hj; now apply set_statut_other |].
  split; [now apply set_statut_same |].
  split.
  - rewrite length_app. simpl. lia.
  - intros j Hj. now apply nth_error_app1.
Qed.

Lemma payer_touches_one_line_witness :
  nth_error (App.Dettes (App.payer 0 "2024-01-15" sheets_paul_100)) 0
  = Some (App.mk_dette "Paul" "0700" "Dette (Je dois)" 100 "2024-02-01"
                       "✅ Payé").
Proof.
  apply (payer_touches_one_line sheets_paul_100 0
           (App.mk_dette "Paul" "0700" "Dette (Je dois)" 100 "2024-02-01"
                         "En cours")
           "2024-01-15"); reflexivity.
Defined.

(** X26.  A line is paid once: on a line that is not "En cours", and on an
    index that is not in the worksheet, the handler updates nothing; so
    after "Payer" on a line, "Payer" on the same line changes nothing. *)
Theorem payer_only_once :
  (forall (g : App.sheets) (i : nat) (today : string),
      (forall row, nth_error (App.Dettes g) i = Some row ->
                   App.e_statut row <> "En cours"%string) ->
      App.payer_updates i today g = [] /\ App.payer i today g = g)
  /\ (forall (g : App.sheets) (i : nat) (today again : string),
         App.payer i again (App.payer i today g) = App.payer i today g).
Proof.
  assert (Hidle : forall (g : App.sheets) (i : nat) (today : string),
             (forall row, nth_error (App.Dettes g) i = Some row ->
                          App.e_statut row <> "En cours"%string) ->
             App.payer_updates i today g = [] /\ App.payer i today g = g).
  { intros g i today H. unfold App.payer, App.payer_updates.
    destruct (nth_error (App.Dettes g) i) as [row|] eqn:Hrow; [| now split].
    destruct (String.eqb_spec (App.e_statut row) "En cours") as [E|_];
      [| now split].
    exfalso. now apply (H row). }
  split; [exact Hidle |].
  intros g i today again.
  destruct (nth_error (App.Dettes g) i) as [row|] eqn:Hrow.
  - destruct (String.eqb_spec (App.e_statut row) "En cours") as [E|Hne].
    + apply Hidle. intros row' Hrow'.
      unfold App.payer, App.payer_updates in Hrow'.
      rewrite Hrow, E in Hrow'. simpl in Hrow'.
      rewrite (set_statut_same i _ _ row Hrow) in Hrow'.
      injection Hrow' as <-. simpl. discriminate.
    + assert (Hsame : App.payer i today g = g)
        by (apply Hidle; intros row' Hrow'; congruence).
      rewrite Hsame. apply Hidle. intros row' Hrow'. congruence.
  - assert (Hsame : App.payer i today g = g)
      by (apply Hidle; intros row' Hrow'; congruence).
    rewrite Hsame. apply Hidle. intros row' Hrow'. congruence.
Qed.

Lemma payer_only_once_witness :
  App.payer_updates 3 "2024-01-15" sheets_paul_100 = []
  /\ App.payer 3 "2024-01-15" sheets_paul_100 = sheets_paul_100.
Proof.
  apply (proj1 payer_only_once sheets_paul_100 3%nat "2024-01-15"%string).
  intros row H. discriminate H.
Defined.








(** X29.  The recent history of the dashboard is the end of "Flux": the
    last ten lines in their order, all of them when there are fewer; so a
    line that was just appended is always its last line. *)
Theorem recent_history_is_the_end :
  forall (df_flux : list App.flux),
    (exists older, df_flux = older ++ App.historique_recent df_flux)
    /\ List.length (App.historique_recent df_flux)
       = Nat.min 10 (List.length df_flux)
    /\ (forall f d, last (App.historique_recent (df_flux ++ [f])) d = f).
Proof.
  intros df_flux. unfold App.historique_recent. split; [| split].
  - exists (firstn (List.length df_flux - 10) df_flux).
    symmetry. apply firstn_skipn.
  - rewrite length_skipn. lia.
  - intros f d. rewrite length_app. simpl.
    rewrite skipn_app.
    replace (List.length df_flux + 1 - 10 - List.length df_flux)%nat
      with 0%nat by lia.
    simpl. apply last_last.
Qed.

(* ===================================================================== *)
(** ** Julian days and the days of the calendar *)
(* ===================================================================== *)







Example march_31_to_april_2 :
  map dl_days
      (match fst (load_all_deadlines "2024-03-31"
                    (run [AddDebt dette "Paul" "" (Some 100) (Some 0)
                                  "2024-01-01" "2024-04-02" ""])) with
       | inr lines => lines
       | inl _ => []
       end)
  = [2].
Proof. reflexivity. Qed.

(* ===================================================================== *)
(** ** The alert on late debts *)
(* ===================================================================== *)






(* ===================================================================== *)
(** ** Facts on binary64 comparisons *)
(* ===================================================================== *)

(** The comparisons of the primitive floats are those of the IEEE 754
    specification [SpecFloat]; the facts below are read on it, case by case
    on the two operands. *)
Ltac float_cases :=
  unfold PrimFloat.is_nan;
  rewrite ?leb_spec, ?ltb_spec, ?eqb_spec;
  change (Prim2SF 0) with (S754_zero false);
  repeat match goal with
         | |- context [Prim2SF ?x] =>
             let s := fresh "s" in
             destruct (Prim2SF x) as [s|s| |s ? ?]; try destruct s
         end;
  unfold SFleb, SFltb, SFeqb; cbn [SFcompare];
  rewrite ?Z.compare_refl, ?Pos.compare_cont_refl; cbn [CompOpp negb orb];
  try discriminate; try reflexivity.

(** A number is at most 0 or above 0; so is it with what compares equal to
    0 in the place of 0. *)
Lemma float_leb_or_ltb (x r : PrimFloat.float) :
  (r =? 0)%float = true -> PrimFloat.is_nan x = false ->
  ((x <=? 0) || (r <? x))%float = true.
Proof. float_cases. Qed.

(** NaN compares false. *)
Lemma float_nan_leb (x y : PrimFloat.float) :
  PrimFloat.is_nan x = true -> (x <=? y)%float = false.
Proof. float_cases. Qed.

Lemma float_nan_ltb (x y : PrimFloat.float) :
  PrimFloat.is_nan y = true -> (x <? y)%float = false.
Proof. float_cases. Qed.

Lemma float_leb_not_nan (x y : PrimFloat.float) :
  (x <=? y)%float = true -> PrimFloat.is_nan y = false.
Proof. float_cases. Qed.

Lemma float_ltb_not_leb (x : PrimFloat.float) :
  (0 <? x)%float = true -> (x <=? 0)%float = false.
Proof. float_cases. Qed.

Lemma float_not_leb_not_zero (x : PrimFloat.float) :
  (x <=? 0)%float = false -> (x =? 0)%float = false.
Proof. float_cases. Qed.

Lemma float_leb_zero (x y : PrimFloat.float) :
  (y =? 0)%float = true -> (x <=? y)%float = (x <=? 0)%float.
Proof. float_cases. Qed.

(** A positive amount is stored as it is. *)
Lemma REAL_positive (x : PrimFloat.float) :
  (x <=? 0)%float = false -> PrimFloat.is_nan x = false ->
  Sqlite.REAL x = Some x.
Proof.
  intros Hpos Hnan. unfold Sqlite.REAL.
  now rewrite Hnan, (float_not_leb_not_zero x Hpos).
Qed.

Lemma REAL_nan (x : PrimFloat.float) :
  PrimFloat.is_nan x = true -> Sqlite.REAL x = None.
Proof. intros H. unfold Sqlite.REAL. now rewrite H. Qed.

(** What is stored compares to a number as what was bound does. *)
Lemma REAL_leb (x y p : PrimFloat.float) :
  Sqlite.REAL y = Some p -> (x <=? p)%float = (x <=? y)%float.
Proof.
  unfold Sqlite.REAL. destruct (PrimFloat.is_nan y); [discriminate |].
  destruct (y =? 0)%float eqn:E; intros H; injection H as <-;
    [| reflexivity].
  symmetry. now apply float_leb_zero.
Qed.

(* ===================================================================== *)
(** ** Facts on the handlers in binary64 *)
(* ===================================================================== *)

Lemma select_debt64_In (debt_id : Z) (db : Kamela64.DB) person total paid :
  Kamela64.select_debt debt_id db = Some (person, total, paid) ->
  exists d, In d (Kamela64.debts db) /\ Kamela64.d_id d = debt_id
            /\ Kamela64.d_person_name d = person
            /\ Kamela64.d_amount d = total
            /\ Kamela64.d_amount_paid d = paid.
Proof.
  unfold Kamela64.select_debt.
  destruct (filter _ (Kamela64.debts db)) as [|d l] eqn:E; [discriminate |].
  intros H. injection H as <- <- <-.
  assert (Hin : In d (filter (fun d => Kamela64.d_id d =? debt_id)
                             (Kamela64.debts db)))
    by (rewrite E; now left).
  apply filter_In in Hin. destruct Hin as [Hin Hid].
  exists d. apply Z.eqb_eq in Hid. auto.
Qed.

Lemma select_debt64_update (debt_id : Z) new_paid st (l : list Kamela64.debt)
      (db : Kamela64.DB) person total paid :
  Kamela64.select_debt debt_id db = Some (person, total, paid) ->
  filter (fun d => Kamela64.d_id d =? debt_id)
         (map (fun d => if Kamela64.d_id d =? debt_id
                        then Kamela64.set_paid_status new_paid st d else d)
              (Kamela64.debts db))
  = map (Kamela64.set_paid_status new_paid st)
        (filter (fun d => Kamela64.d_id d =? debt_id) (Kamela64.debts db)).
Proof.
  intros _. induction (Kamela64.debts db) as [|d l' IH]; [reflexivity |].
  cbn [map filter].
  destruct (Kamela64.d_id d =? debt_id) eqn:E; cbn [Kamela64.set_paid_status
                                                     Kamela64.d_id];
    rewrite E; [cbn [map]; now rewrite IH | exact IH].
Qed.

(** The ways a repayment ends. *)

Lemma apply_repayment64_missing (debt_id : Z) amount_var date_cal
      (db : Kamela64.DB) :
  Kamela64.select_debt debt_id db = None ->
  Kamela64.apply_repayment debt_id amount_var date_cal db
  = (inl (Kamela64.TypeError "cannot unpack non-iterable NoneType object"), db).
Proof.
  intros H. unfold Kamela64.apply_repayment, Kamela64.show_repayment_dialog,
    Kamela64.bind, Kamela64.fetch.
  now rewrite H.
Qed.

Lemma apply_repayment64_null (debt_id : Z) amount_var date_cal
      (db : Kamela64.DB) person total :
  Kamela64.select_debt debt_id db = Some (person, total, None) ->
  Kamela64.apply_repayment debt_id amount_var date_cal db
  = (inl (Kamela64.TypeError
            "unsupported operand type(s) for -: 'float' and 'NoneType'"), db).
Proof.
  intros H. unfold Kamela64.apply_repayment, Kamela64.show_repayment_dialog,
    Kamela64.bind, Kamela64.fetch.
  now rewrite H.
Qed.

Lemma apply_repayment64_opened (debt_id : Z) amount_var date_cal
      (db : Kamela64.DB) person total paid :
  Kamela64.select_debt debt_id db = Some (person, total, Some paid) ->
  Kamela64.apply_repayment debt_id amount_var date_cal db
  = Kamela64.show_repayment_dialog_save debt_id total paid (total - paid)
      amount_var date_cal db.
Proof.
  intros H. unfold Kamela64.apply_repayment, Kamela64.show_repayment_dialog,
    Kamela64.bind, Kamela64.fetch.
  now rewrite H.
Qed.

Lemma repayment64_try_refused (debt_id : Z) total paid remaining amount date_cal
      (db : Kamela64.DB) :
  (amount <=? 0)%float = true \/ (remaining <? amount)%float = true ->
  Kamela64.show_repayment_dialog_try debt_id total paid remaining
    (Kamela64.Number amount) date_cal db
  = (inl (Kamela64.ValueError "Montant invalide"), db).
Proof.
  intros Hbad.
  unfold Kamela64.show_repayment_dialog_try, Kamela64.bind, Kamela64.float,
    Kamela64.ret.
  replace ((amount <=? 0)%float || (remaining <? amount)%float) with true;
    [reflexivity |].
  symmetry. apply orb_true_iff. exact Hbad.
Qed.

Lemma apply_repayment64_refused (debt_id : Z) amount date_cal
      (db : Kamela64.DB) person total paid :
  Kamela64.select_debt debt_id db = Some (person, total, Some paid) ->
  (amount <=? 0)%float = true \/ (total - paid <? amount)%float = true ->
  Kamela64.apply_repayment debt_id (Kamela64.Number amount) date_cal db
  = (inr (showerror "Erreur" "Montant invalide"), db).
Proof.
  intros H Hbad. rewrite (apply_repayment64_opened _ _ _ _ _ _ _ H).
  unfold Kamela64.show_repayment_dialog_save, Kamela64.try_except_ValueError.
  now rewrite repayment64_try_refused.
Qed.

Lemma apply_repayment64_not_a_number (debt_id : Z) repr date_cal
      (db : Kamela64.DB) person total paid :
  Kamela64.select_debt debt_id db = Some (person, total, Some paid) ->
  Kamela64.apply_repayment debt_id (Kamela64.NotANumber repr) date_cal db
  = (inr (showerror "Erreur"
            ("could not convert string to float: " ++ repr)), db).
Proof.
  intros H. now rewrite (apply_repayment64_opened _ _ _ _ _ _ _ H).
Qed.

Lemma apply_repayment64_nan (debt_id : Z) amount date_cal
      (db : Kamela64.DB) person total paid :
  Kamela64.select_debt debt_id db = Some (person, total, Some paid) ->
  PrimFloat.is_nan amount = true ->
  Kamela64.apply_repayment debt_id (Kamela64.Number amount) date_cal db
  = (inl (Kamela64.IntegrityError
            "NOT NULL constraint failed: repayments.amount"), db).
Proof.
  intros H Hnan. rewrite (apply_repayment64_opened _ _ _ _ _ _ _ H).
  unfold Kamela64.show_repayment_dialog_save, Kamela64.try_except_ValueError,
    Kamela64.show_repayment_dialog_try, Kamela64.bind, Kamela64.float,
    Kamela64.ret.
  rewrite (float_nan_leb amount 0 Hnan), (float_nan_ltb _ amount Hnan).
  cbn [orb]. unfold Kamela64.execute, Kamela64.insert_repayment.
  now rewrite (REAL_nan amount Hnan).
Qed.

Lemma apply_repayment64_accepted (debt_id : Z) amount date_cal
      (db : Kamela64.DB) person total paid :
  Kamela64.select_debt debt_id db = Some (person, total, Some paid) ->
  (amount <=? 0)%float = false -> (total - paid <? amount)%float = false ->
  PrimFloat.is_nan amount = false ->
  Kamela64.apply_repayment debt_id (Kamela64.Number amount) date_cal db
  = (inr (showinfo "Succès" "Remboursement enregistré!"),
     repaid64 debt_id total paid amount date_cal db).
Proof.
  intros H Hpos Hle Hnan. rewrite (apply_repayment64_opened _ _ _ _ _ _ _ H).
  unfold Kamela64.show_repayment_dialog_save, Kamela64.try_except_ValueError,
    Kamela64.show_repayment_dialog_try, Kamela64.bind, Kamela64.float,
    Kamela64.ret.
  rewrite Hpos, Hle. cbn [orb].
  unfold Kamela64.execute, Kamela64.insert_repayment.
  rewrite (REAL_positive amount Hpos Hnan). reflexivity.
Qed.

Lemma select_debt64_repaid (debt_id : Z) total' paid' amount date_cal
      (db : Kamela64.DB) person total paid :
  Kamela64.select_debt debt_id db = Some (person, total, paid) ->
  Kamela64.select_debt debt_id (repaid64 debt_id total' paid' amount date_cal db)
  = Some (person, total, Sqlite.REAL (paid' + amount)).
Proof.
  intros H. unfold Kamela64.select_debt, repaid64. cbn [Kamela64.debts].
  rewrite (select_debt64_update debt_id _ _ [] db person total paid H).
  unfold Kamela64.select_debt in H.
  destruct (filter _ (Kamela64.debts db)) as [|d l]; [discriminate |].
  injection H as <- <- <-. reflexivity.
Qed.

(** The outcomes of a repayment, over every entry. *)
Lemma repay64_cases (db : Kamela64.DB) debt_id amount_var date :
  (snd (Kamela64.apply_repayment debt_id amount_var date db) = db
   /\ forall title msg,
        fst (Kamela64.apply_repayment debt_id amount_var date db)
        <> inr (showinfo title msg))
  \/ exists person total paid amount,
      Kamela64.select_debt debt_id db = Some (person, total, Some paid)
      /\ amount_var = Kamela64.Number amount
      /\ (amount <=? 0)%float = false
      /\ (total - paid <? amount)%float = false
      /\ PrimFloat.is_nan amount = false
      /\ Kamela64.apply_repayment debt_id amount_var date db
         = (inr (showinfo "Succès" "Remboursement enregistré!"),
            repaid64 debt_id total paid amount date db).
Proof.
  destruct (Kamela64.select_debt debt_id db) as [[[person total] [paid|]]|]
    eqn:Hsel.
  - destruct amount_var as [amount|repr].
    + destruct (amount <=? 0)%float eqn:Hpos.
      { left. rewrite (apply_repayment64_refused _ _ _ _ _ _ _ Hsel
                         (or_introl Hpos)).
        split; [reflexivity | discriminate]. }
      destruct (total - paid <? amount)%float eqn:Hle.
      { left. rewrite (apply_repayment64_refused _ _ _ _ _ _ _ Hsel
                         (or_intror Hle)).
        split; [reflexivity | discriminate]. }
      destruct (PrimFloat.is_nan amount) eqn:Hnan.
      { left. rewrite (apply_repayment64_nan _ _ _ _ _ _ _ Hsel Hnan).
        split; [reflexivity | discriminate]. }
      right. exists person, total, paid, amount.
      repeat (split; [auto; fail |]).
      eapply apply_repayment64_accepted; eassumption.
    + left. rewrite (apply_repayment64_not_a_number _ _ _ _ _ _ _ Hsel).
      split; [reflexivity | discriminate].
  - left. rewrite (apply_repayment64_null _ _ _ _ _ _ Hsel).
    split; [reflexivity | discriminate].
  - left. rewrite (apply_repayment64_missing _ _ _ _ Hsel).
    split; [reflexivity | discriminate].
Qed.

(** Once what remains compares equal to 0, every entry fails and writes
    nothing. *)
Lemma repayment64_nothing_remains (db : Kamela64.DB) (debt_id : Z)
      person total paid :
  Kamela64.select_debt debt_id db = Some (person, total, Some paid) ->
  (total - paid =? 0)%float = true ->
  forall amount_var date_cal,
    (exists msg,
        Kamela64.apply_repayment debt_id amount_var date_cal db
        = (inr (showerror "Erreur" msg), db))
    \/ (exists msg,
           Kamela64.apply_repayment debt_id amount_var date_cal db
           = (inl (Kamela64.IntegrityError msg), db)).
Proof.
  intros Hsel Hzero [amount|repr] date_cal.
  - destruct (PrimFloat.is_nan amount) eqn:Hnan.
    + right. eexists. eapply apply_repayment64_nan; eauto.
    + left. exists "Montant invalide"%string.
      eapply apply_repayment64_refused; [exact Hsel |].
      apply orb_true_iff. now apply float_leb_or_ltb.
  - left. eexists. eapply apply_repayment64_not_a_number; exact Hsel.
Qed.

(** C2, as stated, fails on its last part: the amount paid can end above
    the principal.  On a debt of 0.11 of which 0.04 is paid, what remains
    is computed as 0.11 - 0.04, which is the binary64 number 0.07 is read
    as; a repayment of 0.07 is then accepted, and the amount paid becomes
    0.04 + 0.07, which is rounded to 0.11000000000000001, above 0.11. *)
Lemma C2_overshoot_counterexample :
  Kamela64.debts (Kamela64.run session_overshoot)
  = [Kamela64.mk_debt 1 dette "Awa" "0600" 0.11 (Some 0.11000000000000001%float)
                      (Some 0%float) "2024-01-01" (Some "2024-02-01"%string)
                      rembourse ""]
  /\ map Kamela64.r_amount (Kamela64.repayments (Kamela64.run session_overshoot))
     = [0.04%float; 0.07%float]
  /\ (0.11 <? 0.11000000000000001)%float = true.
Proof. repeat split. Qed.

(** C2, amended.  On an obligation that exists, a repayment whose amount is
    not positive, or is more than what remains as the dialog computed it
    ([total - paid] in binary64), raises [ValueError] ("Montant invalide"),
    shows it as an error and writes nothing.  Once what remains compares
    equal to 0, every entry fails and writes nothing: with an error box, or
    with the [IntegrityError] of the INSERT when the entry reads as NaN.
    A call either leaves the file as it was, or its amount passed the two
    tests and the amount paid is set to the binary64 sum [paid + amount]. *)
Theorem C2_invalid_repayment_rejected :
  forall (db : Kamela64.DB) (debt_id : Z) person total paid,
    Kamela64.select_debt debt_id db = Some (person, total, Some paid) ->
    let remaining := (total - paid)%float in
    (forall amount date_cal,
        (amount <=? 0)%float = true \/ (remaining <? amount)%float = true ->
        Kamela64.show_repayment_dialog_try debt_id total paid remaining
          (Kamela64.Number amount) date_cal db
        = (inl (Kamela64.ValueError "Montant invalide"), db)
        /\ Kamela64.apply_repayment debt_id (Kamela64.Number amount) date_cal db
           = (inr (showerror "Erreur" "Montant invalide"), db))
    /\ ((remaining =? 0)%float = true ->
        forall amount_var date_cal,
          (exists msg,
              Kamela64.apply_repayment debt_id amount_var date_cal db
              = (inr (showerror "Erreur" msg), db))
          \/ (exists msg,
                 Kamela64.apply_repayment debt_id amount_var date_cal db
                 = (inl (Kamela64.IntegrityError msg), db)))
    /\ (forall amount_var date_cal,
        let db' :=
          snd (Kamela64.apply_repayment debt_id amount_var date_cal db) in
        db' = db
        \/ exists amount,
            amount_var = Kamela64.Number amount
            /\ (amount <=? 0)%float = false
            /\ (remaining <? amount)%float = false
            /\ Kamela64.select_debt debt_id db'
               = Some (person, total, Sqlite.REAL (paid + amount))).
Proof.
  intros db debt_id person total paid Hsel remaining. subst remaining.
  split; [| split].
  - intros amount date_cal Hbad. split.
    + now apply repayment64_try_refused.
    + eapply apply_repayment64_refused; eauto.
  - intros Hzero.
    exact (repayment64_nothing_remains db debt_id person total paid Hsel Hzero).
  - intros amount_var date_cal db'. subst db'.
    destruct (repay64_cases db debt_id amount_var date_cal)
      as [[Hsame _]|(person' & total' & paid' & amount & Hsel' & -> & Hpos
                     & Hle & Hnan & Hrun)]; [now left |].
    right. exists amount. rewrite Hsel in Hsel'.
    injection Hsel' as <- <- <-. rewrite Hrun. cbn [snd].
    repeat (split; [auto; fail |]).
    exact (select_debt64_repaid _ _ _ _ _ _ _ _ _ Hsel).
Qed.

(** What remains of 0.3 after 0.2 is 0.09999999999999998: a repayment of
    0.1 is refused, nothing written. *)
Lemma C2_invalid_repayment_rejected_witness :
  Kamela64.apply_repayment 1 (Kamela64.Number 0.1) "2024-01-15"
    (Kamela64.run session_third)
  = (inr (showerror "Erreur" "Montant invalide"), Kamela64.run session_third).
Proof.
  apply (proj1 (C2_invalid_repayment_rejected (Kamela64.run session_third) 1
                  "Awa"%string 0.3%float 0.2%float eq_refl)
               0.1%float "2024-01-15"%string).
  right. reflexivity.
Defined.

(** C4 at an obligation opened with a principal of 0, which
    [add_debt_dialog.save] accepts: the row is stored 'actif' with
    [amount_paid >= amount], and no repayment can change it, for every
    entry is refused or fails; it is never 'remboursé'. *)
Theorem C4_zero_principal_never_settled :
  Kamela64.add_debt_dialog_save dette "Awa" "0600" (Kamela64.Number 0)
    (Kamela64.Number 0) "2024-01-01" "2024-02-01" "" Kamela64.empty_db
  = (inr (showinfo "Succès" "Enregistrement ajouté avec succès!"), db_zero)
  /\ Kamela64.debts db_zero
     = [Kamela64.mk_debt 1 dette "Awa" "0600" 0 (Some 0%float) (Some 0%float)
                         "2024-01-01" (Some "2024-02-01"%string) actif ""]
  /\ (0 <=? 0)%float = true
  /\ (forall amount_var date_cal,
         snd (Kamela64.apply_repayment 1 amount_var date_cal db_zero)
         = db_zero).
Proof.
  split; [reflexivity |]. split; [reflexivity |]. split; [reflexivity |].
  intros amount_var date_cal.
  destruct (repayment64_nothing_remains db_zero 1 "Awa"%string 0%float 0%float
              eq_refl eq_refl amount_var date_cal) as [[msg ->]|[msg ->]];
    reflexivity.
Qed.

(* ===================================================================== *)
(** ** The balance in binary64 *)
(* ===================================================================== *)

Lemma fold_left_add_map {A} (f : A -> PrimFloat.float) (l : list A)
      (acc : PrimFloat.float) :
  fold_left PrimFloat.add (map f l) acc
  = fold_left (fun acc x => (acc + f x)%float) l acc.
Proof. revert acc. induction l as [|x l IH]; intros acc; simpl; auto. Qed.

Lemma select_balance64_running (db : Kamela64.DB) :
  Kamela64.select_balance db
  = if PrimFloat.is_nan (running_sum 0 (Kamela64.transactions db))
    then 0%float
    else running_sum 0 (Kamela64.transactions db).
Proof.
  unfold Kamela64.select_balance, Sqlite.SUM_REAL, Sqlite.result_double,
    running_sum.
  rewrite <- (fold_left_add_map Kamela64.cash_effect).
  destruct (map _ (Kamela64.transactions db)) as [|x l]; [reflexivity |].
  now destruct (PrimFloat.is_nan _).
Qed.

(** The outcomes of [add_transaction_dialog.save], over every entry. *)
Lemma add_transaction64_cases (db : Kamela64.DB) ty cat amount_var date desc :
  (snd (Kamela64.add_transaction_dialog_save ty cat amount_var date desc db)
   = db
   /\ forall title msg,
        fst (Kamela64.add_transaction_dialog_save ty cat amount_var date desc db)
        <> inr (showinfo title msg))
  \/ exists amount,
      amount_var = Kamela64.Number amount
      /\ (amount <=? 0)%float = false /\ PrimFloat.is_nan amount = false
      /\ Kamela64.add_transaction_dialog_save ty cat amount_var date desc db
         = (inr (showinfo "Succès" "Transaction ajoutée avec succès!"),
            Kamela64.mk_DB
              (Kamela64.transactions db
               ++ [Kamela64.mk_transaction (Kamela64.seq_transactions db + 1)
                                           ty cat amount desc date])
              (Kamela64.debts db) (Kamela64.repayments db)
              (Kamela64.contacts db)
              (Kamela64.seq_transactions db + 1) (Kamela64.seq_debts db)
              (Kamela64.seq_repayments db) (Kamela64.seq_contacts db)).
Proof.
  unfold Kamela64.add_transaction_dialog_save, Kamela64.try_except_ValueError,
    Kamela64.bind, Kamela64.float, Kamela64.ret, Kamela64.raise.
  destruct amount_var as [amount|repr].
  - destruct (amount <=? 0)%float eqn:Hpos.
    + left. split; [reflexivity | discriminate].
    + unfold Kamela64.execute, Kamela64.insert_transaction.
      destruct (PrimFloat.is_nan amount) eqn:Hnan.
      * left. rewrite (REAL_nan amount Hnan).
        split; [reflexivity | discriminate].
      * right. exists amount. rewrite (REAL_positive amount Hpos Hnan).
        auto.
  - left. split; [reflexivity | discriminate].
Qed.

(** C5, as stated, fails: the balance is a running sum in binary64, and
    each addition rounds.  With an income of 0.48 and expenses of 0.39 and
    0.09 the sum of the incomes and the sum of the expenses are the same
    number, so that their difference is 0, and the balance
    [calculate_stats] returns is -2.7755575615628914e-17, a negative
    number. *)
Lemma C5_rounding_counterexample :
  fst (Kamela64.calculate_stats (Kamela64.run session_cents))
  = inr (Kamela64.mk_stats (-2.7755575615628914e-17)%float 0)
  /\ Kamela64.total_of revenu (Kamela64.run session_cents) = 0.48%float
  /\ Kamela64.total_of depense (Kamela64.run session_cents) = 0.48%float
  /\ (Kamela64.total_of revenu (Kamela64.run session_cents)
      - Kamela64.total_of depense (Kamela64.run session_cents))%float
     = 0%float
  /\ (-2.7755575615628914e-17 <? 0)%float = true.
Proof. repeat split. Qed.

(** C5, amended.  Whatever the file holds, [calculate_stats] reads the
    table of transactions as it is at the call and writes nothing.  Its
    balance is the running sum, over the rows in their order and from 0, of
    the amount of a 'revenu' row and of minus the amount of a 'depense'
    row, each addition rounded to binary64; it is 0 when that sum is a zero
    or is not a number.  Nothing else is looked at: two files with the same
    transactions have the same balance.  Recording a transaction appends
    its row, which adds its cash effect to the running sum with one
    rounding. *)
Theorem C5_balance_is_a_fresh_scan :
  forall db : Kamela64.DB,
    (exists st,
        Kamela64.calculate_stats db = (inr st, db)
        /\ Kamela64.balance st = Kamela64.or_0 (Kamela64.select_balance db))
    /\ Kamela64.select_balance db
       = (if PrimFloat.is_nan (running_sum 0 (Kamela64.transactions db))
          then 0%float
          else running_sum 0 (Kamela64.transactions db))
    /\ (forall db',
           Kamela64.transactions db' = Kamela64.transactions db ->
           Kamela64.select_balance db' = Kamela64.select_balance db)
    /\ (forall ty cat amount_var date desc db',
           Kamela64.add_transaction_dialog_save ty cat amount_var date desc db
           = (inr (showinfo "Succès" "Transaction ajoutée avec succès!"), db') ->
           exists amount,
             amount_var = Kamela64.Number amount
             /\ running_sum 0 (Kamela64.transactions db')
                = (running_sum 0 (Kamela64.transactions db)
                   + (if trans_type_eqb ty revenu then amount else - amount))%float).
Proof.
  intros db. split; [| split; [| split]].
  - eexists. split; reflexivity.
  - apply select_balance64_running.
  - intros db' H. now rewrite !select_balance64_running, H.
  - intros ty cat amount_var date desc db' Hrun.
    destruct (add_transaction64_cases db ty cat amount_var date desc)
      as [[_ Hfail]|(amount & -> & Hpos & Hnan & Hok)].
    + exfalso. rewrite Hrun in Hfail. now apply (Hfail _ _ eq_refl).
    + exists amount. split; [reflexivity |].
      rewrite Hok in Hrun. injection Hrun as <-.
      unfold running_sum.
      cbn [Kamela64.transactions]. rewrite fold_left_app. reflexivity.
Qed.

(** After the income of 0.48 and the expense of 0.39 the running sum is
    0.08999999999999997; the expense of 0.09 brings it below 0. *)
Lemma C5_balance_is_a_fresh_scan_witness :
  exists amount,
    Kamela64.Number 0.09 = Kamela64.Number amount
    /\ running_sum 0 (Kamela64.transactions (Kamela64.run session_cents))
       = (0.089999999999999969 + - amount)%float.
Proof.
  apply (proj2 (proj2 (proj2 (C5_balance_is_a_fresh_scan
                                (Kamela64.run (firstn 2 session_cents)))))
               depense "Loisirs"%string (Kamela64.Number 0.09)
               "2024-01-07"%string ""%string).
  reflexivity.
Defined.

(** X6.  The alert on the balance is returned exactly when the balance
    [calculate_stats] computed, from the running binary64 sum, is below 0,
    and it holds that balance; there are at most two alerts, the one on the
    balance first; and there is no alert exactly when the balance is not
    below 0 and no debt is late. *)
Theorem alerts_shape :
  forall (today : string) (db : Kamela64.DB),
    let late := Kamela64.select_late_debts today db in
    exists st alerts,
      Kamela64.calculate_stats db = (inr st, db)
      /\ Kamela64.load_alerts today db = (inr alerts, db)
      /\ (forall b, In (Kamela64.SoldeNegatif b) alerts
                    <-> b = Kamela64.balance st
                        /\ (Kamela64.balance st <? 0)%float = true)
      /\ (alerts = []
          <-> (Kamela64.balance st <? 0)%float = false /\ late <= 0)
      /\ (List.length alerts <= 2)%nat
      /\ (forall b n rest,
             alerts
             <> Kamela64.DettesEnRetard n :: Kamela64.SoldeNegatif b :: rest).
Proof.
  intros today db late. subst late.
  unfold Kamela64.load_alerts, Kamela64.calculate_stats, Kamela64.bind,
    Kamela64.fetch, Kamela64.ret.
  cbn [Kamela64.balance].
  set (b := Kamela64.or_0 (Kamela64.select_balance db)).
  set (late := Kamela64.select_late_debts today db).
  eexists. eexists. split; [reflexivity |]. split; [reflexivity |].
  cbn [Kamela64.balance].
  destruct (b <? 0)%float eqn:Hneg;
    destruct (Z.gtb_spec late 0) as [Hlate|Hnone]; cbn [app].
  - split; [| split; [| split]].
    + intros b'. split.
      * intros [H|[H|[]]]; [injection H as <-; auto | discriminate H].
      * intros [-> _]. now left.
    + split; [discriminate | intros [H _]; discriminate H].
    + simpl. lia.
    + intros b' n rest H. discriminate H.
  - split; [| split; [| split]].
    + intros b'. split.
      * intros [H|[]]. injection H as <-. auto.
      * intros [-> _]. now left.
    + split; [discriminate | intros [H _]; discriminate H].
    + simpl. lia.
    + intros b' n rest H. discriminate H.
  - split; [| split; [| split]].
    + intros b'.
      split; [intros [H|[]]; discriminate H | intros [_ H]; discriminate H].
    + split; [discriminate | lia].
    + simpl. lia.
    + intros b' n rest H. discriminate H.
  - split; [| split; [| split]].
    + intros b'. split; [intros [] | intros [_ H]; discriminate H].
    + split; [intros _; split; [reflexivity | lia] | reflexivity].
    + simpl. lia.
    + intros b' n rest H. discriminate H.
Qed.

(** With an income of 0.48 and expenses of 0.39 and 0.09, the alert on the
    balance is drawn. *)
Lemma alerts_shape_witness :
  exists alerts,
    Kamela64.load_alerts "2024-03-01" (Kamela64.run session_cents)
    = (inr alerts, Kamela64.run session_cents)
    /\ In (Kamela64.SoldeNegatif (-2.7755575615628914e-17)%float) alerts.
Proof.
  destruct (alerts_shape "2024-03-01" (Kamela64.run session_cents))
    as (st & alerts & Hst & Hrun & Hbal & _).
  exists alerts. split; [exact Hrun |].
  injection Hst as <-.
  apply Hbal. split; reflexivity.
Defined.

(** X7.  A transaction whose amount does not read as a number, or is not
    positive, is refused: the handler shows the error, with the message of
    the [ValueError] after "Montant invalide: ", and the file is left as it
    was.  An amount that reads as NaN passes the test and the INSERT fails
    with [IntegrityError], which the handler does not catch; the file is
    left as it was. *)
Theorem add_transaction_refused :
  forall (db : Kamela64.DB) ty cat date desc,
    (forall repr,
        Kamela64.add_transaction_dialog_save ty cat (Kamela64.NotANumber repr)
                                             date desc db
        = (inr (showerror "Erreur"
                  ("Montant invalide: could not convert string to float: "
                   ++ repr)), db))
    /\ (forall amount,
           (amount <=? 0)%float = true ->
           Kamela64.add_transaction_dialog_save ty cat (Kamela64.Number amount)
                                                date desc db
           = (inr (showerror "Erreur"
                     "Montant invalide: Le montant doit être positif"), db))
    /\ (forall amount,
           PrimFloat.is_nan amount = true ->
           Kamela64.add_transaction_dialog_save ty cat (Kamela64.Number amount)
                                                date desc db
           = (inl (Kamela64.IntegrityError
                     "NOT NULL constraint failed: transactions.amount"), db)).
Proof.
  intros db ty cat date desc. split; [reflexivity |]. split.
  - intros amount Hle.
    unfold Kamela64.add_transaction_dialog_save,
      Kamela64.try_except_ValueError, Kamela64.bind, Kamela64.float,
      Kamela64.ret, Kamela64.raise.
    now rewrite Hle.
  - intros amount Hnan.
    unfold Kamela64.add_transaction_dialog_save,
      Kamela64.try_except_ValueError, Kamela64.bind, Kamela64.float,
      Kamela64.ret, Kamela64.raise.
    rewrite (float_nan_leb amount 0 Hnan).
    unfold Kamela64.execute, Kamela64.insert_transaction.
    now rewrite (REAL_nan amount Hnan).
Qed.

Lemma add_transaction_refused_witness :
  Kamela64.add_transaction_dialog_save depense "Loisirs"
    (Kamela64.Number (-5)) "2024-01-07" "" Kamela64.empty_db
  = (inr (showerror "Erreur"
            "Montant invalide: Le montant doit être positif"),
     Kamela64.empty_db).
Proof.
  apply (proj1 (proj2 (add_transaction_refused Kamela64.empty_db depense
                         "Loisirs" "2024-01-07" "")) (-5)%float).
  reflexivity.
Defined.

Example add_transaction_abc :
  Kamela64.add_transaction_dialog_save depense "Loisirs"
    (Kamela64.NotANumber "'abc'") "2024-01-07" "" Kamela64.empty_db
  = (inr (showerror "Erreur"
            "Montant invalide: could not convert string to float: 'abc'"),
     Kamela64.empty_db).
Proof. reflexivity. Qed.

(* ===================================================================== *)
(** ** The obligations in binary64 *)
(* ===================================================================== *)

(** The outcomes of [add_debt_dialog.save], over every entry. *)
Lemma add_debt64_cases (db : Kamela64.DB) ty name phone amount_var rate_var
      start due desc :
  let db' := Kamela64.perform db
               (Kamela64.AddDebt ty name phone amount_var rate_var start due
                                 desc) in
  db' = db
  \/ exists amount rate a,
      amount_var = Kamela64.Number amount /\ rate_var = Kamela64.Number rate
      /\ Sqlite.REAL amount = Some a
      /\ Kamela64.debts db'
         = Kamela64.debts db
           ++ [Kamela64.mk_debt (Kamela64.seq_debts db + 1) ty name phone a
                                (Some 0%float) (Sqlite.REAL rate) start
                                (Some due) actif desc]
      /\ Kamela64.seq_debts db' = Kamela64.seq_debts db + 1
      /\ Kamela64.transactions db' = Kamela64.transactions db
      /\ Kamela64.repayments db' = Kamela64.repayments db.
Proof.
  cbv zeta. cbn [Kamela64.perform].
  unfold Kamela64.add_debt_dialog_save, Kamela64.try_except_ValueError,
    Kamela64.add_debt_dialog_try, Kamela64.bind, Kamela64.float, Kamela64.ret,
    Kamela64.raise, Kamela64.execute, Kamela64.fetch, Kamela64.commit,
    Kamela64.insert_debt, Kamela64.insert_contact.
  destruct amount_var as [amount|]; [| now left].
  destruct rate_var as [rate|]; [| now left].
  destruct (Sqlite.REAL amount) as [a|] eqn:Ha; cbv beta iota zeta;
    [| now left].
  right. exists amount, rate, a.
  split; [reflexivity |]. split; [reflexivity |]. split; [exact Ha |].
  match goal with
  | |- context [if ?c then _ else _] => destruct c
  end; cbv beta iota zeta; now repeat split.
Qed.

Lemma NoDup_map64_eq (l : list Kamela64.debt) (a b : Kamela64.debt) :
  NoDup (map Kamela64.d_id l) -> In a l -> In b l ->
  Kamela64.d_id a = Kamela64.d_id b -> a = b.
Proof.
  induction l as [|x l IH]; simpl; [easy |].
  intros Hnd [->|Ha] [->|Hb] Heq; auto.
  - apply NoDup_cons_iff in Hnd. destruct Hnd as [Hnot _].
    exfalso. apply Hnot. rewrite Heq. now apply in_map.
  - apply NoDup_cons_iff in Hnd. destruct Hnd as [Hnot _].
    exfalso. apply Hnot. rewrite <- Heq. now apply in_map.
  - apply NoDup_cons_iff in Hnd. destruct Hnd as [_ Hnd]. now apply IH.
Qed.

Lemma set_paid_status_agrees (d : Kamela64.debt) (new_paid : PrimFloat.float) :
  status_agrees64
    (Kamela64.set_paid_status
       (Sqlite.REAL new_paid)
       (if (Kamela64.d_amount d <=? new_paid)%float then rembourse else actif)
       d).
Proof.
  unfold status_agrees64. cbn [Kamela64.set_paid_status Kamela64.d_status
                               Kamela64.d_amount Kamela64.d_amount_paid].
  destruct (Kamela64.d_amount d <=? new_paid)%float eqn:E.
  - split; [| now left]. split; [intros _ | reflexivity].
    pose proof (float_leb_not_nan _ _ E) as Hnan.
    destruct (Sqlite.REAL new_paid) as [p|] eqn:Hp.
    + exists p. split; [reflexivity |]. now rewrite (REAL_leb _ _ _ Hp).
    + unfold Sqlite.REAL in Hp. rewrite Hnan in Hp.
      destruct (new_paid =? 0)%float; discriminate.
  - split; [| now right]. split; [discriminate |].
    intros (p & Hp & Hle). rewrite (REAL_leb _ _ _ Hp) in Hle. congruence.
Qed.

Lemma perform_debts64_ok (db : Kamela64.DB) (a : Kamela64.action) :
  debts64_ok db -> debts64_ok (Kamela64.perform db a).
Proof.
  intros (H1 & H2 & H3). destruct a.
  - cbn [Kamela64.perform].
    destruct (add_transaction64_cases db type_var cat_var amount_var date_cal
                                      desc_var)
      as [[-> _]|(amount & _ & _ & _ & ->)]; now repeat split.
  - now repeat split.
  - destruct (add_debt64_cases db type_var name_var phone_var amount_var
                               rate_var start_cal due_cal desc_text)
      as [->|(amount & rate & a & _ & _ & _ & Hd & Hs & _)];
      [now repeat split |].
    unfold debts64_ok. rewrite Hd, Hs. repeat split.
    + rewrite map_app. apply NoDup_app; [exact H1 | repeat constructor; easy |].
      intros id Hin [<-|[]]. apply in_map_iff in Hin.
      destruct Hin as (d & Hid & Hin).
      rewrite Forall_forall in H2. specialize (H2 d Hin).
      cbn [Kamela64.d_id] in Hid. lia.
    + apply Forall_app. split.
      * eapply Forall_impl; [| exact H2]. cbv beta. intros; lia.
      * repeat constructor. cbn [Kamela64.d_id]. lia.
    + apply Forall_app. split; [exact H3 |]. constructor; [| constructor].
      cbn [Kamela64.d_amount]. intros Hpos.
      apply float_ltb_not_leb in Hpos.
      unfold status_agrees64. cbn [Kamela64.d_status Kamela64.d_amount
                                   Kamela64.d_amount_paid].
      split; [| now right]. split; [discriminate |].
      intros (p & Hp & Hle). injection Hp as <-. congruence.
  - now repeat split.
  - cbn [Kamela64.perform].
    destruct (repay64_cases db debt_id amount_var date_cal)
      as [[-> _]|(person & total & paid & amount & Hsel & _ & _ & _ & _ & ->)];
      [now repeat split |].
    cbn [snd]. unfold debts64_ok, repaid64.
    cbn [Kamela64.debts Kamela64.seq_debts].
    destruct (select_debt64_In _ _ _ _ _ Hsel)
      as (d0 & Hin0 & Hid0 & _ & Htotal & _).
    assert (Hids : map Kamela64.d_id
                     (map (fun d => if Kamela64.d_id d =? debt_id
                                    then Kamela64.set_paid_status
                                           (Sqlite.REAL (paid + amount))
                                           (if (total <=? paid + amount)%float
                                            then rembourse else actif) d
                                    else d)
                          (Kamela64.debts db))
                   = map Kamela64.d_id (Kamela64.debts db)).
    { rewrite map_map. apply map_ext. intros d.
      now destruct (Kamela64.d_id d =? debt_id). }
    repeat split.
    + now rewrite Hids.
    + rewrite Forall_map. eapply Forall_impl; [| exact H2]. cbv beta.
      intros d Hd. now destruct (Kamela64.d_id d =? debt_id).
    + rewrite Forall_map. rewrite Forall_forall in *. intros d Hin.
      destruct (Z.eqb_spec (Kamela64.d_id d) debt_id) as [Hid|_];
        [| now apply H3].
      intros _.
      assert (d = d0)
        by (apply (NoDup_map64_eq (Kamela64.debts db)); auto; congruence).
      subst d0. rewrite <- Htotal. apply set_paid_status_agrees.
Qed.

Lemma run_debts64_ok (actions : list Kamela64.action) :
  debts64_ok (Kamela64.run actions).
Proof.
  unfold Kamela64.run.
  assert (H : debts64_ok Kamela64.empty_db)
    by (unfold debts64_ok; simpl; repeat split; constructor).
  revert H. generalize Kamela64.empty_db.
  induction actions as [|a actions IH]; simpl; intros db H;
    [exact H | apply IH, perform_debts64_ok, H].
Qed.

Lemma select_debt64_unique (db : Kamela64.DB) (d : Kamela64.debt) :
  NoDup (map Kamela64.d_id (Kamela64.debts db)) -> In d (Kamela64.debts db) ->
  Kamela64.select_debt (Kamela64.d_id d) db
  = Some (Kamela64.d_person_name d, Kamela64.d_amount d,
          Kamela64.d_amount_paid d).
Proof.
  intros Hnd Hin. unfold Kamela64.select_debt.
  destruct (filter _ (Kamela64.debts db)) as [|d' l] eqn:E.
  - assert (Hf : In d (filter (fun x => Kamela64.d_id x =? Kamela64.d_id d)
                              (Kamela64.debts db)))
      by (apply filter_In; split; [exact Hin | apply Z.eqb_refl]).
    rewrite E in Hf. destruct Hf.
  - assert (Hf : In d' (filter (fun x => Kamela64.d_id x =? Kamela64.d_id d)
                               (Kamela64.debts db)))
      by (rewrite E; now left).
    apply filter_In in Hf. destruct Hf as [Hin' Hid]. apply Z.eqb_eq in Hid.
    now rewrite (NoDup_map64_eq (Kamela64.debts db) d' d Hnd Hin' Hin Hid).
Qed.

Lemma update_debt64_split (l1 l2 : list Kamela64.debt) (d : Kamela64.debt)
      (f : Kamela64.debt -> Kamela64.debt) :
  NoDup (map Kamela64.d_id (l1 ++ d :: l2)) ->
  map (fun x => if Kamela64.d_id x =? Kamela64.d_id d then f x else x)
      (l1 ++ d :: l2)
  = l1 ++ f d :: l2.
Proof.
  intros Hnd. rewrite map_app in Hnd. simpl in Hnd.
  apply NoDup_remove_2 in Hnd.
  rewrite map_app. simpl. rewrite Z.eqb_refl.
  assert (Hkeep : forall l,
             (forall x, In x l -> Kamela64.d_id x <> Kamela64.d_id d) ->
             map (fun x => if Kamela64.d_id x =? Kamela64.d_id d
                           then f x else x) l
             = l).
  { induction l as [|x l IH]; simpl; [reflexivity |]. intros H.
    destruct (Z.eqb_spec (Kamela64.d_id x) (Kamela64.d_id d)) as [E|_].
    - exfalso. apply (H x); auto.
    - f_equal. apply IH. intros y Hy. apply H. now right. }
  rewrite !Hkeep; [reflexivity | |];
    intros x Hx Heq; apply Hnd; rewrite <- Heq; apply in_or_app;
    [right | left]; now apply in_map.
Qed.

(** X19.  After any session, an accepted repayment on a debt of the table
    rewrites that row and no other, in place: the amount paid becomes the
    binary64 sum of what was paid and the repayment, the status is
    'remboursé' when that sum is at least the principal and 'actif'
    otherwise, and the other columns and the other rows are as they
    were. *)
Theorem repayment_rewrites_one_row :
  forall (actions : list Kamela64.action) (d : Kamela64.debt)
         (paid amount : PrimFloat.float) date_cal,
    let db := Kamela64.run actions in
    In d (Kamela64.debts db) ->
    Kamela64.d_amount_paid d = Some paid ->
    (amount <=? 0)%float = false ->
    (Kamela64.d_amount d - paid <? amount)%float = false ->
    PrimFloat.is_nan amount = false ->
    exists l1 l2,
      Kamela64.debts db = l1 ++ d :: l2
      /\ Kamela64.debts
           (Kamela64.perform db
              (Kamela64.Repay (Kamela64.d_id d) (Kamela64.Number amount)
                              date_cal))
         = l1
           ++ Kamela64.mk_debt
                (Kamela64.d_id d) (Kamela64.d_type d)
                (Kamela64.d_person_name d) (Kamela64.d_phone d)
                (Kamela64.d_amount d) (Sqlite.REAL (paid + amount))
                (Kamela64.d_interest_rate d) (Kamela64.d_start_date d)
                (Kamela64.d_due_date d)
                (if (Kamela64.d_amount d <=? paid + amount)%float
                 then rembourse else actif)
                (Kamela64.d_description d)
           :: l2.
Proof.
  intros actions d paid amount date_cal db Hin Hpaid Hpos Hle Hnan.
  destruct (run_debts64_ok actions) as (Hnd & _). fold db in Hnd.
  destruct (in_split _ _ Hin) as (l1 & l2 & Hsplit).
  exists l1, l2. split; [exact Hsplit |].
  cbn [Kamela64.perform].
  pose proof (select_debt64_unique db d Hnd Hin) as Hsel.
  rewrite Hpaid in Hsel.
  rewrite (apply_repayment64_accepted _ _ _ _ _ _ _ Hsel Hpos Hle Hnan).
  cbn [snd repaid64 Kamela64.debts]. rewrite Hsplit.
  now rewrite (update_debt64_split l1 l2 d) by (now rewrite <- Hsplit).
Qed.

(** On a debt of 0.04 of which 0.03 is paid, a repayment of 0.01 is
    accepted and the debt is 'remboursé'. *)
Lemma repayment_rewrites_one_row_witness :
  exists l1 l2,
    Kamela64.debts (Kamela64.run session_four_cents)
    = l1 ++ Kamela64.mk_debt 1 dette "Awa" "0600" 0.04 (Some 0.03%float)
                             (Some 0%float) "2024-01-01"
                             (Some "2024-02-01"%string) actif "" :: l2
    /\ Kamela64.debts
         (Kamela64.perform (Kamela64.run session_four_cents)
            (Kamela64.Repay 1 (Kamela64.Number 0.01) "2024-01-20"))
       = l1 ++ Kamela64.mk_debt 1 dette "Awa" "0600" 0.04 (Some 0.04%float)
                                (Some 0%float) "2024-01-01"
                                (Some "2024-02-01"%string) rembourse "" :: l2.
Proof.
  apply (repayment_rewrites_one_row session_four_cents
           (Kamela64.mk_debt 1 dette "Awa" "0600" 0.04 (Some 0.03%float)
                             (Some 0%float) "2024-01-01"
                             (Some "2024-02-01"%string) actif "")
           0.03%float 0.01%float "2024-01-20");
    try reflexivity.
  simpl. left. reflexivity.
Defined.

Lemma late_count64_without (today : string) (debt_id : Z) new_paid
      (l : list Kamela64.debt) :
  Sqlite.COUNT
    (filter (fun d => Sqlite.where_lt (Kamela64.d_due_date d) today
                      && debt_status_eqb (Kamela64.d_status d) actif)
            (map (fun d => if Kamela64.d_id d =? debt_id
                           then Kamela64.set_paid_status new_paid rembourse d
                           else d)
                 l))
  = Sqlite.COUNT
      (filter (fun d => Sqlite.where_lt (Kamela64.d_due_date d) today
                        && debt_status_eqb (Kamela64.d_status d) actif
                        && negb (Kamela64.d_id d =? debt_id))
              l).
Proof.
  unfold Sqlite.COUNT. f_equal.
  induction l as [|d l IH]; [reflexivity |].
  cbn [map filter].
  destruct (Kamela64.d_id d =? debt_id);
    cbn [Kamela64.set_paid_status Kamela64.d_status Kamela64.d_due_date
         debt_status_eqb negb].
  - rewrite !andb_false_r. exact IH.
  - rewrite andb_true_r.
    destruct (_ && _); cbn [List.length]; now rewrite IH.
Qed.

(** X21.  A repayment that is accepted and brings the amount paid, the
    binary64 sum [paid + amount], to the principal or above takes the
    obligation out of every view: after it, every row with that id is
    'remboursé', no row that a listing, the deadlines table or the list of
    the dashboard goes through has that id, and the late debts counted are
    the late debts of before with another id. *)
Theorem settled_debt_leaves_the_views :
  forall (db : Kamela64.DB) debt_id person total paid amount date_cal today
         week_later ty,
    Kamela64.select_debt debt_id db = Some (person, total, Some paid) ->
    (amount <=? 0)%float = false ->
    (total - paid <? amount)%float = false ->
    PrimFloat.is_nan amount = false ->
    (total <=? paid + amount)%float = true ->
    let db' :=
      Kamela64.perform db
        (Kamela64.Repay debt_id (Kamela64.Number amount) date_cal) in
    (forall d, In d (Kamela64.debts db') -> Kamela64.d_id d = debt_id ->
               Kamela64.d_status d = rembourse)
    /\ (forall d, In d (Kamela64.select_debts_data ty db') ->
                  Kamela64.d_id d <> debt_id)
    /\ (forall d, In d (Kamela64.select_deadlines today db') ->
                  Kamela64.d_id d <> debt_id)
    /\ (forall d, In d (Kamela64.select_upcoming today week_later db') ->
                  Kamela64.d_id d <> debt_id)
    /\ Kamela64.select_late_debts today db'
       = Sqlite.COUNT
           (filter (fun d => Sqlite.where_lt (Kamela64.d_due_date d) today
                             && debt_status_eqb (Kamela64.d_status d) actif
                             && negb (Kamela64.d_id d =? debt_id))
                   (Kamela64.debts db)).
Proof.
  intros db debt_id person total paid amount date_cal today week_later ty
         Hsel Hpos Hle Hnan Hfull db'.
  assert (E : db' = repaid64 debt_id total paid amount date_cal db).
  { subst db'. cbn [Kamela64.perform].
    now rewrite (apply_repayment64_accepted _ _ _ _ _ _ _ Hsel Hpos Hle Hnan). }
  assert (Hst : forall d, In d (Kamela64.debts db') ->
                          Kamela64.d_id d = debt_id ->
                          Kamela64.d_status d = rembourse).
  { rewrite E. unfold repaid64. cbn [Kamela64.debts]. rewrite Hfull.
    intros d Hin Hid. apply in_map_iff in Hin.
    destruct Hin as (d1 & <- & _).
    destruct (Z.eqb_spec (Kamela64.d_id d1) debt_id);
      [reflexivity | contradiction]. }
  split; [exact Hst |]. split; [| split; [| split]].
  - intros d Hin Hid. unfold Kamela64.select_debts_data in Hin.
    apply order_by_In, filter_In in Hin. destruct Hin as [Hin Hf].
    rewrite (Hst d Hin Hid) in Hf.
    rewrite andb_false_r in Hf. discriminate.
  - intros d Hin Hid. unfold Kamela64.select_deadlines in Hin.
    apply order_by_In, filter_In in Hin. destruct Hin as [Hin Hf].
    rewrite (Hst d Hin Hid) in Hf.
    rewrite andb_false_r in Hf. discriminate.
  - intros d Hin Hid. unfold Kamela64.select_upcoming in Hin.
    apply order_by_In, filter_In in Hin. destruct Hin as [Hin Hf].
    rewrite (Hst d Hin Hid) in Hf.
    rewrite andb_false_r in Hf. discriminate.
  - rewrite E. unfold Kamela64.select_late_debts, repaid64.
    cbn [Kamela64.debts]. rewrite Hfull. apply late_count64_without.
Qed.

Lemma settled_debt_leaves_the_views_witness :
  Kamela64.select_late_debts "2024-03-01"
    (Kamela64.perform (Kamela64.run session_four_cents)
       (Kamela64.Repay 1 (Kamela64.Number 0.01) "2024-01-20"))
  = 0.
Proof.
  apply (settled_debt_leaves_the_views (Kamela64.run session_four_cents) 1
           "Awa" 0.04%float 0.03%float 0.01%float "2024-01-20" "2024-03-01"
           "2024-03-08" dette);
    reflexivity.
Defined.

(** On a debt of 0.03 of which 0.01 is paid, what remains is computed as
    0.019999999999999997: a repayment of 0.02 is refused, and the debt
    stays in the listing. *)
Example two_cents_refused :
  Kamela64.apply_repayment 1 (Kamela64.Number 0.02) "2024-01-20"
    (Kamela64.run session_three_cents)
  = (inr (showerror "Erreur" "Montant invalide"),
     Kamela64.run session_three_cents)
  /\ map Kamela64.d_id
         (Kamela64.select_debts_data dette (Kamela64.run session_three_cents))
     = [1].
Proof. split; reflexivity. Qed.

(** X30.  After any session, an obligation whose principal is above 0 is
    'remboursé' exactly when its amount paid is at least its principal, as
    binary64 numbers, and 'actif' otherwise. *)
Theorem status_follows_amount_paid :
  forall (actions : list Kamela64.action) (d : Kamela64.debt),
    In d (Kamela64.debts (Kamela64.run actions)) ->
    (0 <? Kamela64.d_amount d)%float = true ->
    (Kamela64.d_status d = rembourse
     <-> exists paid, Kamela64.d_amount_paid d = Some paid
                      /\ (Kamela64.d_amount d <=? paid)%float = true)
    /\ (Kamela64.d_status d = rembourse \/ Kamela64.d_status d = actif).
Proof.
  intros actions d Hin Hpos.
  destruct (run_debts64_ok actions) as (_ & _ & H3).
  rewrite Forall_forall in H3. exact (H3 d Hin Hpos).
Qed.

Lemma status_follows_amount_paid_witness :
  (rembourse = rembourse
   <-> exists paid, Some 0.11000000000000001%float = Some paid
                    /\ (0.11 <=? paid)%float = true)
  /\ (rembourse = rembourse \/ rembourse = actif).
Proof.
  apply (status_follows_amount_paid session_overshoot
           (Kamela64.mk_debt 1 dette "Awa" "0600" 0.11
                             (Some 0.11000000000000001%float) (Some 0%float)
                             "2024-01-01" (Some "2024-02-01"%string)
                             rembourse "")).
  - simpl. left. reflexivity.
  - reflexivity.
Defined.

